(** * IMKAN AI Agents: the per-plot processing pipeline, its ledger and its retry policy

    A shallow embedding of the TypeScript sources
      - [src/utils/retry.ts]                     (module [Retry]),
      - [src/agents/dari-site-plan-agent.ts]     (modules [Ledger], [SitePlan]),
      - [src/agents/dari-affection-plan-agent.ts] (module [AffectionPlan]),
    followed by the properties of the workflow core.

    Conventions of the embedding.
      - The browser page (Stagehand's [observe], [act], [extract], ...) is an
        interface [Page W] over an arbitrary world [W]: every call takes the
        world and returns the next one together with its result or the value
        it throws.  Nothing is assumed about the page.
      - An agent method is a function [St A -> St A * Res X]: the world, the
        journal of page calls made so far, and the fields of the agent object.
      - A JavaScript string is held as the bytes of its UTF-8 encoding, which
        is what a string literal of this file is; [length], [trim] and the
        class [\s] count and recognise characters, not bytes.  [includes],
        [toLowerCase], [trim] and the regular expressions of the sources are
        executable.
      - A JavaScript number is an IEEE 754 binary64 value ([spec_float] with
        precision 53): [parseFloat], products, differences, comparisons,
        [toFixed] and [String] round as the language does.
      - [console.log] is not modelled. *)

From Stdlib Require Import ZArith List String Ascii Bool Lia SpecFloat Sorted.
Import ListNotations.
Local Open Scope string_scope.
Local Open Scope Z_scope.

Set Implicit Arguments.

(* ===================================================================== *)
(** * Part I: definitions                                                 *)
(* ===================================================================== *)

(** ** JavaScript values, strings and regular expressions *)

Module Js.

(** What a [throw] carries: an [Error] with its message, some other value
    (kept as its [String(...)] rendering), or [undefined]. *)
Inductive Value : Type :=
| Error (message : string)
| Other (rendering : string)
| Undefined.

(** [error instanceof Error ? error : new Error(String(error))] *)
Definition toError (error : Value) : Value :=
  match error with
  | Error m => Error m
  | Other s => Error s
  | Undefined => Error "undefined"
  end.

(** [error instanceof Error ? error.message : String(error)] *)
Definition messageOf (error : Value) : string :=
  match error with
  | Error m => m
  | Other s => s
  | Undefined => "undefined"
  end.

(** Outcome of running a piece of code: a value, a thrown value, or no
    outcome within the given number of loop iterations (only the two loops
    of the sources that have no bound of their own can produce [Diverge]). *)
Inductive Res (A : Type) : Type :=
| Ok (a : A)
| Throw (e : Value)
| Diverge.
Arguments Ok {A} a.
Arguments Throw {A} e.
Arguments Diverge {A}.

(** *** Strings *)

Definition truthy (s : string) : bool :=
  match s with EmptyString => false | _ => true end.

Definition truthy_opt (o : option string) : bool :=
  match o with Some s => truthy s | None => false end.

(** The double-quote character, for the texts that contain one. *)
Definition dquote : string := String (ascii_of_nat 34) EmptyString.

Definition lower_ascii (c : ascii) : ascii :=
  let n := nat_of_ascii c in
  if (andb (Nat.leb 65 n) (Nat.leb n 90)) then ascii_of_nat (n + 32) else c.

(** The string of the bytes [l]. *)
Definition bytes (l : list Z) : string :=
  List.fold_right (fun n s => String (ascii_of_nat (Z.to_nat n)) s) EmptyString l.

Definition is_byte (n : Z) (c : ascii) : bool := Z.of_nat (nat_of_ascii c) =? n.

(** [s.toLowerCase()] as far as a search for ASCII text in the result can
    tell: the ASCII letters, and the two characters beyond ASCII whose
    lower case holds an ASCII letter, U+212A (Kelvin sign, to [k]) and
    U+0130 (dotted capital I, to [i] and U+0307).  The other characters
    beyond ASCII are left as they are; their lower case is beyond ASCII
    too. *)
Fixpoint toLowerCase (s : string) : string :=
  match s with
  | EmptyString => EmptyString
  | String c r =>
      let plain := String (lower_ascii c) (toLowerCase r) in
      match r with
      | String d r1 =>
          if andb (is_byte 196 c) (is_byte 176 d)
          then ("i" ++ bytes [204; 135]) ++ toLowerCase r1
          else
            match r1 with
            | String e r2 =>
                if andb (is_byte 226 c) (andb (is_byte 132 d) (is_byte 170 e))
                then String "k"%char (toLowerCase r2)
                else plain
            | EmptyString => plain
            end
      | EmptyString => plain
      end
  end.

(** [s.length]: the UTF-16 code units of the text, one for a character of
    one, two or three bytes and two for a character of four. *)
Definition code_units (c : ascii) : nat :=
  let n := nat_of_ascii c in
  if Nat.ltb n 128 then 1
  else if Nat.ltb n 192 then 0
  else if Nat.ltb n 240 then 1
  else 2.

Fixpoint js_length (s : string) : nat :=
  match s with
  | EmptyString => 0
  | String c r => code_units c + js_length r
  end.

Fixpoint startsWith (s prefix : string) : bool :=
  match prefix, s with
  | EmptyString, _ => true
  | String p pr, String c r => if Ascii.eqb p c then startsWith r pr else false
  | String _ _, EmptyString => false
  end.

(** [s.includes(needle)] *)
Fixpoint includes (s needle : string) : bool :=
  if startsWith s needle then true
  else match s with
       | EmptyString => false
       | String _ r => includes r needle
       end.

(** The white space and line terminators of one byte: tab, line feed,
    vertical tab, form feed, carriage return and space. *)
Definition is_ascii_space (c : ascii) : bool :=
  let n := nat_of_ascii c in
  orb (Nat.eqb n 32) (andb (Nat.leb 9 n) (Nat.leb n 13)).

(** Those of more than one byte: U+00A0, U+1680, U+2000 to U+200A, U+2028,
    U+2029, U+202F, U+205F, U+3000 and U+FEFF.  Together with
    [is_ascii_space] they are what [\s] matches and [trim] removes. *)
Definition wide_spaces : list string :=
  [ bytes [194; 160]; bytes [225; 154; 128];
    bytes [226; 128; 128]; bytes [226; 128; 129]; bytes [226; 128; 130];
    bytes [226; 128; 131]; bytes [226; 128; 132]; bytes [226; 128; 133];
    bytes [226; 128; 134]; bytes [226; 128; 135]; bytes [226; 128; 136];
    bytes [226; 128; 137]; bytes [226; 128; 138];
    bytes [226; 128; 168]; bytes [226; 128; 169]; bytes [226; 128; 175];
    bytes [226; 129; 159]; bytes [227; 128; 128]; bytes [239; 187; 191] ].

(** The bytes of the white-space character [s] begins with; [0] when it
    begins with none. *)
Definition space_width (s : string) : nat :=
  match s with
  | EmptyString => 0
  | String c _ =>
      if is_ascii_space c then 1
      else match List.find (startsWith s) wide_spaces with
           | Some w => String.length w
           | None => 0
           end
  end.

Definition is_digit (c : ascii) : bool :=
  let n := nat_of_ascii c in andb (Nat.leb 48 n) (Nat.leb n 57).

Definition is_alpha (c : ascii) : bool :=
  let n := nat_of_ascii (lower_ascii c) in andb (Nat.leb 97 n) (Nat.leb n 122).

Fixpoint drop_string (n : nat) (s : string) : string :=
  match n, s with
  | S n', String _ r => drop_string n' r
  | _, _ => s
  end.

(** [s.trimStart()]; [fuel] bounds the characters removed. *)
Fixpoint trimStart_from (fuel : nat) (s : string) : string :=
  match fuel with
  | O => s
  | S fuel' =>
      match space_width s with
      | O => s
      | w => trimStart_from fuel' (drop_string w s)
      end
  end.

Definition trimStart (s : string) : string := trimStart_from (String.length s) s.

(** [s.trimEnd()]: the text up to the white space it ends with. *)
Fixpoint trimEnd (s : string) : string :=
  match s with
  | EmptyString => EmptyString
  | String c r =>
      match trimStart s with
      | EmptyString => EmptyString
      | _ => String c (trimEnd r)
      end
  end.

Definition trim (s : string) : string := trimEnd (trimStart s).

Fixpoint filter_string (p : ascii -> bool) (s : string) : string :=
  match s with
  | EmptyString => EmptyString
  | String c r => if p c then String c (filter_string p r) else filter_string p r
  end.

Fixpoint take_string (n : nat) (s : string) : string :=
  match n, s with
  | S n', String c r => String c (take_string n' r)
  | _, _ => EmptyString
  end.

(** *** Regular expressions (the subset the sources use) *)

Inductive Regex : Type :=
| Eps
| Chr (p : ascii -> bool)      (* one character of a class *)
| Lit (s : string)             (* literal text, compared exactly *)
| LitI (s : string)            (* literal text under the [i] flag *)
| Seq (a b : Regex)
| Alt (a b : Regex)
| Star (a : Regex)             (* greedy [a*] *)
| Group (a : Regex).           (* capturing group *)

Definition Opt (a : Regex) : Regex := Alt a Eps.          (* [a?] *)
Definition Plus (a : Regex) : Regex := Seq a (Star a).    (* [a+] *)
Fixpoint AtLeast (n : nat) (a : Regex) : Regex :=         (* [a{n,}] *)
  match n with
  | O => Star a
  | S n' => Seq a (AtLeast n' a)
  end.

Fixpoint strip_prefix (ci : bool) (prefix s : string) : option string :=
  match prefix, s with
  | EmptyString, _ => Some s
  | String p pr, String c r =>
      if (if ci then Ascii.eqb (lower_ascii p) (lower_ascii c) else Ascii.eqb p c)
      then strip_prefix ci pr r else None
  | String _ _, EmptyString => None
  end.

(** Backtracking matcher at the head of [s], in continuation-passing style:
    [k] receives the rest of the string and the captures so far. *)
Fixpoint rmatch (R : Type) (r : Regex) (fuel : nat) (s : string) (caps : list string)
         (k : string -> list string -> option R) {struct r} : option R :=
  match r with
  | Eps => k s caps
  | Chr p =>
      match s with
      | String c rest => if p c then k rest caps else None
      | EmptyString => None
      end
  | Lit l => match strip_prefix false l s with Some rest => k rest caps | None => None end
  | LitI l => match strip_prefix true l s with Some rest => k rest caps | None => None end
  | Seq a b => rmatch a fuel s caps (fun s' caps' => rmatch b fuel s' caps' k)
  | Alt a b =>
      match rmatch a fuel s caps k with
      | Some x => Some x
      | None => rmatch b fuel s caps k
      end
  | Star a =>
      (fix star (n : nat) (s : string) (caps : list string) : option R :=
         match n with
         | O => k s caps
         | S n' =>
             match rmatch a fuel s caps
                     (fun s' caps' =>
                        if Nat.ltb (String.length s') (String.length s)
                        then star n' s' caps' else None) with
             | Some x => Some x
             | None => k s caps
             end
         end) fuel s caps
  | Group a =>
      rmatch a fuel s caps
        (fun s' caps' =>
           k s' (caps' ++ [take_string (String.length s - String.length s') s])%list)
  end.

(** [s.match(r)] without the [g] flag: the captures of the leftmost match. *)
Fixpoint regex_match (r : Regex) (s : string) : option (list string) :=
  match rmatch r (S (String.length s)) s [] (fun _ caps => Some caps) with
  | Some caps => Some caps
  | None =>
      match s with
      | String _ rest => regex_match r rest
      | EmptyString => None
      end
  end.

(** [match[1]] of [s.match(r)], when there is a match and the group is non-empty. *)
Definition match1 (r : Regex) (s : string) : option string :=
  match regex_match r s with
  | Some (g :: _) => if truthy g then Some g else None
  | _ => None
  end.

Definition regex_test (r : Regex) (s : string) : bool :=
  match regex_match r s with Some _ => true | None => false end.

Definition cls_space : Regex :=                                     (* [\s] *)
  List.fold_right (fun w r => Alt (Lit w) r) (Chr is_ascii_space) wide_spaces.
Definition cls_digit : Regex := Chr is_digit.                       (* [\d] *)
Definition cls_id : Regex :=                                        (* [[A-Z0-9-]] under [i] *)
  Chr (fun c => orb (orb (is_alpha c) (is_digit c)) (Ascii.eqb c "-"%char)).
Definition cls_alnum : Regex :=                                     (* [[A-Z0-9]] under [i] *)
  Chr (fun c => orb (is_alpha c) (is_digit c)).
Definition decimal : Regex :=                                       (* [\d+(?:\.\d+)?] *)
  Seq (Plus cls_digit) (Opt (Seq (Lit ".") (Plus cls_digit))).

(** *** Numbers *)

(** A JavaScript number: an IEEE 754 binary64 value. *)
Definition number : Type := spec_float.
Definition prec : Z := 53.
Definition emax : Z := 1024.

Definition NaN : number := S754_nan.

Definition isNaN (x : number) : bool :=
  match x with S754_nan => true | _ => false end.

(** The number nearest to the fraction [n / d], ties to the even
    significand: the Number value of a decimal numeral. *)
Definition nearest (n d : positive) : number :=
  let '(m, e, l) := SFdiv_core_binary prec emax (Zpos n) 0 (Zpos d) 0 in
  binary_round_aux prec emax false m e l.

Definition number_of_fraction (n : Z) (d : positive) : number :=
  match n with
  | Z0 => S754_zero false
  | Zpos p => nearest p d
  | Zneg p => SFopp (nearest p d)
  end.

(** A length or count as a number. *)
Definition number_of_nat (n : nat) : number := number_of_fraction (Z.of_nat n) 1.

Definition digit_val (c : ascii) : Z := Z.of_nat (nat_of_ascii c) - 48.

Fixpoint read_digits (s : string) (acc : Z) (n : nat) : Z * nat * string :=
  match s with
  | String c r => if is_digit c then read_digits r (10 * acc + digit_val c) (S n) else (acc, n, s)
  | EmptyString => (acc, n, s)
  end.

(** [parseFloat] on a string of digits and dots (what is left after
    [replace(/[^0-9.]/g, '')]): the number nearest to the longest leading
    decimal numeral, [NaN] when there is none. *)
Definition parseFloat (s : string) : number :=
  let '(ip, ni, rest) := read_digits s 0 O in
  match rest with
  | String "."%char r =>
      let '(fp, nf, _) := read_digits r 0 O in
      if andb (Nat.eqb ni 0) (Nat.eqb nf 0) then NaN
      else number_of_fraction (ip * 10 ^ Z.of_nat nf + fp) (Z.to_pos (10 ^ Z.of_nat nf))
  | _ => if Nat.eqb ni 0 then NaN else number_of_fraction ip 1
  end.

(** [a * b], [a - b], [a < b] and [a >= b]; a comparison with NaN is false. *)
Definition num_mul (a b : number) : number := SFmul prec emax a b.
Definition num_sub (a b : number) : number := SFsub prec emax a b.
Definition num_lt (a b : number) : bool := SFltb a b.
Definition num_ge (a b : number) : bool := SFleb b a.

Fixpoint digits_of_nat (fuel n : nat) (acc : string) : string :=
  match fuel with
  | O => acc
  | S f =>
      let acc' := String (ascii_of_nat (48 + Nat.modulo n 10)) acc in
      if Nat.ltb n 10 then acc' else digits_of_nat f (Nat.div n 10) acc'
  end.

(** [String(n)] for a non-negative integer. *)
Definition string_of_nat (n : nat) : string := digits_of_nat (S n) n EmptyString.

Fixpoint digits_of_Z (fuel : nat) (n : Z) (acc : string) : string :=
  match fuel with
  | O => acc
  | S f =>
      let acc' := String (ascii_of_nat (48 + Z.to_nat (n mod 10))) acc in
      if n <? 10 then acc' else digits_of_Z f (n / 10) acc'
  end.

(** The decimal digits of a non-negative integer of any size. *)
Definition string_of_Z (n : Z) : string :=
  digits_of_Z (S (Z.to_nat (Z.log2 n))) n EmptyString.

Fixpoint zeros (n : nat) : string :=
  match n with O => EmptyString | S n' => String "0"%char (zeros n') end.

(** The exact value [m * 2 ^ e] of a finite number, as a fraction. *)
Definition fraction_of (m : positive) (e : Z) : Z * Z :=
  match e with
  | Zneg p => (Zpos m, 2 ^ Zpos p)
  | _ => (Zpos m * 2 ^ e, 1)
  end.

(** [x * 10 ^ k] for the fraction [x]. *)
Definition scale10 (k : Z) (x : Z * Z) : Z * Z :=
  let '(a, b) := x in
  if 0 <=? k then (a * 10 ^ k, b) else (a, b * 10 ^ (- k)).

(** The number nearest to [s * 10 ^ j]. *)
Definition number_of_decimal (s : Z) (j : Z) : number :=
  let '(a, b) := scale10 j (s, 1) in number_of_fraction a (Z.to_pos b).

(** The [n] with [10 ^ (n - 1) <= x < 10 ^ n], looked for downwards from [n]. *)
Fixpoint magnitude (fuel : nat) (n : Z) (x : Z * Z) : Z :=
  match fuel with
  | O => n
  | S f =>
      let '(a, b) := scale10 (1 - n) x in
      if b <=? a then n else magnitude f (n - 1) x
  end.

(** Number::toString, the choice of digits: the fewest digits [s] (there
    are [k] of them) and the exponent [n] with [s * 10 ^ (n - k)] read back
    as [x]; of two such [s] the one nearer to [x], the even one in a tie.
    [v] is the exact value of [x] and [10 ^ (n - 1) <= v < 10 ^ n]. *)
Fixpoint shortest (fuel : nat) (k : Z) (n : Z) (x : number) (v : Z * Z) : Z * Z :=
  let '(p, q) := scale10 (k - n) v in
  let lo := p / q in
  let hi := lo + 1 in
  let reads_back s := SFeqb (number_of_decimal s (n - k)) x in
  let pick s := if s =? 10 ^ k then (10 ^ (k - 1), n + 1) else (s, n) in
  match reads_back lo, reads_back hi with
  | true, true =>
      match 2 * p ?= (lo + hi) * q with
      | Lt => pick lo
      | Gt => pick hi
      | Eq => if Z.even lo then pick lo else pick hi
      end
  | true, false => pick lo
  | false, true => pick hi
  | false, false =>
      match fuel with
      | O => pick lo
      | S f => shortest f (k + 1) n x v
      end
  end.

(** Number::toString for the positive finite number [m * 2 ^ e]. *)
Definition positive_to_string (m : positive) (e : Z) : string :=
  let v := fraction_of m e in
  let '(s, n) := shortest 16 1 (magnitude 700 310 v) (S754_finite false m e) v in
  let digits := string_of_Z s in
  let k := Z.of_nat (String.length digits) in
  if andb (k <=? n) (n <=? 21) then digits ++ zeros (Z.to_nat (n - k))
  else if andb (0 <? n) (n <=? 21)
  then take_string (Z.to_nat n) digits ++ "." ++ drop_string (Z.to_nat n) digits
  else if andb (-6 <? n) (n <=? 0) then "0." ++ zeros (Z.to_nat (- n)) ++ digits
  else
    let exponent := (if n - 1 <? 0 then "-" else "+") ++ string_of_Z (Z.abs (n - 1)) in
    if k =? 1 then digits ++ "e" ++ exponent
    else take_string 1 digits ++ "." ++ drop_string 1 digits ++ "e" ++ exponent.

(** [String(x)] and [x.toString()] *)
Definition number_to_string (x : number) : string :=
  match x with
  | S754_nan => "NaN"
  | S754_zero _ => "0"
  | S754_infinity s => if s then "-Infinity" else "Infinity"
  | S754_finite s m e => (if s then "-" else "") ++ positive_to_string m e
  end.

(** [x.toFixed(2)]: the hundredths nearest to the exact value of [x], the
    larger of two equally near; [String(x)] from [1e21] on. *)
Definition toFixed2 (x : number) : string :=
  let fixed (a b : Z) :=
    let digits := string_of_Z ((200 * a + b) / (2 * b)) in
    let padded := zeros (3 - String.length digits)%nat ++ digits in
    let whole := (String.length padded - 2)%nat in
    take_string whole padded ++ "." ++ drop_string whole padded in
  match x with
  | S754_nan => "NaN"
  | S754_infinity s => if s then "-Infinity" else "Infinity"
  | S754_zero _ => fixed 0 1
  | S754_finite s m e =>
      let '(a, b) := fraction_of m e in
      (if s then "-" else "")
        ++ (if 10 ^ 21 * b <=? a then positive_to_string m e else fixed a b)
  end.

(** *** Values of any type *)

(** What a cell of a sheet or an element of a parsed array can be. *)
Inductive Any : Type :=
| VUndefined
| VNull
| VBool (b : bool)
| VNumber (x : number)
| VString (s : string).

(** [if (v)] *)
Definition truthy_any (v : Any) : bool :=
  match v with
  | VUndefined | VNull => false
  | VBool b => b
  | VNumber x =>
      match x with
      | S754_zero _ | S754_nan => false
      | _ => true
      end
  | VString s => truthy s
  end.

(** [v.toString()] of a value that has the method. *)
Definition any_toString (v : Any) : string :=
  match v with
  | VUndefined => "undefined"
  | VNull => "null"
  | VBool b => if b then "true" else "false"
  | VNumber x => number_to_string x
  | VString s => s
  end.

End Js.

(** ** [src/utils/retry.ts] *)

Module Retry.
Import Js.

Section Definitions.
Variables S T : Type.

(** [sleep(ms)]: the state after waiting [ms] milliseconds. *)
Variable sleep : Z -> S -> S.

(** [interface RetryOptions]; an absent field is [None].  [onRetry] is a
    callback that reports the failed attempt and does not throw. *)
Record RetryOptions : Type := {
  maxAttempts : option Z;
  delayMs : option Z;
  backoffMultiplier : option Z;
  onRetry : option (Z -> Value -> S -> S)
}.

Definition or_default (A : Type) (o : option A) (d : A) : A :=
  match o with Some x => x | None => d end.

(** The [for (let attempt = 1; attempt <= maxAttempts; attempt++)] loop;
    [remaining] counts the iterations the loop test still allows.  When the
    test fails the function reaches [throw lastError!]. *)
Fixpoint retry_loop (fn : S -> S * Res T) (max delay mult : Z)
         (callback : option (Z -> Value -> S -> S))
         (remaining : nat) (attempt : Z) (lastError : Value) (s : S) : S * Res T :=
  match remaining with
  | O => (s, Throw lastError)
  | Datatypes.S remaining' =>
      match fn s with
      | (s1, Ok v) => (s1, Ok v)
      | (s1, Diverge) => (s1, Diverge)
      | (s1, Throw error) =>
          let lastError := toError error in
          if attempt =? max then (s1, Throw lastError)
          else
            let s2 := match callback with
                      | Some f => f attempt lastError s1
                      | None => s1
                      end in
            let d := delay * mult ^ (attempt - 1) in
            retry_loop fn max delay mult callback remaining' (attempt + 1) lastError (sleep d s2)
      end
  end.

(** [export async function retry<T>(fn, options = {})] *)
Definition retry (fn : S -> S * Res T) (options : RetryOptions) (s : S) : S * Res T :=
  let max := or_default (maxAttempts options) 3 in
  let delay := or_default (delayMs options) 1000 in
  let mult := or_default (backoffMultiplier options) 2 in
  retry_loop fn max delay mult (onRetry options) (Z.to_nat max) 1 Undefined s.

End Definitions.

(** What an observer of one [retry] call sees, in order. *)
Inductive Seen (T : Type) : Type :=
| Called (outcome : Res T)                (* [fn()] was invoked and ended so *)
| Reported (attempt : Z) (error : Value)  (* [onRetry(attempt, lastError)] *)
| Slept (ms : Z).                         (* [sleep(delay)] *)
Arguments Called {T} outcome.
Arguments Reported {T} attempt error.
Arguments Slept {T} ms.

Section Observed.
Variables S T : Type.
Variable sleep : Z -> S -> S.
Variable fn : S -> S * Res T.
Variable callback : Z -> Value -> S -> S.

(** The same three operations, each also noting itself in a journal kept
    next to the caller's state. *)
Definition seen_sleep (ms : Z) (st : S * list (Seen T)) : S * list (Seen T) :=
  (sleep ms (fst st), snd st ++ [Slept ms])%list.

Definition seen_fn (st : S * list (Seen T)) : (S * list (Seen T)) * Res T :=
  let '(s', r) := fn (fst st) in ((s', snd st ++ [Called r])%list, r).

Definition seen_callback (attempt : Z) (e : Value) (st : S * list (Seen T)) : S * list (Seen T) :=
  (callback attempt e (fst st), snd st ++ [Reported attempt e])%list.



(** [retry(fn, { maxAttempts, delayMs, backoffMultiplier, onRetry })] run
    under observation from the state [s] and an empty journal. *)
Definition observed_retry (max delay mult : Z) (s : S) : (S * list (Seen T)) * Res T :=
  retry seen_sleep seen_fn
    {| maxAttempts := Some max; delayMs := Some delay;
       backoffMultiplier := Some mult; onRetry := Some seen_callback |}
    (s, []).

End Observed.


(** A closure that fails twice and then succeeds, over a counter of its calls. *)
Definition flaky (n : nat) : nat * Res string :=
  (Datatypes.S n, if Nat.ltb n 2 then Throw (Other "timeout") else Ok "clicked").

End Retry.

(** ** The agent runtime: page interface, journal and the state monad *)

Module Exec.
Import Js.

(** One element of the array [page.observe] resolves to. *)
Record ObserveResult : Type := {
  description : option string;
  method : string;
  selector : string
}.

(** [item.description?.toLowerCase() || ''] *)
Definition desc (item : ObserveResult) : string :=
  match description item with
  | Some d => toLowerCase d
  | None => ""
  end.

(** The object the affection-plan agent extracts with [PageContentSchema]. *)
Record PageContent : Type := {
  pageTitle : string;
  hasApplicationId : bool;
  pc_applicationId : option string;
  hasPaymentSection : bool;
  paymentOptions : list string;
  hasDownloadButton : bool;
  pageType : string
}.

(** The object it extracts with [PaymentDetailsSchema]. *)
Record PaymentDetails : Type := {
  walletBalance : string;
  paymentAmount : string;
  currency : option string
}.

(** The browser session as the agents use it.  A call either resolves
    ([inr] or [None]) or rejects with the value it throws. *)
Record Page (W : Type) : Type := {
  observe : string -> W -> W * (Value + list ObserveResult);
  act : string -> W -> W * option Value;
  actOn : ObserveResult -> W -> W * option Value;
  extract : string -> W -> W * (Value + option string);
  extractPageContent : string -> W -> W * (Value + PageContent);
  extractPaymentDetails : string -> W -> W * (Value + PaymentDetails);
  url : W -> string;
  textContent : W -> W * (Value + option string);
  waitForLoadState : string -> W -> W * option Value;
  waitForTimeout : Z -> W -> W * option Value;
  goto : string -> W -> W * option Value;
  evaluate : string -> W -> W * (Value + option string);
  locatorClick : string -> W -> W * option Value;
  sleep : Z -> W -> W;
  now : W -> string
}.

(** The journal of calls made on the page, oldest first. *)
Inductive Event : Type :=
| EObserve (instruction : string) (result : Value + list ObserveResult)
| EAct (action : string) (thrown : option Value)
| EActOn (target : ObserveResult) (thrown : option Value)
| EExtract (instruction : string)
| ETextContent (result : Value + option string)
| EUrl (u : string)
| EGoto (target : string) (thrown : option Value)
| EWaitForLoadState (state : string)
| EWaitForTimeout (ms : Z)
| EEvaluate (script : string)
| ELocatorClick (target : string)
| ESleep (ms : Z).

(** [page.act] was called with the text [action]. *)
Definition is_act (action : string) (e : Event) : bool :=
  match e with
  | EAct a _ => String.eqb a action
  | _ => false
  end.

(** Number of [act] calls with the text [action] in a journal. *)
Definition count_act (action : string) (j : list Event) : nat :=
  List.length (List.filter (is_act action) j).

Section Monad.
Variable W : Type.
Variable page : Page W.
Variable A : Type.

(** The running agent: the world behind the page, the journal, and the
    fields of the agent object ([this]). *)
Record St : Type := mkSt {
  world : W;
  journal : list Event;
  this : A
}.

Definition M (X : Type) : Type := St -> St * Res X.

Definition ret (X : Type) (x : X) : M X := fun s => (s, Ok x).

Definition bind (X Y : Type) (m : M X) (f : X -> M Y) : M Y :=
  fun s =>
    match m s with
    | (s', Ok x) => f x s'
    | (s', Throw e) => (s', Throw e)
    | (s', Diverge) => (s', Diverge)
    end.

Definition throw (X : Type) (e : Value) : M X := fun s => (s, Throw e).

(** [try { m } catch (error) { handler(error) }] *)
Definition try_catch (X : Type) (m : M X) (handler : Value -> M X) : M X :=
  fun s =>
    match m s with
    | (s', Throw e) => handler e s'
    | other => other
    end.

(** [try { m } catch {}] *)
Definition attempt_ (m : M unit) : M unit := try_catch m (fun _ => ret tt).

Definition get_this : M A := fun s => (s, Ok (this s)).
Definition modify_this (f : A -> A) : M unit :=
  fun s => (mkSt (world s) (journal s) (f (this s)), Ok tt).

Definition note (w : W) (e : Event) (s : St) : St :=
  mkSt w (journal s ++ [e]) (this s).

Definition of_thrown (o : option Value) : Res unit :=
  match o with Some e => Throw e | None => Ok tt end.

Definition of_sum (X : Type) (r : Value + X) : Res X :=
  match r with inl e => Throw e | inr x => Ok x end.

Definition page_observe (instruction : string) : M (list ObserveResult) :=
  fun s => let '(w, r) := observe page instruction (world s) in
           (note w (EObserve instruction r) s, of_sum r).

Definition page_act (action : string) : M unit :=
  fun s => let '(w, r) := act page action (world s) in
           (note w (EAct action r) s, of_thrown r).

Definition page_actOn (target : ObserveResult) : M unit :=
  fun s => let '(w, r) := actOn page target (world s) in
           (note w (EActOn target r) s, of_thrown r).

Definition page_extract (instruction : string) : M (option string) :=
  fun s => let '(w, r) := extract page instruction (world s) in
           (note w (EExtract instruction) s, of_sum r).

Definition page_extractPageContent (instruction : string) : M PageContent :=
  fun s => let '(w, r) := extractPageContent page instruction (world s) in
           (note w (EExtract instruction) s, of_sum r).

Definition page_extractPaymentDetails (instruction : string) : M PaymentDetails :=
  fun s => let '(w, r) := extractPaymentDetails page instruction (world s) in
           (note w (EExtract instruction) s, of_sum r).

Definition page_url : M string :=
  fun s => let u := url page (world s) in (note (world s) (EUrl u) s, Ok u).

Definition page_textContent : M (option string) :=
  fun s => let '(w, r) := textContent page (world s) in
           (note w (ETextContent r) s, of_sum r).

Definition page_waitForLoadState (state : string) : M unit :=
  fun s => let '(w, r) := waitForLoadState page state (world s) in
           (note w (EWaitForLoadState state) s, of_thrown r).

Definition page_waitForTimeout (ms : Z) : M unit :=
  fun s => let '(w, r) := waitForTimeout page ms (world s) in
           (note w (EWaitForTimeout ms) s, of_thrown r).

Definition page_goto (target : string) : M unit :=
  fun s => let '(w, r) := goto page target (world s) in
           (note w (EGoto target r) s, of_thrown r).

Definition page_evaluate (script : string) : M (option string) :=
  fun s => let '(w, r) := evaluate page script (world s) in
           (note w (EEvaluate script) s, of_sum r).

Definition page_locatorClick (target : string) : M unit :=
  fun s => let '(w, r) := locatorClick page target (world s) in
           (note w (ELocatorClick target) s, of_thrown r).

(** [sleep(ms)] as a state change, the form [retry] takes it in. *)
Definition sleep_st (ms : Z) (s : St) : St :=
  note (sleep page ms (world s)) (ESleep ms) s.

Definition sleep_ (ms : Z) : M unit := fun s => (sleep_st ms s, Ok tt).

(** [new Date().toISOString()] *)
Definition now_iso : M string := fun s => (s, Ok (now page (world s))).

(** [retry(fn, { maxAttempts, delayMs, onRetry: log })]: every [onRetry]
    of the agents only prints. *)
Definition retry_ (X : Type) (fn : M X) (attempts delay : Z) : M X :=
  Retry.retry sleep_st fn
    {| Retry.maxAttempts := Some attempts; Retry.delayMs := Some delay;
       Retry.backoffMultiplier := None; Retry.onRetry := Some (fun _ _ s => s) |}.

End Monad.

Arguments ret {W A X} x _.
Arguments page_observe {W} page {A} instruction _.
Arguments page_act {W} page {A} action _.
Arguments page_actOn {W} page {A} target _.
Arguments page_extract {W} page {A} instruction _.
Arguments page_extractPageContent {W} page {A} instruction _.
Arguments page_extractPaymentDetails {W} page {A} instruction _.
Arguments page_url {W} page {A} _.
Arguments page_textContent {W} page {A} _.
Arguments page_waitForLoadState {W} page {A} state _.
Arguments page_waitForTimeout {W} page {A} ms _.
Arguments page_goto {W} page {A} target _.
Arguments page_evaluate {W} page {A} script _.
Arguments page_locatorClick {W} page {A} target _.
Arguments sleep_st {W} page {A} ms s.
Arguments sleep_ {W} page {A} ms _.
Arguments now_iso {W} page {A} _.
Arguments retry_ {W} page {A X} fn attempts delay _.
Arguments throw {W A X} e _.
Arguments get_this {W A} _.
Arguments modify_this {W A} f _.

Declare Scope agent_scope.
Delimit Scope agent_scope with agent.
Notation "x <- m ;; k" := (bind m (fun x => k))
  (at level 100, m at next level, right associativity) : agent_scope.
Notation "m ;; k" := (bind m (fun _ => k))
  (at level 100, right associativity) : agent_scope.

(** A step of a method that may end the method: [true] goes on to the rest
    of the body, [false] is a [return] taken inside the step. *)
Definition and_then (W A : Type) (step : M W A bool) (rest : M W A unit) : M W A unit :=
  bind step (fun go_on => if go_on then rest else ret tt).
Notation "m ;;> k" := (and_then m k)
  (at level 100, right associativity) : agent_scope.

(** Every run of [m] takes a state to one related to it by [R], whatever
    the page does. *)
Definition Respects (W A : Type) (R : St W A -> St W A -> Prop) (X : Type) (m : M W A X)
  : Prop :=
  forall s, R s (fst (m s)).

(** [f] is the same after as before. *)
Definition same (W A V : Type) (f : St W A -> V) (s s' : St W A) : Prop := f s' = f s.

(** The journal has only been added to. *)
Definition extends (W A : Type) (s s' : St W A) : Prop :=
  exists added, journal s' = (journal s ++ added)%list.


(** [m] leaves the quantity [f] of the running agent as it found it. *)
Definition Keeps (W A V : Type) (f : St W A -> V) (X : Type) (m : M W A X) : Prop :=
  Respects (same f) m.

(** No outcome: the loop bound of the model is exhausted. *)
Definition diverge (W A X : Type) : M W A X := fun s => (s, Diverge).
Arguments diverge {W A X} _.

(** [m] has an outcome from every state: it returns or it throws. *)
Definition Converges (W A X : Type) (m : M W A X) : Prop :=
  forall s, snd (m s) <> Diverge.

End Exec.

(** ** The persisted application history of the site-plan agent
       ([dari-site-plan-agent.ts], lines 43-49 and 199-261) *)

Module Ledger.
Import Js.

(** [interface PersistedApplicationData] *)
Record PersistedApplicationData : Type := {
  plotNumber : string;
  applicationId : string;
  paymentDate : string;
  downloaded : bool;
  lastChecked : string
}.

(** A JavaScript [Map<string, V>]: keys in insertion order. *)
Definition JsMap (V : Type) : Type := list (string * V).

(** [map.set(k, v)]: replaces the value of an existing key in place,
    appends a new key. *)
Fixpoint Map_set (V : Type) (k : string) (v : V) (m : JsMap V) : JsMap V :=
  match m with
  | [] => [(k, v)]
  | (k', v') :: rest =>
      if String.eqb k k' then (k, v) :: rest else (k', v') :: Map_set k v rest
  end.

(** [map.get(k)] *)
Fixpoint Map_get (V : Type) (k : string) (m : JsMap V) : option V :=
  match m with
  | [] => None
  | (k', v') :: rest => if String.eqb k k' then Some v' else Map_get k rest
  end.

(** [Array.from(map.values())] *)
Definition Map_values (V : Type) (m : JsMap V) : list V := List.map snd m.

(** The file [data/dari-applications-history.json]:
    - absent;
    - the JSON of an array of entries (objects of the interface above);
    - the JSON of an array that has a [null] among its elements, [before]
      being the entries in front of the first one: [app.plotNumber] throws
      there, after the entries before it have been set;
    - anything that cannot be read, that [JSON.parse] rejects or that
      parses to something without a [forEach].
    An array with an element that is neither [null] nor an object with a
    string [plotNumber] is not among these: the load would set such an
    element under a key that is no plot number. *)
Inductive File : Type :=
| Missing
| Json (applications : list PersistedApplicationData)
| JsonWithNull (before : list PersistedApplicationData)
| Corrupt.

(** The ledger of one agent object with the disk under it.  [writable]
    tells whether [writeFileSync] succeeds on the storage path. *)
Record Store : Type := {
  persistedApplications : JsMap PersistedApplicationData;
  file : File;
  writable : bool
}.

(** [private persistedApplications = new Map()] of a newly constructed
    agent, over the disk as it is. *)
Definition fresh (disk : File) (w : bool) : Store :=
  {| persistedApplications := []; file := disk; writable := w |}.

(** [applications.forEach(app => map.set(app.plotNumber, app))] *)
Definition reload (applications : list PersistedApplicationData)
           (m : JsMap PersistedApplicationData) : JsMap PersistedApplicationData :=
  List.fold_left (fun m app => Map_set (plotNumber app) app m) applications m.

(** [loadPersistedApplications()]: what the [forEach] throws is caught
    and printed, and the entries set before it stay. *)
Definition loadPersistedApplications (st : Store) : Store :=
  match file st with
  | Missing => st
  | Corrupt => st
  | Json applications =>
      {| persistedApplications := reload applications (persistedApplications st);
         file := file st;
         writable := writable st |}
  | JsonWithNull before =>
      {| persistedApplications := reload before (persistedApplications st);
         file := file st;
         writable := writable st |}
  end.

(** [savePersistedApplications()]: the error of a failed write is caught
    and printed. *)
Definition savePersistedApplications (st : Store) : Store :=
  if writable st
  then {| persistedApplications := persistedApplications st;
          file := Json (Map_values (persistedApplications st));
          writable := writable st |}
  else st.

(** [addPersistedApplication(plotNumber, applicationId, downloaded = false)];
    [date1] and [date2] are the two [new Date().toISOString()] readings. *)
Definition addPersistedApplication (date1 date2 : string)
           (plot appId : string) (dl : bool) (st : Store) : Store :=
  savePersistedApplications
    {| persistedApplications :=
         Map_set plot
           {| plotNumber := plot; applicationId := appId; paymentDate := date1;
              downloaded := dl; lastChecked := date2 |}
           (persistedApplications st);
       file := file st;
       writable := writable st |}.

(** [updatePersistedApplicationDownloadStatus(plotNumber, downloaded)] *)
Definition updatePersistedApplicationDownloadStatus (date : string)
           (plot : string) (dl : bool) (st : Store) : Store :=
  match Map_get plot (persistedApplications st) with
  | Some existing =>
      savePersistedApplications
        {| persistedApplications :=
             Map_set plot
               {| plotNumber := plotNumber existing;
                  applicationId := applicationId existing;
                  paymentDate := paymentDate existing;
                  downloaded := dl;
                  lastChecked := date |}
               (persistedApplications st);
           file := file st;
           writable := writable st |}
  | None => st
  end.

(** Every key is the plot number of its entry and occurs once: what the
    three operations above maintain. *)
Definition keyed (m : JsMap PersistedApplicationData) : Prop :=
  NoDup (List.map fst m) /\ forall k v, In (k, v) m -> plotNumber v = k.

End Ledger.

(** ** [src/agents/dari-site-plan-agent.ts] *)

Module SitePlan.
Import Js Exec.
Local Open Scope agent_scope.

(** [interface PlotData] *)
Record PlotData : Type := {
  plotNumber : string;
  rowIndex : Z
}.

(** [interface SitePlanRecord] *)
Record SitePlanRecord : Type := {
  sp_plotNumber : string;
  applicationId : option string;
  sp_rowIndex : Z;
  paid : bool;
  walletBalanceSufficient : bool;
  certificateDownloaded : bool;
  downloadedViaFallback : bool;
  downloadAttempts : Z;
  lastDownloadAttemptTime : option string;
  alreadyExistedInApplications : bool;
  error : option string
}.

Definition set_applicationId (v : option string) (r : SitePlanRecord) : SitePlanRecord :=
  {| sp_plotNumber := sp_plotNumber r; applicationId := v; sp_rowIndex := sp_rowIndex r;
     paid := paid r; walletBalanceSufficient := walletBalanceSufficient r;
     certificateDownloaded := certificateDownloaded r;
     downloadedViaFallback := downloadedViaFallback r;
     downloadAttempts := downloadAttempts r;
     lastDownloadAttemptTime := lastDownloadAttemptTime r;
     alreadyExistedInApplications := alreadyExistedInApplications r; error := error r |}.

Definition set_paid (v : bool) (r : SitePlanRecord) : SitePlanRecord :=
  {| sp_plotNumber := sp_plotNumber r; applicationId := applicationId r;
     sp_rowIndex := sp_rowIndex r;
     paid := v; walletBalanceSufficient := walletBalanceSufficient r;
     certificateDownloaded := certificateDownloaded r;
     downloadedViaFallback := downloadedViaFallback r;
     downloadAttempts := downloadAttempts r;
     lastDownloadAttemptTime := lastDownloadAttemptTime r;
     alreadyExistedInApplications := alreadyExistedInApplications r; error := error r |}.

Definition set_walletBalanceSufficient (v : bool) (r : SitePlanRecord) : SitePlanRecord :=
  {| sp_plotNumber := sp_plotNumber r; applicationId := applicationId r;
     sp_rowIndex := sp_rowIndex r;
     paid := paid r; walletBalanceSufficient := v;
     certificateDownloaded := certificateDownloaded r;
     downloadedViaFallback := downloadedViaFallback r;
     downloadAttempts := downloadAttempts r;
     lastDownloadAttemptTime := lastDownloadAttemptTime r;
     alreadyExistedInApplications := alreadyExistedInApplications r; error := error r |}.

Definition set_certificateDownloaded (v : bool) (r : SitePlanRecord) : SitePlanRecord :=
  {| sp_plotNumber := sp_plotNumber r; applicationId := applicationId r;
     sp_rowIndex := sp_rowIndex r;
     paid := paid r; walletBalanceSufficient := walletBalanceSufficient r;
     certificateDownloaded := v;
     downloadedViaFallback := downloadedViaFallback r;
     downloadAttempts := downloadAttempts r;
     lastDownloadAttemptTime := lastDownloadAttemptTime r;
     alreadyExistedInApplications := alreadyExistedInApplications r; error := error r |}.

Definition set_downloadedViaFallback (v : bool) (r : SitePlanRecord) : SitePlanRecord :=
  {| sp_plotNumber := sp_plotNumber r; applicationId := applicationId r;
     sp_rowIndex := sp_rowIndex r;
     paid := paid r; walletBalanceSufficient := walletBalanceSufficient r;
     certificateDownloaded := certificateDownloaded r;
     downloadedViaFallback := v;
     downloadAttempts := downloadAttempts r;
     lastDownloadAttemptTime := lastDownloadAttemptTime r;
     alreadyExistedInApplications := alreadyExistedInApplications r; error := error r |}.

Definition set_downloadAttempt (n : Z) (t : option string) (r : SitePlanRecord) : SitePlanRecord :=
  {| sp_plotNumber := sp_plotNumber r; applicationId := applicationId r;
     sp_rowIndex := sp_rowIndex r;
     paid := paid r; walletBalanceSufficient := walletBalanceSufficient r;
     certificateDownloaded := certificateDownloaded r;
     downloadedViaFallback := downloadedViaFallback r;
     downloadAttempts := n;
     lastDownloadAttemptTime := t;
     alreadyExistedInApplications := alreadyExistedInApplications r; error := error r |}.

Definition set_alreadyExisted (v : bool) (r : SitePlanRecord) : SitePlanRecord :=
  {| sp_plotNumber := sp_plotNumber r; applicationId := applicationId r;
     sp_rowIndex := sp_rowIndex r;
     paid := paid r; walletBalanceSufficient := walletBalanceSufficient r;
     certificateDownloaded := certificateDownloaded r;
     downloadedViaFallback := downloadedViaFallback r;
     downloadAttempts := downloadAttempts r;
     lastDownloadAttemptTime := lastDownloadAttemptTime r;
     alreadyExistedInApplications := v; error := error r |}.

Definition set_error (v : option string) (r : SitePlanRecord) : SitePlanRecord :=
  {| sp_plotNumber := sp_plotNumber r; applicationId := applicationId r;
     sp_rowIndex := sp_rowIndex r;
     paid := paid r; walletBalanceSufficient := walletBalanceSufficient r;
     certificateDownloaded := certificateDownloaded r;
     downloadedViaFallback := downloadedViaFallback r;
     downloadAttempts := downloadAttempts r;
     lastDownloadAttemptTime := lastDownloadAttemptTime r;
     alreadyExistedInApplications := alreadyExistedInApplications r; error := v |}.

(** The record literal at the top of [searchAndProcessPlot]; the one the
    catch of [processAllPlots] builds is the same with [error] set. *)
Definition new_record (plot : PlotData) (err : option string) : SitePlanRecord :=
  {| sp_plotNumber := plotNumber plot; applicationId := None;
     sp_rowIndex := rowIndex plot;
     paid := false; walletBalanceSufficient := false; certificateDownloaded := false;
     downloadedViaFallback := false; downloadAttempts := 0;
     lastDownloadAttemptTime := None; alreadyExistedInApplications := false;
     error := err |}.

(** The fields of [DariSitePlanConfig] the workflow reads, and
    [config.tamm.mobileNumber] of [src/config.ts]. *)
Record Config : Type := {
  baseUrl : string;
  excelFilePath : string;
  plotColumnIndex : nat;
  sitePlanServiceText : string;
  accountSwitching_enabled : bool;
  targetAccountName : string;
  loginButton : string;
  uaePassLoginButton : string;
  servicesMenu : string;
  payment_enabled : bool;
  walletBalancePattern : Regex;
  totalAmountPattern : Regex;
  captcha : Z;
  mobileNumber : string
}.

(** [defaultDariSitePlanConfig], and for the mobile number what
    [getMobileNumber()] returns when neither the Electron configuration nor
    the environment gives one. *)
Definition defaultDariSitePlanConfig : Config :=
  {| baseUrl := "https://www.dari.ae/en/";
     excelFilePath := "data/siteplan.xlsx";
     plotColumnIndex := 2;
     sitePlanServiceText := "Verification Certificate (Unit)";
     accountSwitching_enabled := false;
     targetAccountName := "Al Jurf Hospitality Service";
     loginButton := "Login button in the top right corner";
     uaePassLoginButton := "Login with UAE Pass";
     servicesMenu := "Services menu in the top navigation bar";
     payment_enabled := false;
     (* /Balance\s*:?\s*ß\s*(\d+(?:\.\d+)?)/i *)
     walletBalancePattern :=
       Seq (LitI "Balance") (Seq (Star cls_space) (Seq (Opt (Lit ":"))
         (Seq (Star cls_space) (Seq (Lit "ß") (Seq (Star cls_space) (Group decimal))))));
     (* /Total\s+to\s+be\s+paid\s*ß\s*(\d+(?:\.\d+)?)/i *)
     totalAmountPattern :=
       Seq (LitI "Total") (Seq (Plus cls_space) (Seq (LitI "to") (Seq (Plus cls_space)
         (Seq (LitI "be") (Seq (Plus cls_space) (Seq (LitI "paid") (Seq (Star cls_space)
           (Seq (Lit "ß") (Seq (Star cls_space) (Group decimal))))))))));
     captcha := 10000;
     mobileNumber := "+971559419961" |}.

(** What is at a path: nothing ([existsSync] is false), a file that
    [XLSX.readFile] rejects with the given message, or a workbook, taken as
    what [XLSX.utils.sheet_to_json(worksheet, { header: 1 })] makes of its
    first sheet: rows of cells, a cell being a string, a number or a
    boolean, and [undefined] where the row has none. *)
Inductive Workbook : Type :=
| NoFile
| Unreadable (message : string)
| Sheet (data : list (list Any)).

(** The machine under [loadPlotNumbers]: [process.cwd()], the [join] of the
    platform's [path] module, and what is at each path. *)
Record Files : Type := {
  cwd : string;
  join : string -> string -> string;
  at_path : string -> Workbook
}.

(** The fields of [class DariSitePlanAgent].  Records are objects shared
    between [sitePlans] and the methods that fill them in, so they live in
    [heap] and are named by their index there.  [this.stagehand] is set:
    the agent is taken after [initialize()] has run, where every
    [if (!this.stagehand?.page)] guard is false. *)
Record Agent : Type := {
  heap : list SitePlanRecord;
  sitePlans : list nat;
  plots : list PlotData;
  config : Config;
  prePayCheckEnabled : bool;
  store : Ledger.Store;
  files : Files
}.

(** A newly constructed agent: [prePayCheckEnabled] is the constant
    [false] of line 57. *)
Definition new_agent (c : Config) (disk : Ledger.File) (w : bool) (f : Files) : Agent :=
  {| heap := []; sitePlans := []; plots := []; config := c;
     prePayCheckEnabled := false; store := Ledger.fresh disk w; files := f |}.

Definition with_heap (h : list SitePlanRecord) (a : Agent) : Agent :=
  {| heap := h; sitePlans := sitePlans a; plots := plots a; config := config a;
     prePayCheckEnabled := prePayCheckEnabled a; store := store a; files := files a |}.

Definition with_sitePlans (l : list nat) (a : Agent) : Agent :=
  {| heap := heap a; sitePlans := l; plots := plots a; config := config a;
     prePayCheckEnabled := prePayCheckEnabled a; store := store a; files := files a |}.

Definition with_plots (l : list PlotData) (a : Agent) : Agent :=
  {| heap := heap a; sitePlans := sitePlans a; plots := l; config := config a;
     prePayCheckEnabled := prePayCheckEnabled a; store := store a; files := files a |}.

Definition with_store (st : Ledger.Store) (a : Agent) : Agent :=
  {| heap := heap a; sitePlans := sitePlans a; plots := plots a; config := config a;
     prePayCheckEnabled := prePayCheckEnabled a; store := st; files := files a |}.

Fixpoint update_nth (A : Type) (n : nat) (f : A -> A) (l : list A) : list A :=
  match l, n with
  | [], _ => []
  | x :: r, O => f x :: r
  | x :: r, S n' => x :: update_nth n' f r
  end.

Definition deref (h : list SitePlanRecord) (ref : nat) : SitePlanRecord :=
  nth ref h (new_record {| plotNumber := ""; rowIndex := 0 |} None).

Section Methods.
Variable W : Type.
Variable page : Page W.

Local Abbreviation M := (Exec.M W Agent).
Local Abbreviation observe := (page_observe page).
Local Abbreviation act := (page_act page).
Local Abbreviation sleep := (sleep_ page).
Local Abbreviation retry := (retry_ page).

(** *** Records on the heap *)

Definition alloc (r : SitePlanRecord) : M nat :=
  a <- get_this ;;
  modify_this (with_heap (heap a ++ [r])%list) ;;
  ret (List.length (heap a)).

Definition read (ref : nat) : M SitePlanRecord :=
  a <- get_this ;; ret (deref (heap a) ref).

Definition update (ref : nat) (f : SitePlanRecord -> SitePlanRecord) : M unit :=
  modify_this (fun a => with_heap (update_nth ref f (heap a)) a).

(** *** The ledger methods, on [this.persistedApplications] and the disk *)

Definition loadPersistedApplications : M unit :=
  modify_this (fun a => with_store (Ledger.loadPersistedApplications (store a)) a).

Definition savePersistedApplications : M unit :=
  modify_this (fun a => with_store (Ledger.savePersistedApplications (store a)) a).

Definition addPersistedApplication (plot appId : string) (dl : bool) : M unit :=
  d1 <- now_iso page ;;
  d2 <- now_iso page ;;
  modify_this (fun a => with_store (Ledger.addPersistedApplication d1 d2 plot appId dl (store a)) a).

Definition updatePersistedApplicationDownloadStatus (plot : string) (dl : bool) : M unit :=
  d <- now_iso page ;;
  modify_this (fun a =>
    with_store (Ledger.updatePersistedApplicationDownloadStatus d plot dl (store a)) a).

(** *** [intelligentWaitUntilPageReady] (lines 94-129) *)

Fixpoint waitUntilPageReady_loop (expectedElements : string) (maxAttempts : Z)
         (remaining : nat) (attempt : Z) : M bool :=
  match remaining with
  | O => ret false
  | S remaining' =>
      found <- try_catch
                 (observation <- observe expectedElements ;;
                  ret (Nat.ltb 0 (List.length observation)))
                 (fun _ => ret false) ;;
      if found then ret true
      else
        ((if attempt <? maxAttempts then sleep 3000 else ret tt) ;;
         waitUntilPageReady_loop expectedElements maxAttempts remaining' (attempt + 1))
  end.

Definition intelligentWaitUntilPageReady (expectedElements : string) (maxWaitSeconds : Z)
  : M bool :=
  let maxAttempts := maxWaitSeconds / 3 in
  waitUntilPageReady_loop expectedElements maxAttempts (Z.to_nat maxAttempts) 1.

(** *** [loadPlotNumbers] (lines 392-451) *)

(** The [for] loop over the rows after the header: a row counts when its
    cell [row[plotNumberColumnIndex]] is truthy and
    [row[plotNumberColumnIndex].toString().trim()] is not empty. *)
Fixpoint rows_to_plots (col : nat) (rows : list (list Any)) (i : Z) : list PlotData :=
  match rows with
  | [] => []
  | row :: rest =>
      let cell := nth col row VUndefined in
      let plotNumber := trim (any_toString cell) in
      if andb (truthy_any cell) (truthy plotNumber)
      then {| plotNumber := plotNumber; rowIndex := i + 1 |} :: rows_to_plots col rest (i + 1)
      else rows_to_plots col rest (i + 1)
  end.

(** [/^[A-Z]:\\/i] *)
Definition is_drive_path (s : string) : bool :=
  match s with
  | String c (String colon (String slash _)) =>
      andb (is_alpha c) (andb (Ascii.eqb colon ":"%char) (is_byte 92 slash))
  | _ => false
  end.

(** [getExcelFilePath()] (lines 453-458) *)
Definition getExcelFilePath (a : Agent) : string :=
  let path := excelFilePath (config a) in
  if orb (startsWith path "/") (is_drive_path path) then path
  else join (files a) (cwd (files a)) path.

Definition loadPlotNumbers : M unit :=
  a <- get_this ;;
  let excelPath := getExcelFilePath a in
  match at_path (files a) excelPath with
  | NoFile => throw (Error ("Excel file not found at: " ++ excelPath))
  | Unreadable m => throw (Error ("Failed to read Excel file: " ++ m))
  | Sheet data =>
      match data with
      | [] => throw (Error "Excel file is empty")
      | _header :: rows =>
          let found := rows_to_plots (plotColumnIndex (config a)) rows 1 in
          modify_this (with_plots found) ;;
          match found with
          | [] => throw (Error "No plot numbers found in the 3rd column of Excel file")
          | _ => ret tt
          end
      end
  end.

(** *** Login (lines 460-654) *)

Definition navigateToDari : M unit :=
  a <- get_this ;;
  retry (page_goto page (baseUrl (config a))) 3 2000.

Definition clickLoginButton : M unit :=
  a <- get_this ;;
  loginReady <- intelligentWaitUntilPageReady
                  ("Find the " ++ loginButton (config a) ++ " in the top right corner") 30 ;;
  if negb loginReady
  then throw (Error "Login button did not appear within 30 seconds")
  else page_locatorClick page ("a:has-text(" ++ dquote ++ "Login" ++ dquote ++ "), button:has-text(" ++ dquote ++ "Login" ++ dquote ++ ")").

Definition clickUAEPassLogin : M unit :=
  a <- get_this ;;
  _ <- observe ("Find the " ++ uaePassLoginButton (config a)) ;;
  retry (act ("click on the " ++ uaePassLoginButton (config a))) 3 2000 ;;
  sleep 3000.

Definition enterMobileAndEnableRememberMe : M unit :=
  a <- get_this ;;
  sleep 2000 ;;
  let mobileNumber :=
    if truthy (mobileNumber (config a)) then mobileNumber (config a) else "0504945959" in
  retry (act ("enter mobile number " ++ mobileNumber
                ++ " in the mobile number field")) 3 2000 ;;
  sleep 1000 ;;
  retry (act "click on the Remember me checkbox to enable it") 2 1000 ;;
  sleep 2000 ;;
  sleep (captcha (config a)) ;;
  retry (act "click the Login button to proceed") 5 3000 ;;
  sleep 2000.

(** [!currentUrl.includes('login') && !currentUrl.includes('auth')
     && !currentUrl.includes('uaepass')] *)
Definition url_left_auth (currentUrl : string) : bool :=
  andb (negb (includes currentUrl "login"))
       (andb (negb (includes currentUrl "auth")) (negb (includes currentUrl "uaepass"))).

Definition logged_in_indicators : string :=
  "Find elements that indicate the user is logged in, such as user profile, user avatar, logout button, or account menu in the top right header".

Definition MAX_WAIT_ATTEMPTS : Z := 60.
Definition CHECK_INTERVAL_MS : Z := 3000.

(** The [for (let attempt = 1; attempt <= MAX_WAIT_ATTEMPTS; attempt++)] loop
    of [waitForUAEPassApproval]; the result is [loginSuccessful]. *)
Fixpoint approval_loop (remaining : nat) : M bool :=
  match remaining with
  | O => ret false
  | S remaining' =>
      sleep CHECK_INTERVAL_MS ;;
      currentUrl <- page_url page ;;
      if url_left_auth currentUrl
      then
        (pageReady <- intelligentWaitUntilPageReady logged_in_indicators 60 ;;
         if pageReady then ret true else approval_loop remaining')
      else approval_loop remaining'
  end.

(** The journal entries of the URL check, and their number in a journal. *)
Definition is_url_check (e : Event) : bool :=
  match e with EUrl _ => true | _ => false end.

Definition url_checks (j : list Event) : nat := List.length (List.filter is_url_check j).

(** What the approval loop has journalled when it ends with
    [loginSuccessful]: a URL check that finds the URL off the login pages,
    with no other URL check after it, and at the end an observation of the
    logged-in indicators that finds some. *)
Definition confirmed_login (added : list Event) : Prop :=
  exists before u waits found,
    added = (before ++ EUrl u :: waits ++ [EObserve logged_in_indicators (inr found)])%list
    /\ url_left_auth u = true
    /\ found <> []
    /\ Forall (fun e => is_url_check e = false) waits.

Definition login_timeout : Value :=
  Error "Login verification timeout. Please check if UAE Pass approval was completed.".

Definition waitForUAEPassApproval : M unit :=
  loginSuccessful <- approval_loop (Z.to_nat MAX_WAIT_ATTEMPTS) ;;
  if negb loginSuccessful then throw login_timeout
  else sleep 2000.

(** *** Navigation helpers (lines 656-860) *)

Definition acceptCookiesIfPresent : M unit :=
  attempt_
    (clicked <- page_evaluate page "accept cookies" ;;
     (if negb (truthy_opt clicked)
      then act "if a cookie banner is visible, click Allow all cookies or Accept all"
      else ret tt) ;;
     sleep 400).

Definition switchToAlJurfHospitalityAccount : M unit :=
  a <- get_this ;;
  _ <- observe "find user menu, profile menu, or account menu in the top right header" ;;
  retry (act "click the user menu in the top right header") 3 2000 ;;
  sleep 2000 ;;
  _ <- observe "find switch account option in the dropdown menu" ;;
  retry (act "click the switch account option") 3 2000 ;;
  sleep 3000 ;;
  _ <- observe "find Al Jurf Hospitality Service account profile on the account selection page" ;;
  retry (act ("click on the " ++ targetAccountName (config a) ++ " account profile")) 3 2000 ;;
  sleep 3000 ;;
  _ <- page_url page ;;
  _ <- observe "find elements indicating we are on the Dari homepage after account switch" ;;
  ret tt.

Definition navigateToServicesMenu : M unit :=
  a <- get_this ;;
  acceptCookiesIfPresent ;;
  _ <- observe ("Find the " ++ servicesMenu (config a)) ;;
  retry (act ("click on the " ++ servicesMenu (config a))) 3 2000 ;;
  sleep 3000.

Definition selectSitePlanService : M unit :=
  a <- get_this ;;
  _ <- observe (("Find the " ++ dquote) ++ sitePlanServiceText (config a)
                  ++ (dquote ++ " service card or link on the services page")) ;;
  retry (act (("click on the " ++ dquote) ++ sitePlanServiceText (config a) ++ (dquote ++ " service"))) 3 2000 ;;
  sleep 3000 ;;
  _ <- observe "Find the filter menu on the left side and the plots/properties list on the right side" ;;
  ret tt.

(** *** Wallet selection (lines 862-955) *)

Definition getSelectedPaymentLabel : M (option string) :=
  try_catch (page_evaluate page "selected payment label") (fun _ => ret None).

(** [selected && (selected.includes('dari wallet') ||
     (selected.includes('dari') && selected.includes('wallet')))] *)
Definition is_dari_wallet (selected : option string) : bool :=
  match selected with
  | Some l =>
      andb (truthy l)
           (orb (includes l "dari wallet") (andb (includes l "dari") (includes l "wallet")))
  | None => false
  end.

Fixpoint ensure_loop (actions : list string) : M bool :=
  match actions with
  | [] => ret false
  | action :: rest =>
      attempt_ (retry (act action) 2 1000) ;;
      sleep 1000 ;;
      selected <- getSelectedPaymentLabel ;;
      if is_dari_wallet selected then ret true else ensure_loop rest
  end.

Definition ensureDariWalletSelected : M bool :=
  attempt_ (act "scroll to the Pay with section where payment options (Debit/Credit Card and DARI wallet) are displayed") ;;
  done <- ensure_loop
            [ "select the DARI wallet payment option in the Pay with section";
              "click the DARI wallet label to select that payment method";
              "click the radio button next to the DARI wallet text to choose it";
              "choose DARI wallet as the payment method" ] ;;
  if done then ret true
  else
    try_catch
      (act "click near the text DARI wallet to select it as the payment option" ;;
       sleep 1000 ;;
       selected <- getSelectedPaymentLabel ;;
       ret (is_dari_wallet selected))
      (fun _ => ret false).

(** *** Extraction (lines 1552-1691) *)

Definition extract_id_instruction : string :=
  ("Extract the Application ID or Reference Number from this page. Look for labels like " ++ dquote ++ "Application ID" ++ dquote ++ ", " ++ dquote ++ "Reference Number" ++ dquote ++ ", or " ++ dquote ++ "Request ID" ++ dquote ++ ". Return only the alphanumeric ID value.").

(** [/([A-Z0-9-]{6,})/i] *)
Definition re_id_token : Regex := Group (AtLeast 6 cls_id).

(** The four [patterns] of the regex fallback, in their order. *)
Definition id_patterns : list Regex :=
  [ (* /Application\s+ID\s*:?\s*([A-Z0-9-]+)/i *)
    Seq (LitI "Application") (Seq (Plus cls_space) (Seq (LitI "ID") (Seq (Star cls_space)
      (Seq (Opt (Lit ":")) (Seq (Star cls_space) (Group (Plus cls_id)))))));
    (* /Reference\s+Number\s*:?\s*([A-Z0-9-]+)/i *)
    Seq (LitI "Reference") (Seq (Plus cls_space) (Seq (LitI "Number") (Seq (Star cls_space)
      (Seq (Opt (Lit ":")) (Seq (Star cls_space) (Group (Plus cls_id)))))));
    (* /Request\s+ID\s*:?\s*([A-Z0-9-]+)/i *)
    Seq (LitI "Request") (Seq (Plus cls_space) (Seq (LitI "ID") (Seq (Star cls_space)
      (Seq (Opt (Lit ":")) (Seq (Star cls_space) (Group (Plus cls_id)))))));
    (* /ID\s*:?\s*([A-Z0-9]{6,})/i *)
    Seq (LitI "ID") (Seq (Star cls_space) (Seq (Opt (Lit ":")) (Seq (Star cls_space)
      (Group (AtLeast 6 cls_alnum))))) ].

(** [for (const pattern of patterns)]: the first pattern with a non-empty group. *)
Fixpoint first_pattern (patterns : list Regex) (pageText : string) : option string :=
  match patterns with
  | [] => None
  | pattern :: rest =>
      match match1 pattern pageText with
      | Some m => Some m
      | None => first_pattern rest pageText
      end
  end.

(** What the AI extraction of the identifier is worth: the token it
    holds, if it holds one. *)
Definition usable_id (extraction : option string) : option string :=
  match extraction with
  | Some raw =>
      if truthy raw
      then
        let extracted := trim raw in
        if andb (truthy extracted) (Nat.leb 6 (js_length extracted))
        then match1 re_id_token extracted
        else None
      else None
  | None => None
  end.

(** The regex fallback over [page.textContent('body')]. *)
Definition id_from_text (pageText : option string) : option string :=
  match pageText with
  | Some t => if truthy t then first_pattern id_patterns t else None
  | None => None
  end.

Definition extractApplicationId : M (option string) :=
  try_catch
    (extraction <- page_extract page extract_id_instruction ;;
     match usable_id extraction with
     | Some id => ret (Some id)
     | None =>
         pageText <- page_textContent page ;;
         ret (id_from_text pageText)
     end)
    (fun _ => ret None).

(** [/(ß?\s*\d+(?:\.\d+)?)/i] *)
Definition re_amount : Regex :=
  Group (Seq (Opt (Lit "ß")) (Seq (Star cls_space) decimal)).

(** [match[1].includes('ß') ? match[1] : `ß ${match[1]}`] *)
Definition format_amount (m : string) : string :=
  if includes m "ß" then m else "ß " ++ m.

Definition usable_amount (extraction : option string) : option string :=
  match extraction with
  | Some raw =>
      if truthy raw
      then match match1 re_amount (trim raw) with
           | Some m => Some (format_amount m)
           | None => None
           end
      else None
  | None => None
  end.

Definition amount_from_text (pattern : Regex) (pageText : option string) : option string :=
  match pageText with
  | Some t =>
      if truthy t
      then match match1 pattern t with
           | Some m => Some ("ß " ++ m)
           | None => None
           end
      else None
  | None => None
  end.

Definition extract_amount (instruction : string) (pattern : Regex) : M (option string) :=
  try_catch
    (extraction <- page_extract page instruction ;;
     match usable_amount extraction with
     | Some formatted => ret (Some formatted)
     | None =>
         pageText <- page_textContent page ;;
         ret (amount_from_text pattern pageText)
     end)
    (fun _ => ret None).

Definition extractWalletBalance : M (option string) :=
  a <- get_this ;;
  extract_amount
    ("Extract the DARI wallet balance amount shown below the DARI wallet payment option. Look for text like " ++ dquote ++ "Balance: ß 150.50" ++ dquote ++ " or " ++ dquote ++ "Balance ß 0" ++ dquote ++ ". Return the complete value with currency symbol.")
    (walletBalancePattern (config a)).

Definition extractPaymentAmount : M (option string) :=
  a <- get_this ;;
  extract_amount
    ("Extract the " ++ dquote ++ "Total to be paid" ++ dquote ++ " amount from the payment details section. Look for red text showing the total amount with ß currency symbol. Return the complete value.")
    (totalAmountPattern (config a)).

(** [parseFloat(text.replace(/[^0-9.]/g, ''))] *)
Definition parse_amount (text : string) : number :=
  parseFloat (filter_string (fun c => orb (is_digit c) (Ascii.eqb c "."%char)) text).

(** *** The applications list (lines 2092-2305) *)

Definition applicationsUrl : string :=
  "https://www.dari.ae/en/app/applications?type=applications".


(** [try { m } catch (error) { throw new Error(prefix + message(error)) }] *)
Definition rethrow_as (X : Type) (prefix : string) (m : M X) : M X :=
  try_catch m (fun e => throw (Error (prefix ++ messageOf e))).

Definition navigateToApplicationsPage : M unit :=
  rethrow_as "Failed to navigate to Applications page: "
    (retry (page_goto page applicationsUrl) 3 2000 ;;
     sleep 3000 ;;
     page_waitForLoadState page "networkidle" ;;
     sleep 2000 ;;
     _ <- page_url page ;;
     _ <- observe "find applications list, search filters, or application ID input field on this page" ;;
     ret tt).

Definition searchApplicationById (applicationId : string) : M unit :=
  rethrow_as ("Failed to search for Application ID " ++ applicationId ++ ": ")
    (retry (act (("find the Application ID input field or search filter in the left sidebar and type " ++ dquote)
                   ++ applicationId ++ (dquote))) 3 2000 ;;
     sleep 2000 ;;
     retry (act "click the Search button or Show Results button to filter applications") 3 2000 ;;
     sleep 3000 ;;
     page_waitForLoadState page "networkidle" ;;
     _ <- observe "find application cards or results on the right side of the page" ;;
     ret tt).

(** [record.error = record.error ? `${record.error}${more}` : fresh] *)
Definition append_error (more fresh : string) (r : SitePlanRecord) : SitePlanRecord :=
  set_error (Some (if truthy_opt (error r)
                   then match error r with Some e => e ++ more | None => fresh end
                   else fresh)) r.

(** The download button test of [viewAndDownloadApplication]. *)
Definition is_fallback_download_button (item : ObserveResult) : bool :=
  if negb (String.eqb (method item) "click") then false
  else
    let d := desc item in
    andb (includes d "download")
         (orb (orb (includes d "certificate") (includes d "site plan"))
              (orb (includes d "verification") (includes d "document"))).

Definition FALLBACK_MAX_ATTEMPTS : nat := 60.

(** The [while (attemptNumber < MAX_ATTEMPTS)] loop; the result is [downloadFound]. *)
Fixpoint fallback_loop (record : nat) (remaining : nat) : M bool :=
  match remaining with
  | O => ret false
  | S remaining' =>
      found <- try_catch
                 (headerObservation <- observe "find Download Certificate button or Download button in the top right corner of the page" ;;
                  match List.find is_fallback_download_button headerObservation with
                  | Some _ =>
                      retry (act "click the Download Certificate button in the top right corner") 3 2000 ;;
                      sleep 5000 ;;
                      update record (fun r => set_downloadedViaFallback true
                                                (set_certificateDownloaded true r)) ;;
                      r <- read record ;;
                      updatePersistedApplicationDownloadStatus (sp_plotNumber r) true ;;
                      ret true
                  | None => ret false
                  end)
                 (fun _ => ret false) ;;
      if found then ret true
      else (sleep 5000 ;; fallback_loop record remaining')
  end.

Definition viewAndDownloadApplication (record : nat) : M unit :=
  rethrow_as "Failed to view and download application: "
    (retry (act "click the View Application link or button in the application card") 3 2000 ;;
     sleep 3000 ;;
     page_waitForLoadState page "networkidle" ;;
     sleep 2000 ;;
     _ <- page_url page ;;
     downloadFound <- fallback_loop record FALLBACK_MAX_ATTEMPTS ;;
     if negb downloadFound
     then update record (append_error "; Fallback download timeout"
                                      "Fallback download timeout - button never appeared")
     else ret tt).

(** *** [downloadCertificate] (lines 1699-1862) *)

Definition poll_instruction : string :=
  "find ALL interactive elements including: Download Certificate button, Download button, processing status messages, error messages, success indicators, and any page headings".

Definition is_download_button (item : ObserveResult) : bool :=
  if negb (String.eqb (method item) "click") then false
  else
    let d := desc item in
    andb (includes d "download")
         (orb (orb (includes d "certificate") (includes d "site plan"))
              (orb (includes d "verification")
                   (orb (includes d "document") (includes d "pdf")))).

(** The explicit error indicator: [desc.includes('error') ||
    desc.includes('failed') || desc.includes('unsuccessful')]. *)
Definition is_error_message (item : ObserveResult) : bool :=
  let d := desc item in
  orb (includes d "error") (orb (includes d "failed") (includes d "unsuccessful")).

Definition MAX_OBSERVATIONS : nat := 120.

(** The journal entries of the observation of the loop, and their number
    in a journal. *)
Definition is_poll (e : Event) : bool :=
  match e with
  | EObserve instruction _ => String.eqb instruction poll_instruction
  | _ => false
  end.

Definition polls (W : Type) (s : St W Agent) : nat :=
  List.length (List.filter is_poll (journal s)).


(** The journal entries of a visit to the applications list. *)
Definition is_applications_visit (e : Event) : bool :=
  match e with
  | EGoto target _ => String.eqb target applicationsUrl
  | _ => false
  end.

(** How one pass through the body of the observation loop ends. *)
Inductive Pass : Type :=
| PassReturn                 (* [return] from the method *)
| PassBreak (found : bool)   (* [break], with [downloadButtonFound] *)
| PassOn (found : bool).     (* on to [sleep(5000)] and the loop test *)

(** How the loop ends. *)
Inductive PollExit : Type :=
| Returned
| Ended (downloadButtonFound : bool).

Definition download_click : string :=
  "click the Download Certificate button in the top right corner to download the certificate".

(** What the body of the loop does with an observation: the error
    message, the download button, and the check of the address.
    [downloadButtonFound] is set before the click, so a click that throws
    leaves the flag set when the [catch (obsError)] takes over. *)
Definition after_observation (record : nat) (startUrl : string)
           (pageStateObservation : list ObserveResult) : M Pass :=
  match List.find is_error_message pageStateObservation with
  | Some _ =>
      update record (set_error (Some "Certificate generation failed")) ;;
      ret PassReturn
  | None =>
      match List.find is_download_button pageStateObservation with
      | Some _ =>
          try_catch
            (retry (act download_click) 3 2000 ;;
             update record (set_certificateDownloaded true) ;;
             r <- read record ;;
             updatePersistedApplicationDownloadStatus (sp_plotNumber r) true ;;
             ret (PassBreak true))
            (fun _ => ret (PassOn true))
      | None =>
          page_waitForLoadState page "domcontentloaded" ;;
          currentUrl <- page_url page ;;
          if andb (negb (String.eqb currentUrl startUrl))
                  (orb (includes currentUrl "error") (includes currentUrl "404"))
          then
            (update record (set_error (Some "Page navigated to error during download wait")) ;;
             ret (PassBreak false))
          else ret (PassOn false)
      end
  end.

(** The [try] block of the loop body with its [catch (obsError)]. *)
Definition observation_pass (record : nat) (startUrl : string) : M Pass :=
  try_catch
    (pageStateObservation <- observe poll_instruction ;;
     after_observation record startUrl pageStateObservation)
    (fun _ => ret (PassOn false)).

(** The [while (!downloadButtonFound && observationCount < MAX_OBSERVATIONS)]
    loop. *)
Fixpoint observation_loop (record : nat) (startUrl : string) (remaining : nat) : M PollExit :=
  match remaining with
  | O => ret (Ended false)
  | S remaining' =>
      pass <- observation_pass record startUrl ;;
      match pass with
      | PassReturn => ret Returned
      | PassBreak found => ret (Ended found)
      | PassOn found =>
          sleep 5000 ;;
          if found then ret (Ended true)
          else observation_loop record startUrl remaining'
      end
  end.

Definition downloadCertificate (record : nat) : M unit :=
  try_catch
    (stamp <- now_iso page ;;
     update record (fun r => set_downloadAttempt (downloadAttempts r + 1) (Some stamp) r) ;;
     page_waitForLoadState page "domcontentloaded" ;;
     startUrl <- page_url page ;;
     if orb (includes startUrl "404")
            (orb (includes startUrl "error") (includes startUrl "not-found"))
     then update record (set_error (Some "Payment redirect failed - error page detected"))
     else
       (exit <- observation_loop record startUrl MAX_OBSERVATIONS ;;
        match exit with
        | Returned => ret tt
        | Ended found =>
            if negb found
            then update record
                   (append_error "; Download button never appeared"
                                 "Download button did not appear after extended observations")
            else ret tt
        end))
    (fun e =>
       update record (append_error ("; Download error: " ++ messageOf e)
                                   ("Download error: " ++ messageOf e))).

(** *** [searchAndProcessPlot] (lines 957-1550) *)

(** Lines 981-1010, inside [if (persisted)]: the result is
    [record.certificateDownloaded]. *)
Definition smart_workflow (plot : PlotData) (record : nat)
           (persisted : Ledger.PersistedApplicationData) : M bool :=
  update record (fun r =>
    set_alreadyExisted true
      (set_paid true (set_applicationId (Some (Ledger.applicationId persisted)) r))) ;;
  try_catch
    (navigateToApplicationsPage ;;
     searchApplicationById (Ledger.applicationId persisted) ;;
     viewAndDownloadApplication record ;;
     r <- read record ;;
     if certificateDownloaded r
     then updatePersistedApplicationDownloadStatus (plotNumber plot) true
     else ret tt)
    (fun _ => update record (set_alreadyExisted false)) ;;
  r <- read record ;;
  ret (certificateDownloaded r).

Definition is_search_button (item : ObserveResult) : bool :=
  let d := desc item in
  andb (String.eqb (method item) "click")
       (andb (orb (includes d "search")
                  (orb (includes d "show results")
                       (orb (includes d "filter") (includes d "apply"))))
             (negb (includes d "pay"))).

(** [/abudhabipay\.|paymentpage\./i] *)
Definition re_gateway : Regex := Alt (LitI "abudhabipay.") (LitI "paymentpage.").

(** Step 9 up to the guard of lines 1113-1122: the result tells whether
    the page was redirected to the external payment gateway. *)
Definition enter_plot_number (plot : PlotData) : M bool :=
  _ <- observe "Find the Plot Number input field or text box in the Filters section on the left sidebar" ;;
  retry (act ("type " ++ dquote ++ plotNumber plot ++ dquote
                ++ " into the Plot Number input field in the Filters section")) 3 2000 ;;
  sleep 1000 ;;
  searchButtonObservation <- observe "Find any Search, Show Results, Filter, or Apply button near the filters, or observe if results already appeared on the right" ;;
  match List.find is_search_button searchButtonObservation with
  | Some _ => retry (act "click the search or filter button to show filtered results") 3 2000
  | None => ret tt
  end ;;
  sleep 1000 ;;
  postSearchUrl <- page_url page ;;
  ret (regex_test re_gateway postSearchUrl).

(** [pageText?.toLowerCase().includes(needle)] *)
Definition text_includes (pageText : option string) (needle : string) : bool :=
  match pageText with
  | Some t => includes (toLowerCase t) needle
  | None => false
  end.

(** Lines 1124-1156. *)
Definition observe_results (record : nat) : M bool :=
  _ <- intelligentWaitUntilPageReady
         "Find filtered property results on the right side, or a message saying no properties found" 30 ;;
  resultsObservation <- observe "Find the property cards or results on the right side showing filtered properties, or any message indicating no properties were found" ;;
  pageText <- page_textContent page ;;
  let noPropertyMessage :=
    orb (text_includes pageText "you don't own any property")
        (orb (text_includes pageText "will not be able to proceed")
             (orb (text_includes pageText "no properties found")
                  (Nat.eqb (List.length resultsObservation) 0))) in
  if noPropertyMessage
  then (update record (set_error (Some "Property not found or not owned by user")) ;; ret false)
  else ret true.

Definition is_proceed (item : ObserveResult) : bool :=
  let d := desc item in
  andb (String.eqb (method item) "click")
       (andb (includes d "proceed") (negb (includes d "cancel"))).

(** Lines 1158-1242. *)
Definition select_and_proceed : M bool :=
  retry (act "click on the property that appears in the search results on the right side") 3 2000 ;;
  page_waitForLoadState page "domcontentloaded" ;;
  _ <- observe "find the selected property card with checkmark or highlight, and the Proceed button at the bottom" ;;
  proceedObserve <- observe "Find the red Proceed button on the right side at the bottom (NOT the gray Cancel button on the left)" ;;
  match List.find is_proceed proceedObserve with
  | None => throw (Error "Could not find Proceed button via observe()")
  | Some proceedAction =>
      page_actOn page proceedAction ;;
      page_waitForLoadState page "networkidle" ;;
      ret true
  end.

Definition page_loaded (pageCheck : list ObserveResult) : bool :=
  let hasPaymentElements :=
    existsb (fun item => let d := desc item in
               orb (includes d "dari wallet")
                   (orb (includes d "credit card")
                        (orb (includes d "debit") (includes d "payment")))) pageCheck in
  let hasApplicationId :=
    existsb (fun item => let d := desc item in
               orb (includes d "application id") (includes d "reference number")) pageCheck in
  let hasCertificateHeading :=
    existsb (fun item => let d := desc item in
               orb (includes d "certificate") (includes d "site plan")) pageCheck in
  orb hasPaymentElements (orb hasApplicationId hasCertificateHeading).

(** The [while (!certificatePageLoaded)] loop of lines 1249-1291, which has
    no bound of its own: [fuel] bounds it in the model. *)
Fixpoint certificate_page_loop (fuel : nat) : M unit :=
  match fuel with
  | O => diverge
  | S fuel' =>
      pageCheck <- observe "Find payment options (DARI wallet, credit card), application ID field, certificate details, or processing messages" ;;
      if page_loaded pageCheck then ret tt
      else (page_waitForTimeout page 2000 ;; certificate_page_loop fuel')
  end.

(** Lines 1244-1314. *)
Definition await_certificate_page (fuel : nat) (record : nat) : M bool :=
  certificate_page_loop fuel ;;
  currentUrl <- page_url page ;;
  if orb (includes currentUrl "404") (includes currentUrl "error")
  then (update record (set_error (Some "Navigation failed after clicking Proceed")) ;; ret false)
  else ret true.

(** Step 5, lines 1318-1329: an identifier that was extracted is recorded
    and persisted; without one the method goes on to the payment section. *)
Definition identify_application (plot : PlotData) (record : nat) : M bool :=
  applicationId <- extractApplicationId ;;
  (if truthy_opt applicationId
   then
     (update record (set_applicationId applicationId) ;;
      addPersistedApplication (plotNumber plot)
        (match applicationId with Some id => id | None => "" end) false)
   else ret tt) ;;
  ret true.

Definition is_dari_wallet_option (item : ObserveResult) : bool :=
  let d := desc item in
  match description item with
  | Some _ => orb (includes d "dari wallet") (andb (includes d "dari") (includes d "wallet"))
  | None => false
  end.

(** Steps 6 and 7, lines 1331-1384. *)
Definition select_wallet (record : nat) : M bool :=
  paymentOptions <- observe ("find all payment options including Debit/Credit Card and DARI wallet radio buttons in the " ++ dquote ++ "Pay with" ++ dquote ++ " section") ;;
  match List.find is_dari_wallet_option paymentOptions with
  | None =>
      update record (set_error (Some "DARI wallet option not found on page")) ;; ret false
  | Some dariWalletOption =>
      if negb (String.eqb (method dariWalletOption) "click")
      then (update record (set_error (Some "DARI wallet element found but not interactive")) ;;
            ret false)
      else
        (attempt_ (retry (act "select the DARI wallet payment option") 2 1500) ;;
         walletSelected <- ensureDariWalletSelected ;;
         if walletSelected then ret true
         else (update record (set_error (Some "Failed to select DARI wallet payment option")) ;;
               ret false))
  end.

Definition is_pay_now (item : ObserveResult) : bool :=
  let d := desc item in
  andb (match description item with
        | Some _ => orb (includes d "pay now") (andb (includes d "pay") (includes d "now"))
        | None => false
        end)
       (String.eqb (method item) "click").

(** The action text of the payment click (Step 13). *)
Definition pay_click : string :=
  "click the red Pay now button at the bottom to complete the payment".

(** The number of payment clicks the journal holds, and the journal
    entries that are not one. *)
Definition pays (s : St W Agent) : nat := count_act pay_click (journal s).
Definition no_pay (e : Event) : bool := negb (is_act pay_click e).

(** Steps 12 to 15, lines 1447-1528: the live payment. *)
Definition pay_and_download (record : nat) : M unit :=
  payNowObservation <- observe "find the Pay now button at the bottom of the page to complete the payment" ;;
  match List.find is_pay_now payNowObservation with
  | None => update record (set_error (Some "Pay Now button not found"))
  | Some _ =>
      retry (act pay_click) 3 2000 ;;
      page_waitForLoadState page "domcontentloaded" ;;
      postPaymentObservation <- observe "find any success messages, error messages, payment confirmation, download buttons, or processing status indicators" ;;
      if existsb is_error_message postPaymentObservation
      then update record (set_error (Some "Payment failed - error message detected"))
      else
        (_ <- page_url page ;;
         update record (set_paid true) ;;
         downloadCertificate record)
  end.

(** Steps 8 to 11 and the branches of lines 1425-1542. *)
Definition validate_funds_and_pay (record : nat) : M unit :=
  a <- get_this ;;
  page_waitForLoadState page "domcontentloaded" ;;
  _ <- observe "find the DARI wallet balance amount and the total payment amount" ;;
  walletBalance <- extractWalletBalance ;;
  paymentAmount <- extractPaymentAmount ;;
  match walletBalance, paymentAmount with
  | Some wb, Some pa =>
      if andb (truthy wb) (truthy pa)
      then
        let balance := parse_amount wb in
        let amount := parse_amount pa in
        if num_ge balance amount
        then
          (update record (set_walletBalanceSufficient true) ;;
           if negb (payment_enabled (config a)) then ret tt
           else pay_and_download record)
        else
          update record (fun r =>
            set_error (Some ("Insufficient balance: " ++ wb ++ " < " ++ pa))
                      (set_walletBalanceSufficient false r))
      else update record (set_error (Some "Could not extract payment information"))
  | _, _ => update record (set_error (Some "Could not extract payment information"))
  end.

(** The body of the method from the search results on (lines 1124-1542). *)
Definition process_found_plot (fuel : nat) (plot : PlotData) (record : nat) : M unit :=
  observe_results record ;;>
  select_and_proceed ;;>
  await_certificate_page fuel record ;;>
  identify_application plot record ;;>
  select_wallet record ;;>
  validate_funds_and_pay record.

(** [searchAndProcessPlot(plot)]: the reference of the record it returns.
    [fuel] bounds the re-entries after a gateway redirect (line 1121) and
    the wait for the certificate page; neither has a bound in the source. *)
Fixpoint searchAndProcessPlot (fuel : nat) (plot : PlotData) : M nat :=
  match fuel with
  | O => diverge
  | S fuel' =>
      record <- alloc (new_record plot None) ;;
      try_catch
        (a <- get_this ;;
         downloaded <-
           (if prePayCheckEnabled a
            then match Ledger.Map_get (plotNumber plot)
                         (Ledger.persistedApplications (store a)) with
                 | Some persisted => smart_workflow plot record persisted
                 | None => ret false
                 end
            else ret false) ;;
         if downloaded then ret record
         else
           (redirected <- enter_plot_number plot ;;
            if redirected
            then
              (navigateToServicesMenu ;;
               selectSitePlanService ;;
               sleep 1500 ;;
               searchAndProcessPlot fuel' plot)
            else (process_found_plot fuel' plot record ;; ret record)))
        (fun e => update record (set_error (Some (messageOf e))) ;; ret record)
  end.


(** *** The batch loop and the recovery pass (lines 1864-2090) *)

Definition push_sitePlan (record : nat) : M unit :=
  modify_this (fun a => with_sitePlans (sitePlans a ++ [record])%list a).

Definition navigateBackToSitePlanService : M unit :=
  try_catch
    (currentUrl <- page_url page ;;
     if orb (includes currentUrl "/siteplan")
            (orb (includes currentUrl "/site-plan") (includes currentUrl "/certificates"))
     then ret tt
     else (navigateToServicesMenu ;; selectSitePlanService))
    (fun _ => sleep 2000 ;; navigateToServicesMenu ;; selectSitePlanService).

Definition recoverFromError : M unit :=
  a <- get_this ;;
  currentUrl <- page_url page ;;
  (if orb (includes currentUrl "error") (includes currentUrl "404")
   then (page_goto page (baseUrl (config a)) ;; sleep 3000)
   else ret tt) ;;
  _ <- intelligentWaitUntilPageReady
         "Find user profile, avatar, or logout button to verify logged in" 15 ;;
  ret tt.

(** The [for (let i = 0; i < this.plots.length; i++)] loop of [processAllPlots]. *)
Fixpoint plots_loop (fuel : nat) (rest : list PlotData) (i total : Z) : M unit :=
  match rest with
  | [] => ret tt
  | plot :: rest' =>
      try_catch
        (record <- searchAndProcessPlot fuel plot ;;
         push_sitePlan record)
        (fun plotError =>
           errorRecord <- alloc (new_record plot
                                   (Some ("Critical error: " ++ messageOf plotError))) ;;
           push_sitePlan errorRecord ;;
           attempt_ recoverFromError) ;;
      (if i <? total - 1
       then try_catch (navigateBackToSitePlanService ;; sleep 2000)
                      (fun _ => attempt_ recoverFromError)
       else ret tt) ;;
      (if (i + 1) mod 10 =? 0 then savePersistedApplications else ret tt) ;;
      plots_loop fuel rest' (i + 1) total
  end.

Definition processAllPlots (fuel : nat) : M unit :=
  a <- get_this ;;
  plots_loop fuel (plots a) 0 (Z.of_nat (List.length (plots a))) ;;
  savePersistedApplications.

(** [record.paid && !record.certificateDownloaded && record.applicationId] *)
Definition is_failed_download (r : SitePlanRecord) : bool :=
  andb (paid r) (andb (negb (certificateDownloaded r)) (truthy_opt (applicationId r))).

(** [this.sitePlans.filter(...)] of [processFailedDownloads]: the records
    the recovery pass goes through. *)
Definition failedDownloads (a : Agent) : list nat :=
  List.filter (fun record => is_failed_download (deref (heap a) record)) (sitePlans a).

Fixpoint recovery_loop (records : list nat) (i total : Z) : M unit :=
  match records with
  | [] => ret tt
  | record :: rest =>
      try_catch
        (r <- read record ;;
         navigateToApplicationsPage ;;
         searchApplicationById (match applicationId r with Some id => id | None => "" end) ;;
         viewAndDownloadApplication record ;;
         if i <? total - 1 then sleep 3000 else ret tt)
        (fun e =>
           update record (append_error ("; Fallback failed: " ++ messageOf e)
                                       ("Fallback recovery failed: " ++ messageOf e)) ;;
           attempt_ recoverFromError) ;;
      recovery_loop rest (i + 1) total
  end.

Definition processFailedDownloads : M unit :=
  a <- get_this ;;
  match failedDownloads a with
  | [] => ret tt
  | failed =>
      recovery_loop failed 0 (Z.of_nat (List.length failed)) ;;
      savePersistedApplications
  end.

(** *** [executeWorkflow] (lines 2307-2350) *)

(** [initialize()]: starts the browser and clears its storage. *)
Definition initialize : M unit :=
  _ <- page_evaluate page "localStorage.clear(); sessionStorage.clear()" ;; ret tt.

(** The steps of [executeWorkflow] before the wait for the approval. *)
Definition steps_before_approval : M unit :=
  initialize ;;
  (a <- get_this ;; if prePayCheckEnabled a then loadPersistedApplications else ret tt) ;;
  loadPlotNumbers ;;
  navigateToDari ;;
  clickLoginButton ;;
  clickUAEPassLogin ;;
  enterMobileAndEnableRememberMe.

(** The steps up to the end of the login. *)
Definition steps_through_login : M unit :=
  steps_before_approval ;;
  waitForUAEPassApproval.

(** The steps after it: everything that touches a plot. *)
Definition steps_after_login (fuel : nat) : M unit :=
  (a <- get_this ;;
   if accountSwitching_enabled (config a) then switchToAlJurfHospitalityAccount else ret tt) ;;
  navigateToServicesMenu ;;
  selectSitePlanService ;;
  processAllPlots fuel ;;
  processFailedDownloads.

(** [executeWorkflow()]: the [catch] prints and re-throws; [finally]
    closes the browser. *)
Definition executeWorkflow (fuel : nat) : M unit :=
  try_catch (steps_through_login ;; steps_after_login fuel) (fun error => throw error).

End Methods.

End SitePlan.

(** ** [src/agents/dari-affection-plan-agent.ts] *)

Module AffectionPlan.
Import Js Exec.
Local Open Scope agent_scope.

(** [interface PlotData] *)
Record PlotData : Type := {
  plotNumber : string;
  rowIndex : Z
}.

(** [interface PlotResult] *)
Record PlotResult : Type := {
  r_plotNumber : string;
  r_rowIndex : Z;
  applicationId : option string;
  paymentCompleted : bool;
  downloadCompleted : bool;
  error : option string
}.

(** The fields of [DariAffectionPlanConfig] the plot loop reads. *)
Record Config : Type := {
  servicesMenuText : string;
  affectionPlanServiceText : string;
  pageLoad : Z;
  afterClick : Z;
  downloadPageTimeout : Z
}.

(** [defaultDariAffectionPlanConfig] *)
Definition defaultDariAffectionPlanConfig : Config :=
  {| servicesMenuText := "Services";
     affectionPlanServiceText := "Site Plan";
     pageLoad := 3000;
     afterClick := 1500;
     downloadPageTimeout := 900000 |}.

(** The fields of [class DariAffectionPlanAgent]; [this.stagehand] is set. *)
Record Agent : Type := {
  plots : list PlotData;
  results : list PlotResult;
  config : Config
}.

Definition result_of (plot : PlotData) (appId : option string) (payment download : bool)
           (err : option string) : PlotResult :=
  {| r_plotNumber := plotNumber plot; r_rowIndex := rowIndex plot; applicationId := appId;
     paymentCompleted := payment; downloadCompleted := download; error := err |}.

Section Methods.
Variable W : Type.
Variable page : Page W.

Local Abbreviation M := (Exec.M W Agent).
Local Abbreviation observe := (page_observe page).
Local Abbreviation act := (page_act page).
Local Abbreviation sleep := (sleep_ page).
Local Abbreviation retry := (retry_ page).

(** [this.results.push(result)] *)
Definition push_result (r : PlotResult) : M unit :=
  modify_this (fun a =>
    {| plots := plots a; results := (results a ++ [r])%list; config := config a |}).

(** The results recorded so far are all still there, in their order. *)
Definition records_kept (s s' : St W Agent) : Prop :=
  exists added, results (this s') = (results (this s) ++ added)%list.

(** [await page.act({ action }); await sleep(this.config.waitTimes.afterClick)],
    the closure the agent hands to [retry]. *)
Definition act_and_settle (action : string) : M unit :=
  a <- get_this ;;
  act action ;;
  sleep (afterClick (config a)).

(** *** Navigation (lines 440-513 and 1481-1493) *)

Definition navigateToServicesMenu : M unit :=
  a <- get_this ;;
  _ <- observe ("Find the " ++ dquote ++ servicesMenuText (config a) ++ dquote
                  ++ " menu item in the navigation") ;;
  retry (act_and_settle ("click on the " ++ dquote ++ servicesMenuText (config a)
                           ++ dquote ++ " menu")) 3 2000 ;;
  sleep (pageLoad (config a)).

Definition selectAffectionPlanService : M unit :=
  a <- get_this ;;
  _ <- observe ("Find the " ++ dquote ++ affectionPlanServiceText (config a) ++ dquote
                  ++ " service card or link") ;;
  retry (act_and_settle ("click on the " ++ dquote ++ affectionPlanServiceText (config a)
                           ++ dquote ++ " service")) 3 2000 ;;
  sleep (pageLoad (config a)).

Definition navigateBackToServicePage : M unit :=
  navigateToServicesMenu ;;
  selectAffectionPlanService.

(** *** [searchAndFilterPlot] (lines 622-1476) *)

(** [pageText?.toLowerCase().includes(needle)] *)
Definition text_includes (pageText : option string) (needle : string) : bool :=
  match pageText with
  | Some t => includes (toLowerCase t) needle
  | None => false
  end.

(** Step 11, lines 629-756: search, and the not-found outcome. *)
Definition search_plot (plot : PlotData) : M bool :=
  a <- get_this ;;
  _ <- observe "Find the Plot Number input field in the Filters section on the left sidebar" ;;
  retry (act_and_settle ("type " ++ dquote ++ plotNumber plot ++ dquote
                           ++ " into the Plot Number input field in the left sidebar")) 3 2000 ;;
  _ <- observe ("Find the " ++ dquote ++ "Show Results" ++ dquote ++ " button at the bottom of the left sidebar filter section. DO NOT select the " ++ dquote ++ "All Filters" ++ dquote ++ " button which is above it.") ;;
  retry (act_and_settle ("click the " ++ dquote ++ "Show Results" ++ dquote ++ " button at the bottom of the left filter panel. DO NOT click " ++ dquote ++ "All Filters" ++ dquote ++ " which is above it. Click specifically the button that says " ++ dquote ++ "Show Results" ++ dquote ++ ".")) 3 2000 ;;
  sleep (pageLoad (config a)) ;;
  resultsObservation <- observe "Find the filtered property results on the right side, or any message indicating no results found" ;;
  pageText <- page_textContent page ;;
  let noPropertyMessage :=
    orb (text_includes pageText "you don't own any property")
        (orb (text_includes pageText "you do not own any property")
             (text_includes pageText "will not be able to proceed")) in
  let noResults :=
    orb (text_includes pageText "no result")
        (orb (text_includes pageText "not found")
             (Nat.eqb (List.length resultsObservation) 0)) in
  if orb noPropertyMessage noResults
  then
    (push_result (result_of plot None false false
                    (Some "Plot not found - You don't own any property")) ;;
     navigateBackToServicePage ;;
     ret false)
  else ret true.

(** [for (let i = 0; i < n; i++) { await sleep(500); if (page.url() !== startUrl) break; }] *)
Fixpoint url_change_loop (startUrl : string) (remaining : nat) : M unit :=
  match remaining with
  | O => ret tt
  | S remaining' =>
      sleep 500 ;;
      currentUrl <- page_url page ;;
      if negb (String.eqb currentUrl startUrl) then ret tt
      else url_change_loop startUrl remaining'
  end.

Definition has_page_content (contentCheck : list ObserveResult) : bool :=
  existsb (fun item =>
    let d := desc item in
    andb (orb (includes d "application")
           (orb (includes d "certificate")
             (orb (includes d "payment")
               (orb (includes d "form")
                 (orb (includes d "submit")
                   (orb (includes d "proceed")
                     (orb (includes d "reference") (includes d "id"))))))))
         (andb (negb (includes d "header")) (negb (includes d "navigation"))))
    contentCheck.

(** The [while (!pageReady && observationAttempt < MAX_WAIT_ATTEMPTS)] loop
    of lines 852-897. *)
Fixpoint content_loop (remaining : nat) : M unit :=
  match remaining with
  | O => ret tt
  | S remaining' =>
      pageReady <- try_catch
        (contentCheck <- observe "Find application forms, certificate details, payment sections, application IDs, or main page content (not just header/footer navigation)" ;;
         ret (andb (has_page_content contentCheck) (Nat.leb 5 (List.length contentCheck))))
        (fun _ => ret false) ;;
      if pageReady then ret tt
      else (sleep 2000 ;; content_loop remaining')
  end.

(** Lines 758-995: select the result, proceed, wait for the next page and
    read it with the AI extraction. *)
Definition open_application (plot : PlotData) : M PageContent :=
  retry (act_and_settle "click on the property that appears in the filtered results on the right side") 3 2000 ;;
  _ <- observe "Find the red Proceed button at the bottom (not the gray Cancel button)" ;;
  retry (act_and_settle "click the red Proceed button at the bottom to continue") 3 2000 ;;
  startUrl <- page_url page ;;
  url_change_loop startUrl 20 ;;
  page_waitForLoadState page "domcontentloaded" ;;
  sleep 2000 ;;
  content_loop 30 ;;
  sleep 5000 ;;
  _ <- observe "Find ALL elements on this page including headings, forms, buttons, input fields, payment options, application IDs, and any interactive elements" ;;
  _ <- page_url page ;;
  page_extractPageContent page "Extract information about this page including title, application ID, payment options, and what type of page this is".

(** [/(\d{14,})/] *)
Definition re_application_id : Regex := Group (AtLeast 14 cls_digit).

(** [pageContent.hasApplicationId && pageContent.applicationId] *)
Definition ai_application_id (pageContent : PageContent) : option string :=
  if andb (hasApplicationId pageContent) (truthy_opt (pc_applicationId pageContent))
  then pc_applicationId pageContent
  else None.

(** [pageTextContent?.match(/(\d{14,})/)] and its group. *)
Definition id_from_text (pageTextContent : option string) : option string :=
  match pageTextContent with
  | Some t =>
      match regex_match re_application_id t with
      | Some (g :: _) => Some g
      | _ => None
      end
  | None => None
  end.

(** Step 12, lines 1002-1032: [None] is the [return] after the failed
    result has been recorded. *)
Definition extract_application_id (plot : PlotData) (pageContent : PageContent)
  : M (option string) :=
  match ai_application_id pageContent with
  | Some applicationId => ret (Some applicationId)
  | None =>
      pageTextContent <- page_textContent page ;;
      match id_from_text pageTextContent with
      | Some applicationId => ret (Some applicationId)
      | None =>
          push_result (result_of plot None false false (Some "Application ID not found")) ;;
          ret None
      end
  end.

(** Step 13 and the extraction of Step 14, lines 1034-1100. *)
Definition read_payment_details : M PaymentDetails :=
  a <- get_this ;;
  _ <- observe "Find the DARI wallet radio button payment option (Radio B, the second payment option)" ;;
  retry (act_and_settle "select the DARI wallet payment option (the second radio button, Radio B)") 3 2000 ;;
  sleep 2000 ;;
  page_extractPaymentDetails page "Extract the DARI wallet balance amount and the total payment amount (fee) from the payment details section. Look for balance text near DARI wallet and total/fee amount in payment details.".

(** [parseFloat(text.replace(/[^\d.]/g, ''))] *)
Definition parse_amount (text : string) : number :=
  parseFloat (filter_string (fun c => orb (is_digit c) (Ascii.eqb c "."%char)) text).

(** The message of the error thrown by the batch validation (line 1167). *)
Definition batch_abort_message (totalRequired : number) (totalPlots : nat)
           (balance shortage : number) : string :=
  "Insufficient balance: need " ++ toFixed2 totalRequired ++ " AED for "
    ++ string_of_nat totalPlots ++ " plots, have " ++ toFixed2 balance ++ " AED. Add "
    ++ toFixed2 shortage ++ " AED and restart.".

(** The error text of the result recorded with it (line 1164). *)
Definition batch_result_message (totalRequired : number) (totalPlots : nat) (balance : number)
  : string :=
  "Insufficient balance for batch: need " ++ toFixed2 totalRequired ++ " AED for "
    ++ string_of_nat totalPlots ++ " plots, have " ++ toFixed2 balance ++ " AED".

(** Lines 1102-1196: the funds validation.  [true] lets the payment go
    ahead; [false] is the [return] of a plot that cannot be paid; the batch
    validation throws. *)
Definition validate_funds (plot : PlotData) (applicationId : option string)
           (paymentDetails : PaymentDetails) : M bool :=
  let balance := parse_amount (walletBalance paymentDetails) in
  let amount := parse_amount (paymentAmount paymentDetails) in
  if orb (isNaN balance) (isNaN amount)
  then
    (push_result (result_of plot applicationId false false
                    (Some "Could not parse balance or payment amount")) ;;
     ret false)
  else
    (a <- get_this ;;
     let isFirstPlot := Nat.eqb (List.length (results a)) 0 in
     if isFirstPlot
     then
       let totalPlots := List.length (plots a) in
       let totalRequired := num_mul amount (number_of_nat totalPlots) in
       if num_lt balance totalRequired
       then
         let shortage := num_sub totalRequired balance in
         push_result (result_of plot applicationId false false
                        (Some (batch_result_message totalRequired totalPlots balance))) ;;
         throw (Error (batch_abort_message totalRequired totalPlots balance shortage))
       else ret true
     else
       if num_lt balance amount
       then
         (push_result (result_of plot applicationId false false
                         (Some ("Insufficient balance (shortage: "
                                  ++ toFixed2 (num_sub amount balance) ++ ")"))) ;;
          ret false)
       else ret true).

Definition is_pay_now (item : ObserveResult) : bool :=
  andb (includes (desc item) "pay now") (String.eqb (method item) "click").

(** The action text of the payment click (Step 15). *)
Definition pay_click : string := "click the Pay now button to complete the payment".

(** The number of payment clicks the journal holds, and the journal
    entries that are not one. *)
Definition pays (s : St W Agent) : nat := count_act pay_click (journal s).
Definition no_pay (e : Event) : bool := negb (is_act pay_click e).

(** Step 15, lines 1201-1240: [false] is the [return] of line 1218, taken
    without recording a result. *)
Definition click_pay_now : M bool :=
  payNowObservation <- observe "Find the Pay now button at the bottom of the page" ;;
  match List.find is_pay_now payNowObservation with
  | None => ret false
  | Some _ =>
      retry (act_and_settle pay_click) 3 2000 ;;
      ret true
  end.

Definition has_download_content (contentCheck : list ObserveResult) : bool :=
  existsb (fun item =>
    let d := desc item in
    andb (orb (includes d "download")
           (orb (includes d "certificate")
             (orb (includes d "application")
               (orb (includes d "status") (includes d "complete")))))
         (andb (negb (includes d "header")) (negb (includes d "navigation"))))
    contentCheck.

(** The [while (!downloadPageReady && downloadObservationAttempt < maxAttempts)]
    loop of lines 1298-1352. *)
Fixpoint download_page_loop (remaining : nat) : M unit :=
  match remaining with
  | O => ret tt
  | S remaining' =>
      ready <- try_catch
        (contentCheck <- observe "Find download buttons, certificate status, application details, or download page content (not just header/footer)" ;;
         ret (andb (has_download_content contentCheck) (Nat.leb 3 (List.length contentCheck))))
        (fun _ => ret false) ;;
      if ready then ret tt
      else (sleep 5000 ;; download_page_loop remaining')
  end.

Definition is_download_button (item : ObserveResult) : bool :=
  let d := desc item in
  andb (String.eqb (method item) "click")
       (andb (includes d "download")
             (orb (includes d "certificate") (orb (includes d "plan") (includes d "button")))).

Fixpoint sleep_seconds (n : nat) : M unit :=
  match n with
  | O => ret tt
  | S n' => sleep 1000 ;; sleep_seconds n'
  end.

(** Steps 16 and 17, lines 1242-1476: wait for the document, download it
    and record the paid result. *)
Definition await_and_download (plot : PlotData) (applicationId : option string) : M unit :=
  a <- get_this ;;
  paymentStartUrl <- page_url page ;;
  url_change_loop paymentStartUrl 60 ;;
  page_waitForLoadState page "domcontentloaded" ;;
  sleep 2000 ;;
  page_waitForLoadState page "networkidle" ;;
  download_page_loop (Z.to_nat (downloadPageTimeout (config a) / 5000)) ;;
  sleep 5000 ;;
  downloadPageObservation <- observe "Find all elements on this page, especially download buttons, download certificate buttons, or any buttons in the top area of the page" ;;
  downloadSuccess <-
    match List.find is_download_button downloadPageObservation with
    | Some _ =>
        sleep 3000 ;;
        try_catch
          (retry (act "click the download certificate button at the top of the page" ;; sleep 2000) 3 2000 ;;
           sleep_seconds 10 ;;
           ret true)
          (fun _ => ret false)
    | None => ret false
    end ;;
  push_result (result_of plot applicationId true downloadSuccess None).

(** The part of [searchAndFilterPlot] before the funds validation: the
    identifier and the payment details when the plot gets that far. *)
Definition reach_payment (plot : PlotData) : M (option (option string * PaymentDetails)) :=
  found <- search_plot plot ;;
  if negb found then ret None
  else
    (pageContent <- open_application plot ;;
     applicationId <- extract_application_id plot pageContent ;;
     match applicationId with
     | None => ret None
     | Some id =>
         paymentDetails <- read_payment_details ;;
         ret (Some (Some id, paymentDetails))
     end).

Definition searchAndFilterPlot (plot : PlotData) : M unit :=
  reached <- reach_payment plot ;;
  match reached with
  | None => ret tt
  | Some (applicationId, paymentDetails) =>
      validate_funds plot applicationId paymentDetails ;;>
      click_pay_now ;;>
      await_and_download plot applicationId
  end.

(** *** The plot loop of [executeWorkflow] (lines 1675-1735) *)

(** The test of lines 1693-1694 on the message of a caught error. *)
Definition is_batch_error (errorMessage : string) : bool :=
  orb (includes errorMessage "Insufficient balance for batch")
      (andb (includes errorMessage "need")
            (andb (includes errorMessage "for") (includes errorMessage "plots"))).

Fixpoint plots_loop (rest : list PlotData) (i total : Z) : M unit :=
  match rest with
  | [] => ret tt
  | plot :: rest' =>
      try_catch (searchAndFilterPlot plot)
        (fun plotError =>
           let errorMessage := messageOf plotError in
           if is_batch_error errorMessage then throw plotError
           else
             (a <- get_this ;;
              let alreadyTracked :=
                existsb (fun r => String.eqb (r_plotNumber r) (plotNumber plot)) (results a) in
              if negb alreadyTracked
              then push_result (result_of plot None false false (Some errorMessage))
              else ret tt)) ;;
      (if i <? total - 1
       then (sleep 2000 ;; attempt_ (navigateBackToServicePage))
       else ret tt) ;;
      plots_loop rest' (i + 1) total
  end.

(** [executeWorkflow] from the loading of the plots on: the loop, then
    the summary. *)
Definition process_plots : M unit :=
  a <- get_this ;;
  plots_loop (plots a) 0 (Z.of_nat (List.length (plots a))).

(** The outer [catch] of [executeWorkflow] (lines 1737-1790) around it: a
    batch validation error is printed and the method returns; any other
    error is thrown on. *)
Definition process_plots_and_report : M unit :=
  try_catch process_plots
    (fun error => if is_batch_error (messageOf error) then ret tt else throw error).

End Methods.

End AffectionPlan.

(** ** Scripted pages

    A page whose answers are fixed per plot, for running the agents on
    concrete batches.  The world is the text of the last [type "..."]
    action, which names the plot being processed. *)

Module Scripted.
Import Js Exec.

(** How the portal answers for one plot. *)
Record PlotScript : Type := {
  owned : bool;                   (* the search finds the plot *)
  ai_id : option string;          (* what the AI extraction of the identifier returns *)
  balance : string;               (* the wallet balance shown *)
  fee : string;                   (* the amount to be paid shown *)
  pay_button : bool;              (* a Pay now button is observed *)
  download_button : bool          (* a download button is observed *)
}.

Definition clickable (d : string) : ObserveResult :=
  {| description := Some d; method := "click"; selector := "" |}.

Definition elements (ps : PlotScript) : list ObserveResult :=
  ([clickable "Proceed button"; clickable "DARI wallet payment option";
    clickable "Application form"; clickable "Certificate details";
    clickable "Payment section"]
   ++ (if pay_button ps then [clickable "Pay now button"] else [])
   ++ (if download_button ps then [clickable "Download Certificate button"] else []))%list.

(** The script of the plot named in the last typing action; the first
    script of the batch before any plot is typed. *)
Fixpoint current (batch : list (string * PlotScript)) (default : PlotScript) (w : string)
  : PlotScript :=
  match batch with
  | [] => default
  | (plot, ps) :: rest =>
      if includes w (dquote ++ plot ++ dquote) then ps else current rest default w
  end.

Definition page (batch : list (string * PlotScript)) (default : PlotScript) : Page string :=
  let script := current batch default in
  {| observe := fun _ w => (w, inr (elements (script w)));
     act := fun action w => (if startsWith action "type " then action else w, None);
     actOn := fun _ w => (w, None);
     extract := fun instruction w =>
       (w, inr (if includes instruction "Application ID" then ai_id (script w)
                else if includes instruction "wallet balance" then Some (balance (script w))
                     else Some (fee (script w))));
     extractPageContent := fun _ w =>
       (w, inr {| pageTitle := "Payment";
                  hasApplicationId := truthy_opt (ai_id (script w));
                  pc_applicationId := ai_id (script w);
                  hasPaymentSection := true;
                  paymentOptions := ["DARI wallet"];
                  hasDownloadButton := false;
                  pageType := "payment page" |});
     extractPaymentDetails := fun _ w =>
       (w, inr {| walletBalance := balance (script w);
                  paymentAmount := fee (script w);
                  currency := Some "AED" |});
     url := fun _ => "https://www.dari.ae/en/app/services";
     textContent := fun w =>
       (w, inr (Some (if owned (script w)
                      then "Select the property to continue"
                      else "You don't own any property and will not be able to proceed")));
     waitForLoadState := fun _ w => (w, None);
     waitForTimeout := fun _ w => (w, None);
     goto := fun _ w => (w, None);
     evaluate := fun _ w => (w, inr (Some "dari wallet"));
     locatorClick := fun _ w => (w, None);
     sleep := fun _ w => w;
     now := fun _ => "2026-01-05T08:00:00.000Z" |}.

(** The page [p] stuck at the address [u]. *)
Definition at_url (W : Type) (u : string) (p : Page W) : Page W :=
  {| observe := observe p; act := act p; actOn := actOn p; extract := extract p;
     extractPageContent := extractPageContent p;
     extractPaymentDetails := extractPaymentDetails p;
     url := fun _ => u;
     textContent := textContent p; waitForLoadState := waitForLoadState p;
     waitForTimeout := waitForTimeout p; goto := goto p; evaluate := evaluate p;
     locatorClick := locatorClick p; sleep := sleep p; now := now p |}.

(** The page [p] with nothing on it that shows a logged-in user. *)
Definition without_indicators (W : Type) (p : Page W) : Page W :=
  {| observe := fun instruction w =>
       if String.eqb instruction SitePlan.logged_in_indicators then (w, inr [])
       else observe p instruction w;
     act := act p; actOn := actOn p; extract := extract p;
     extractPageContent := extractPageContent p;
     extractPaymentDetails := extractPaymentDetails p;
     url := url p;
     textContent := textContent p; waitForLoadState := waitForLoadState p;
     waitForTimeout := waitForTimeout p; goto := goto p; evaluate := evaluate p;
     locatorClick := locatorClick p; sleep := sleep p; now := now p |}.

(** The page [p] with the certificate generation failing: the observation
    of the download loop finds an error message. *)
Definition failing_generation (W : Type) (p : Page W) : Page W :=
  {| observe := fun instruction w =>
       if String.eqb instruction SitePlan.poll_instruction
       then (w, inr [{| description := Some "Certificate generation failed message";
                        method := "text"; selector := "" |}])
       else observe p instruction w;
     act := act p; actOn := actOn p; extract := extract p;
     extractPageContent := extractPageContent p;
     extractPaymentDetails := extractPaymentDetails p;
     url := url p;
     textContent := textContent p; waitForLoadState := waitForLoadState p;
     waitForTimeout := waitForTimeout p; goto := goto p; evaluate := evaluate p;
     locatorClick := locatorClick p; sleep := sleep p; now := now p |}.

(** A plot that goes through: owned, identified, affordable, downloadable. *)
Definition smooth (b f : string) : PlotScript :=
  {| owned := true; ai_id := Some "20260105000123"; balance := b; fee := f;
     pay_button := true; download_button := true |}.

(** A plot whose payment page shows no Pay now button. *)
Definition no_pay_button (b f : string) : PlotScript :=
  {| owned := true; ai_id := Some "20260105000123"; balance := b; fee := f;
     pay_button := false; download_button := true |}.

(** A plot whose page gives no application identifier, neither to the AI
    extraction nor in its text. *)
Definition no_identifier (b f : string) (download : bool) : PlotScript :=
  {| owned := true; ai_id := None; balance := b; fee := f;
     pay_button := true; download_button := download |}.

Definition not_owned : PlotScript :=
  {| owned := false; ai_id := None; balance := "0"; fee := "0";
     pay_button := false; download_button := false |}.

(** The live configuration: the defaults with [payment.enabled] set. *)
Definition live_config : SitePlan.Config :=
  {| SitePlan.baseUrl := SitePlan.baseUrl SitePlan.defaultDariSitePlanConfig;
     SitePlan.excelFilePath := SitePlan.excelFilePath SitePlan.defaultDariSitePlanConfig;
     SitePlan.plotColumnIndex := SitePlan.plotColumnIndex SitePlan.defaultDariSitePlanConfig;
     SitePlan.sitePlanServiceText :=
       SitePlan.sitePlanServiceText SitePlan.defaultDariSitePlanConfig;
     SitePlan.accountSwitching_enabled := false;
     SitePlan.targetAccountName :=
       SitePlan.targetAccountName SitePlan.defaultDariSitePlanConfig;
     SitePlan.loginButton := SitePlan.loginButton SitePlan.defaultDariSitePlanConfig;
     SitePlan.uaePassLoginButton :=
       SitePlan.uaePassLoginButton SitePlan.defaultDariSitePlanConfig;
     SitePlan.servicesMenu := SitePlan.servicesMenu SitePlan.defaultDariSitePlanConfig;
     SitePlan.payment_enabled := true;
     SitePlan.walletBalancePattern :=
       SitePlan.walletBalancePattern SitePlan.defaultDariSitePlanConfig;
     SitePlan.totalAmountPattern :=
       SitePlan.totalAmountPattern SitePlan.defaultDariSitePlanConfig;
     SitePlan.captcha := SitePlan.captcha SitePlan.defaultDariSitePlanConfig;
     SitePlan.mobileNumber := SitePlan.mobileNumber SitePlan.defaultDariSitePlanConfig |}.

(** A machine started in [/srv/agent], with a POSIX [join] of a directory
    and a plain relative path, holding at every path the workbook [book]. *)
Definition machine_with (book : SitePlan.Workbook) : SitePlan.Files :=
  {| SitePlan.cwd := "/srv/agent";
     SitePlan.join := fun dir path => dir ++ "/" ++ path;
     SitePlan.at_path := fun _ => book |}.

(** A spreadsheet with the plot numbers in its third column. *)
Definition sheet_of (plots : list string) : SitePlan.Files :=
  machine_with
    (SitePlan.Sheet
       (List.map VString ["Owner"; "Area"; "Plot Id"]
          :: List.map (fun p => List.map VString ["x"; "y"; p]) plots)).

(** One run of the site-plan agent: a newly constructed agent over the
    disk as the previous run left it. *)
Definition site_plan_run (batch : list (string * PlotScript)) (disk : Ledger.File)
  : St string SitePlan.Agent * Res unit :=
  SitePlan.executeWorkflow (page batch not_owned) 5
    (mkSt "" [] (SitePlan.new_agent live_config disk true (sheet_of (List.map fst batch)))).

(** An entry the ledger holds for plot A-1 from an earlier run. *)
Definition paid_before : Ledger.PersistedApplicationData :=
  {| Ledger.plotNumber := "A-1"; Ledger.applicationId := "20260101000777";
     Ledger.paymentDate := "2026-01-01T09:00:00.000Z"; Ledger.downloaded := false;
     Ledger.lastChecked := "2026-01-01T09:00:00.000Z" |}.

(** An agent as [new_agent] builds it but with the pre-payment check
    switched on and the history loaded. *)
Definition checking_agent (disk : Ledger.File) (plots : list string) : SitePlan.Agent :=
  {| SitePlan.heap := []; SitePlan.sitePlans := []; SitePlan.plots := [];
     SitePlan.config := live_config;
     SitePlan.prePayCheckEnabled := true;
     SitePlan.store := Ledger.loadPersistedApplications (Ledger.fresh disk true);
     SitePlan.files := sheet_of plots |}.

(** One run of the plot loop of the affection-plan agent. *)
Definition affection_plan_run (batch : list (string * PlotScript))
  : St string AffectionPlan.Agent * Res unit :=
  AffectionPlan.process_plots (page batch not_owned)
    (mkSt "" []
       {| AffectionPlan.plots :=
            List.map (fun p => {| AffectionPlan.plotNumber := fst p;
                                  AffectionPlan.rowIndex := 2 |}) batch;
          AffectionPlan.results := [];
          AffectionPlan.config := AffectionPlan.defaultDariAffectionPlanConfig |}).

End Scripted.

(** ** The ledger over a run *)

Module LedgerRun.
Import Js Ledger.

(** The calls an agent makes on its ledger. *)
Inductive Call : Type :=
| CallLoad
| CallSave
| CallAdd (date1 date2 plot appId : string) (dl : bool)
| CallUpdate (date plot : string) (dl : bool).

Definition call (c : Call) (st : Store) : Store :=
  match c with
  | CallLoad => loadPersistedApplications st
  | CallSave => savePersistedApplications st
  | CallAdd date1 date2 plot appId dl => addPersistedApplication date1 date2 plot appId dl st
  | CallUpdate date plot dl => updatePersistedApplicationDownloadStatus date plot dl st
  end.

(** The calls of a run, in their order. *)
Definition run (calls : list Call) (st : Store) : Store :=
  List.fold_left (fun st c => call c st) calls st.

(** The same on the ledger of a newly constructed agent. *)
Definition after (calls : list Call) (disk : File) (w : bool) : Store :=
  run calls (fresh disk w).

Definition is_load (c : Call) : bool :=
  match c with CallLoad => true | _ => false end.

(** The last entry of the array of a history file that names [plot]. *)
Definition last_entry (plot : string) (applications : list PersistedApplicationData)
  : option PersistedApplicationData :=
  List.find (fun app => String.eqb (plotNumber app) plot) (List.rev applications).

(** The entries a load gets to set: the whole array, or the part of it in
    front of the element the [forEach] fails on. *)
Definition entries_read (f : File) : list PersistedApplicationData :=
  match f with
  | Json applications => applications
  | JsonWithNull before => before
  | Missing | Corrupt => []
  end.

(** A file that lists no plot twice. *)
Definition lists_once (f : File) : Prop :=
  match f with
  | Json applications => NoDup (List.map plotNumber applications)
  | _ => True
  end.

End LedgerRun.

(** ** Bounds on what a method does *)

Module Bounds.
Import Js Exec.

(** [m] adds at most [n] to the quantity [count] of the running agent. *)
Definition AtMost (W A : Type) (count : St W A -> nat) (n : nat) (X : Type) (m : M W A X)
  : Prop :=
  forall s, (count (fst (m s)) <= count s + n)%nat.

(** [m] returns from every state: it neither throws nor runs on. *)
Definition Returns (W A X : Type) (m : M W A X) : Prop :=
  forall s, exists s' x, m s = (s', Ok x).

End Bounds.

(** ** The run of the site-plan agent as a whole *)

Module SitePlanRun.
Import Js Exec Bounds SitePlan.
Local Open Scope agent_scope.

(** What a record is created with and is known by: the plot number and
    the row of the sheet. *)
Definition identity (r : SitePlanRecord) : string * Z := (sp_plotNumber r, sp_rowIndex r).

Definition identity_of (plot : PlotData) : string * Z := (plotNumber plot, rowIndex plot).

(** The identities of the records [this.sitePlans] lists, in its order. *)
Definition listed (a : Agent) : list (string * Z) :=
  List.map (fun record => identity (deref (heap a) record)) (sitePlans a).

(** Every entry of [this.sitePlans] is a record that exists. *)
Definition listed_exist (a : Agent) : Prop :=
  Forall (fun record => (record < List.length (heap a))%nat) (sitePlans a).

(** The records there were are still there under their identities, new
    ones may have been created after them, and [this.sitePlans] is as it
    was. *)
Definition records_extended (W : Type) (s s' : St W Agent) : Prop :=
  (exists added,
     List.map identity (heap (this s')) = (List.map identity (heap (this s)) ++ added)%list)
  /\ sitePlans (this s') = sitePlans (this s).

(** The payment clicks of a journal that returned without an error. *)
Definition is_paid_click (e : Event) : bool :=
  match e with
  | EAct action None => String.eqb action pay_click
  | _ => false
  end.

Definition paid_clicks (W : Type) (s : St W Agent) : nat :=
  List.length (List.filter is_paid_click (journal s)).

(** The records marked as paid. *)
Definition paid_records (W : Type) (s : St W Agent) : nat :=
  List.length (List.filter paid (heap (this s))).

(** The records marked as paid are as many as before, and no payment
    click has been taken back. *)
Definition payments_kept (W : Type) (s s' : St W Agent) : Prop :=
  prePayCheckEnabled (this s') = prePayCheckEnabled (this s)
  /\ paid_records s' = paid_records s
  /\ (paid_clicks s <= paid_clicks s')%nat.

(** With the pre-payment check off, no more records have been marked as
    paid than payment clicks have gone through. *)
Definition payments_clicked (W : Type) (s s' : St W Agent) : Prop :=
  prePayCheckEnabled (this s') = prePayCheckEnabled (this s)
  /\ (prePayCheckEnabled (this s) = false ->
      (paid_records s' + paid_clicks s <= paid_clicks s' + paid_records s)%nat).

(** The ledger has been touched through calls of its four operations
    only, and it has been loaded only by an agent with the pre-payment
    check switched on. *)
Definition ledger_called (W : Type) (s s' : St W Agent) : Prop :=
  prePayCheckEnabled (this s') = prePayCheckEnabled (this s)
  /\ exists calls,
       store (this s') = LedgerRun.run calls (store (this s))
       /\ (prePayCheckEnabled (this s) = false
           -> List.existsb LedgerRun.is_load calls = false).

(** The number of times the applications list has been opened. *)
Definition visits (W : Type) (s : St W Agent) : nat :=
  List.length (List.filter is_applications_visit (journal s)).



(** The configuration is as it was and, if it has the payment switched
    off, so is the number of payment clicks. *)
Definition unpaid_when_off (W : Type) (s s' : St W Agent) : Prop :=
  config (this s') = config (this s)
  /\ (payment_enabled (config (this s)) = false -> pays s' = pays s).

Section Methods.
Variable W : Type.
Variable page : Page W.

Local Abbreviation M := (Exec.M W Agent).

(** The [try] block of [searchAndProcessPlot] for the record it has
    created; [again] is the call of the method on itself after a redirect
    to the payment gateway (line 1121). *)
Definition plot_attempt (again : M nat) (fuel' : nat) (plot : PlotData) (record : nat)
  : M nat :=
  a <- get_this ;;
  downloaded <-
    (if prePayCheckEnabled a
     then match Ledger.Map_get (plotNumber plot)
                  (Ledger.persistedApplications (store a)) with
          | Some persisted => smart_workflow page plot record persisted
          | None => ret false
          end
     else ret false) ;;
  if downloaded then ret record
  else
    (redirected <- enter_plot_number page plot ;;
     if redirected
     then
       (navigateToServicesMenu page ;;
        selectSitePlanService page ;;
        sleep_ page 1500 ;;
        again)
     else (process_found_plot page fuel' plot record ;; ret record)).


End Methods.

End SitePlanRun.

(** ** More pages for closed examples *)

Module Scenarios.
Import Js Exec.

(** The page [p] with [act] throwing on the action [text]. *)
Definition act_failing (W : Type) (text : string) (p : Page W) : Page W :=
  {| observe := observe p;
     act := fun action w =>
       if String.eqb action text then (w, Some (Error "Action timed out"))
       else act p action w;
     actOn := actOn p; extract := extract p;
     extractPageContent := extractPageContent p;
     extractPaymentDetails := extractPaymentDetails p;
     url := url p;
     textContent := textContent p; waitForLoadState := waitForLoadState p;
     waitForTimeout := waitForTimeout p; goto := goto p; evaluate := evaluate p;
     locatorClick := locatorClick p; sleep := sleep p; now := now p |}.

End Scenarios.


(** ** What a journal holds *)

Module Timeline.
Import Js Exec.

(** [page.observe] was called with [instruction]. *)
Definition is_look (instruction : string) (e : Event) : bool :=
  match e with
  | EObserve i _ => String.eqb i instruction
  | _ => false
  end.

(** The number of [observe] calls with [instruction] in a journal. *)
Definition looks (instruction : string) (j : list Event) : nat :=
  List.length (List.filter (is_look instruction) j).

(** The milliseconds the [sleep] calls of a journal add up to. *)
Definition slept (j : list Event) : Z :=
  List.fold_right (fun e total => match e with ESleep ms => ms + total | _ => total end) 0 j.

End Timeline.

(** ** [printFinalSummary] of the site-plan agent (lines 2352-2441) *)

Module SitePlanSummary.
Import Js SitePlan.

(** [this.sitePlans], the records themselves. *)
Definition records (a : Agent) : list SitePlanRecord :=
  List.map (deref (heap a)) (sitePlans a).

(** [this.sitePlans.filter(test).length] *)
Definition count (test : SitePlanRecord -> bool) (a : Agent) : nat :=
  List.length (List.filter test (records a)).

Definition downloadedFirstTry : Agent -> nat :=
  count (fun sp => andb (andb (certificateDownloaded sp) (negb (downloadedViaFallback sp)))
                        (negb (alreadyExistedInApplications sp))).

Definition downloadedViaFallbackRecovery : Agent -> nat :=
  count (fun sp => andb (certificateDownloaded sp) (downloadedViaFallback sp)).

Definition downloadedViaSmartWorkflow : Agent -> nat :=
  count (fun sp => andb (certificateDownloaded sp) (alreadyExistedInApplications sp)).

Definition totalDownloaded : Agent -> nat :=
  count (fun sp => certificateDownloaded sp).

Definition newPayments : Agent -> nat :=
  count (fun sp => andb (paid sp) (negb (alreadyExistedInApplications sp))).

Definition skippedPayments : Agent -> nat :=
  count (fun sp => alreadyExistedInApplications sp).

Definition failedCompletely : Agent -> nat :=
  count (fun sp => andb (paid sp) (negb (certificateDownloaded sp))).


(** The status line of a record in the detailed list (lines 2391-2410). *)
Inductive Status : Type :=
| SmartWorkflow
| FallbackRecovery
| FirstTry
| DownloadFailed
| Failed (message : string)
| Incomplete.

Definition status (record : SitePlanRecord) : Status :=
  if andb (certificateDownloaded record) (alreadyExistedInApplications record)
  then SmartWorkflow
  else if andb (certificateDownloaded record) (downloadedViaFallback record)
  then FallbackRecovery
  else if certificateDownloaded record
  then FirstTry
  else if andb (paid record) (negb (certificateDownloaded record))
  then DownloadFailed
  else match error record with
       | Some message => if truthy message then Failed message else Incomplete
       | None => Incomplete
       end.

Definition Status_eqb (x y : Status) : bool :=
  match x, y with
  | SmartWorkflow, SmartWorkflow => true
  | FallbackRecovery, FallbackRecovery => true
  | FirstTry, FirstTry => true
  | DownloadFailed, DownloadFailed => true
  | Failed m, Failed m' => String.eqb m m'
  | Incomplete, Incomplete => true
  | _, _ => false
  end.

(** The number of records listed under a status. *)
Definition listed_as (st : Status) (a : Agent) : nat :=
  count (fun sp => Status_eqb (status sp) st) a.

(** The records counted both as recovered by the fallback and as
    downloaded by the smart workflow. *)
Definition counted_twice : Agent -> nat :=
  count (fun sp => andb (certificateDownloaded sp)
                        (andb (downloadedViaFallback sp) (alreadyExistedInApplications sp))).

End SitePlanSummary.

(** ** [showFinalSummary] of the affection-plan agent (lines 1498-1602) *)

Module AffectionSummary.
Import Js Exec AffectionPlan.

(** [this.results.filter(test).length] *)
Definition count (test : PlotResult -> bool) (a : Agent) : Z :=
  Z.of_nat (List.length (List.filter test (results a))).

(** [r.error?.includes(needle)] *)
Definition error_includes (needle : string) (r : PlotResult) : bool :=
  match error r with
  | Some e => includes e needle
  | None => false
  end.

(** [r.error?.includes('not found') || r.error?.includes('don\'t own any property')] *)
Definition is_not_found (r : PlotResult) : bool :=
  orb (error_includes "not found" r) (error_includes "don't own any property" r).

(** [r.error && !r.error.includes('not found') && !r.error.includes('don\'t own any property')] *)
Definition is_other_failure (r : PlotResult) : bool :=
  match error r with
  | Some e =>
      andb (truthy e)
           (andb (negb (includes e "not found")) (negb (includes e "don't own any property")))
  | None => false
  end.

Definition totalPlotsUploaded (a : Agent) : Z := Z.of_nat (List.length (plots a)).
Definition plotsAttempted (a : Agent) : Z := Z.of_nat (List.length (results a)).
Definition plotsSkipped (a : Agent) : Z := totalPlotsUploaded a - plotsAttempted a.
Definition paidPlots : Agent -> Z := count paymentCompleted.
Definition downloadedPlots : Agent -> Z := count downloadCompleted.
Definition notFoundPlots : Agent -> Z := count is_not_found.
Definition otherFailedPlots : Agent -> Z := count is_other_failure.
Definition pendingDownloads (a : Agent) : Z := paidPlots a - downloadedPlots a.
Definition totalFailedPlots (a : Agent) : Z := notFoundPlots a + otherFailedPlots a.

(** The results listed under "PLOTS PAID BUT NOT DOWNLOADED" (line 1573). *)
Definition pendingResults (a : Agent) : list PlotResult :=
  List.filter (fun r => andb (paymentCompleted r) (negb (downloadCompleted r))) (results a).

(** The closing line of the summary (lines 1587-1595). *)
Inductive Closing : Type :=
| AllDownloaded
| AllPaid
| NoneProcessed
| PartialCompletion
| NoClosingLine.

Definition closing (a : Agent) : Closing :=
  if downloadedPlots a =? totalPlotsUploaded a then AllDownloaded
  else if andb (paidPlots a =? plotsAttempted a) (0 <? downloadedPlots a) then AllPaid
  else if totalFailedPlots a =? plotsAttempted a then NoneProcessed
  else if 0 <? plotsSkipped a then PartialCompletion
  else NoClosingLine.

(** The results whose error is the empty text: no counter of the summary
    takes them. *)
Definition has_empty_error (r : PlotResult) : bool :=
  match error r with
  | Some e => negb (truthy e)
  | None => false
  end.

(** A result as the agent records them: paid without an error, or with
    an error and then neither paid nor downloaded. *)
Definition well_formed (r : PlotResult) : bool :=
  match error r with
  | None => paymentCompleted r
  | Some _ => andb (negb (paymentCompleted r)) (negb (downloadCompleted r))
  end.

(** Well-formed results have been added to the results. *)
Definition records_well_formed (W : Type) (s s' : St W Agent) : Prop :=
  exists added,
    results (this s') = (results (this s) ++ added)%list
    /\ Forall (fun r => well_formed r = true) added.

(** The payment clicks of a journal that did not throw. *)
Definition is_paid_click (e : Event) : bool :=
  match e with
  | EAct action None => String.eqb action pay_click
  | _ => false
  end.

Definition paid_clicks (W : Type) (s : St W Agent) : nat :=
  List.length (List.filter is_paid_click (journal s)).

(** The results recorded as paid. *)
Definition paid_results (W : Type) (s : St W Agent) : nat :=
  List.length (List.filter paymentCompleted (results (this s))).

(** No more results have been recorded as paid than payment clicks have
    gone through. *)
Definition clicks_cover (W : Type) (s s' : St W Agent) : Prop :=
  (paid_results s' + paid_clicks s <= paid_clicks s' + paid_results s)%nat.

(** The number of results. *)
Definition recorded (W : Type) (s : St W Agent) : nat := List.length (results (this s)).

(** A step that records at most one result, and none when it returns a
    value on which the method goes on. *)
Definition Records_unless (W X : Type) (go_on : X -> bool) (m : M W Agent X) : Prop :=
  forall s,
    (recorded (fst (m s)) <= recorded s + 1)%nat
    /\ forall x, snd (m s) = Ok x -> go_on x = true -> recorded (fst (m s)) = recorded s.

(** The results added are all of the plot numbered [number]. *)
Definition records_of (W : Type) (number : string) (s s' : St W Agent) : Prop :=
  exists added,
    results (this s') = (results (this s) ++ added)%list
    /\ Forall (fun r => r_plotNumber r = number) added.

Definition is_some (X : Type) (o : option X) : bool :=
  match o with Some _ => true | None => false end.

End AffectionSummary.

(* ===================================================================== *)
(** * Part II: properties                                                 *)
(* ===================================================================== *)

Local Open Scope list_scope.

(** ** The retry wrapper *)

Module RetryProofs.
Import Js Retry.


Section Contract.
Variables S T : Type.
Variable sleep : Z -> S -> S.
Variable fn : S -> S * Res T.
Variable callback : Z -> Value -> S -> S.





(** C10.  With [maxAttempts <= 0] the loop body never runs: [fn] is not
    called, nothing is reported or waited for, the state is untouched, and
    the call throws [undefined], the initial value of [lastError]. *)
Theorem retry_without_attempts (max delay mult : Z) (s : S) :
  max <= 0 ->
  observed_retry sleep fn callback max delay mult s = ((s, []), Throw Undefined).
Proof.
  intro Hmax. unfold observed_retry, retry.
  cbn [maxAttempts delayMs backoffMultiplier onRetry or_default].
  replace (Z.to_nat max) with O by lia. reflexivity.
Qed.

End Contract.

Example retry_flaky :
  observed_retry (fun _ s => s) flaky (fun _ _ s => s) 3 1000 2 O
  = ((3%nat, [Called (Throw (Other "timeout")); Reported 1 (Error "timeout"); Slept 1000;
              Called (Throw (Other "timeout")); Reported 2 (Error "timeout"); Slept 2000;
              Called (Ok "clicked")]),
     Ok "clicked").
Proof. reflexivity. Qed.


Lemma retry_without_attempts_witness :
  0 <= 0 /\
  observed_retry (fun _ s => s) flaky (fun _ _ s => s) 0 1000 2 O = ((O, []), Throw Undefined).
Proof.
  split; [lia |].
  apply (@retry_without_attempts nat string (fun _ s => s) flaky (fun _ _ s => s) 0 1000 2 O). lia.
Defined.

End RetryProofs.

(** ** The persisted application history *)

Module LedgerProofs.
Import Js Ledger.

Lemma Map_get_set_eq (V : Type) (k : string) (v : V) (m : JsMap V) :
  Map_get k (Map_set k v m) = Some v.
Proof.
  induction m as [|[k' v'] rest IH]; simpl.
  - rewrite String.eqb_refl. reflexivity.
  - destruct (String.eqb k k') eqn:E; simpl.
    + rewrite String.eqb_refl. reflexivity.
    + rewrite E. exact IH.
Qed.

Lemma Map_get_set_ne (V : Type) (k k0 : string) (v : V) (m : JsMap V) :
  k0 <> k -> Map_get k0 (Map_set k v m) = Map_get k0 m.
Proof.
  intro Hne. induction m as [|[k' v'] rest IH]; simpl.
  - destruct (String.eqb_spec k0 k); [contradiction | reflexivity].
  - destruct (String.eqb_spec k k') as [-> | Hkk']; simpl.
    + destruct (String.eqb_spec k0 k'); [contradiction | reflexivity].
    + destruct (String.eqb_spec k0 k'); [reflexivity | exact IH].
Qed.

Lemma Map_set_keys (V : Type) (k : string) (v : V) (m : JsMap V) :
  forall x, In x (List.map fst (Map_set k v m)) -> x = k \/ In x (List.map fst m).
Proof.
  induction m as [|[k' v'] rest IH]; simpl; intros x Hx.
  - destruct Hx as [<- | []]. left. reflexivity.
  - destruct (String.eqb_spec k k') as [-> | Hne]; simpl in Hx.
    + destruct Hx as [<- | Hx]; [left; reflexivity | right; right; exact Hx].
    + destruct Hx as [<- | Hx]; [right; left; reflexivity |].
      destruct (IH x Hx) as [-> | Hin]; [left; reflexivity | right; right; exact Hin].
Qed.

Lemma Map_set_entries (V : Type) (k : string) (v : V) (m : JsMap V) :
  forall x w, In (x, w) (Map_set k v m) -> (x = k /\ w = v) \/ In (x, w) m.
Proof.
  induction m as [|[k' v'] rest IH]; simpl; intros x w Hx.
  - destruct Hx as [Heq | []]. inversion Heq. left. split; reflexivity.
  - destruct (String.eqb_spec k k') as [-> | Hne]; simpl in Hx.
    + destruct Hx as [Heq | Hx]; [inversion Heq; left; split; reflexivity | right; right; exact Hx].
    + destruct Hx as [Heq | Hx]; [right; left; exact Heq |].
      destruct (IH x w Hx) as [Hnew | Hin]; [left; exact Hnew | right; right; exact Hin].
Qed.

Lemma Map_set_NoDup (V : Type) (k : string) (v : V) (m : JsMap V) :
  NoDup (List.map fst m) -> NoDup (List.map fst (Map_set k v m)).
Proof.
  induction m as [|[k' v'] rest IH]; simpl; intro Hnd.
  - constructor; [intros [] | constructor].
  - inversion Hnd as [|? ? Hnotin Hrest]; subst.
    destruct (String.eqb_spec k k') as [-> | Hne]; simpl.
    + constructor; assumption.
    + constructor; [| exact (IH Hrest)].
      intro Hin. destruct (Map_set_keys _ _ _ _ Hin) as [Heq | Hin'].
      * apply Hne. symmetry. exact Heq.
      * exact (Hnotin Hin').
Qed.

(** [set] under the plot number of the entry keeps the ledger keyed. *)
Lemma keyed_set (k : string) (v : PersistedApplicationData) (m : JsMap PersistedApplicationData) :
  plotNumber v = k -> keyed m -> keyed (Map_set k v m).
Proof.
  intros Hk [Hnd Hkeys]. split.
  - apply Map_set_NoDup. exact Hnd.
  - intros x w Hin. destruct (Map_set_entries _ _ _ _ _ Hin) as [[-> ->] | Hin'].
    + exact Hk.
    + exact (Hkeys _ _ Hin').
Qed.

Lemma keyed_empty : keyed [].
Proof. split; [constructor | intros k v []]. Qed.

Lemma Map_get_In (V : Type) (k : string) (v : V) (m : JsMap V) :
  Map_get k m = Some v -> In (k, v) m.
Proof.
  induction m as [|[k' v'] rest IH]; simpl; intro H; [discriminate |].
  destruct (String.eqb_spec k k') as [-> | Hne].
  - inversion H. left. reflexivity.
  - right. exact (IH H).
Qed.


Lemma reload_app (l1 l2 : list PersistedApplicationData) (m : JsMap PersistedApplicationData) :
  reload (l1 ++ l2) m = reload l2 (reload l1 m).
Proof. unfold reload. apply List.fold_left_app. Qed.

Lemma reload_other (l : list PersistedApplicationData) :
  forall (m : JsMap PersistedApplicationData) (k : string),
    (forall app, In app l -> plotNumber app <> k) ->
    Map_get k (reload l m) = Map_get k m.
Proof.
  induction l as [|app rest IH]; intros m k Hno; simpl; [reflexivity |].
  unfold reload in *. simpl. rewrite IH.
  - apply Map_get_set_ne. intro Heq. apply (Hno app); [left; reflexivity | symmetry; exact Heq].
  - intros app' Hin. apply Hno. right. exact Hin.
Qed.


Lemma reload_keyed (l : list PersistedApplicationData) :
  forall m, keyed m -> keyed (reload l m).
Proof.
  induction l as [|app rest IH]; intros m Hm; simpl; [exact Hm |].
  apply IH. apply keyed_set; [reflexivity | exact Hm].
Qed.

(** The invariant of the ledger: the four operations keep it keyed. *)
Lemma keyed_load (st : Store) :
  keyed (persistedApplications st) ->
  keyed (persistedApplications (loadPersistedApplications st)).
Proof.
  intro Hk. unfold loadPersistedApplications.
  destruct (file st); simpl; try exact Hk; apply reload_keyed; exact Hk.
Qed.

Lemma keyed_save (st : Store) :
  keyed (persistedApplications st) ->
  keyed (persistedApplications (savePersistedApplications st)).
Proof.
  intro Hk. unfold savePersistedApplications. destruct (writable st); simpl; exact Hk.
Qed.

Lemma keyed_add (st : Store) (d1 d2 plot appId : string) (dl : bool) :
  keyed (persistedApplications st) ->
  keyed (persistedApplications (addPersistedApplication d1 d2 plot appId dl st)).
Proof.
  intro Hk. unfold addPersistedApplication. apply keyed_save. simpl.
  apply keyed_set; [reflexivity | exact Hk].
Qed.

Lemma keyed_update (st : Store) (d plot : string) (dl : bool) :
  keyed (persistedApplications st) ->
  keyed (persistedApplications (updatePersistedApplicationDownloadStatus d plot dl st)).
Proof.
  intro Hk. unfold updatePersistedApplicationDownloadStatus.
  destruct (Map_get plot (persistedApplications st)) eqn:Hget; [| exact Hk].
  apply keyed_save. simpl. apply keyed_set; [| exact Hk].
  simpl. destruct Hk as [_ Hkeys]. apply Hkeys. apply Map_get_In. exact Hget.
Qed.



(** C3 (counterexample).  An entry that exists is replaced by a later
    [addPersistedApplication] for the same plot: the request identifier
    stored first is gone, in memory and on disk. *)
Lemma recordPayment_replaces_existing_entry :
  ~ (forall (st : Store) (d1 d2 plot appId : string) (dl : bool)
            (existing : PersistedApplicationData),
        Map_get plot (persistedApplications st) = Some existing ->
        option_map applicationId
          (Map_get plot (persistedApplications (addPersistedApplication d1 d2 plot appId dl st)))
        = Some (applicationId existing)).
Proof.
  intro H.
  specialize (H (addPersistedApplication "2026-01-01T10:00:00.000Z" "2026-01-01T10:00:00.000Z"
                   "A-1" "APP-000001" false (fresh Missing true))
                "2026-01-02T10:00:00.000Z" "2026-01-02T10:00:00.000Z" "A-1" "APP-000002" false
                {| plotNumber := "A-1"; applicationId := "APP-000001";
                   paymentDate := "2026-01-01T10:00:00.000Z"; downloaded := false;
                   lastChecked := "2026-01-01T10:00:00.000Z" |}
                eq_refl).
  vm_compute in H. discriminate H.
Qed.

(** C3 (amended).  [addPersistedApplication] stores the entry it is given
    under the plot identifier whatever was stored there before, leaves the
    entries of the other plots as they were, and the ledger still holds at
    most one entry per plot identifier, each under the plot number it
    carries. *)
Theorem recordPayment_sets_entry (st : Store) (d1 d2 plot appId : string) (dl : bool) :
  keyed (persistedApplications st) ->
  let st' := addPersistedApplication d1 d2 plot appId dl st in
  Map_get plot (persistedApplications st')
  = Some {| plotNumber := plot; applicationId := appId; paymentDate := d1;
            downloaded := dl; lastChecked := d2 |}
  /\ (forall other, other <> plot ->
        Map_get other (persistedApplications st') = Map_get other (persistedApplications st))
  /\ NoDup (List.map fst (persistedApplications st'))
  /\ keyed (persistedApplications st').
Proof.
  intros Hk st'.
  assert (Hpa : persistedApplications st'
                = Map_set plot {| plotNumber := plot; applicationId := appId; paymentDate := d1;
                                  downloaded := dl; lastChecked := d2 |}
                          (persistedApplications st)).
  { unfold st', addPersistedApplication, savePersistedApplications. simpl.
    destruct (writable st); reflexivity. }
  assert (Hk' : keyed (persistedApplications st')) by (apply keyed_add; exact Hk).
  rewrite Hpa. split; [apply Map_get_set_eq | split; [| split]].
  - intros other Hne. apply Map_get_set_ne. exact Hne.
  - rewrite <- Hpa. exact (proj1 Hk').
  - rewrite <- Hpa. exact Hk'.
Qed.

Lemma recordPayment_sets_entry_witness :
  keyed (persistedApplications (fresh Missing true))
  /\ let st' := addPersistedApplication "d1" "d2" "A-1" "APP-000001" false (fresh Missing true) in
     Map_get "A-1" (persistedApplications st')
     = Some {| plotNumber := "A-1"; applicationId := "APP-000001"; paymentDate := "d1";
               downloaded := false; lastChecked := "d2" |}
     /\ (forall other, other <> "A-1" ->
           Map_get other (persistedApplications st')
           = Map_get other (persistedApplications (fresh Missing true)))
     /\ NoDup (List.map fst (persistedApplications st'))
     /\ keyed (persistedApplications st').
Proof.
  split; [exact keyed_empty |].
  apply (@recordPayment_sets_entry (fresh Missing true) "d1" "d2" "A-1" "APP-000001" false).
  exact keyed_empty.
Defined.





End LedgerProofs.

(** ** Quantities that a piece of agent code leaves alone *)

Module ExecProofs.
Import Js Exec.
Local Open Scope agent_scope.

Section Respects.
Variables W A : Type.
Variable page : Page W.

(** A relation between the state before and the state after, kept by
    doing nothing, by doing two things in a row, and by the journal entries
    that [harmless] accepts. *)
Variable R : St W A -> St W A -> Prop.
Variable harmless : Event -> bool.
Hypothesis R_refl : forall s, R s s.
Hypothesis R_trans : forall s1 s2 s3, R s1 s2 -> R s2 s3 -> R s1 s3.
Hypothesis R_note : forall w e s, harmless e = true -> R s (note w e s).

Local Abbreviation Respects := (Exec.Respects R).

Lemma Respects_ret (X : Type) (x : X) : Respects (ret x).
Proof. intro s. apply R_refl. Qed.

Lemma Respects_throw (X : Type) (e : Value) : Respects (throw (X:=X) e).
Proof. intro s. apply R_refl. Qed.

Lemma Respects_diverge (X : Type) : Respects (diverge (X:=X)).
Proof. intro s. apply R_refl. Qed.

Lemma Respects_get_this : Respects get_this.
Proof. intro s. apply R_refl. Qed.

Lemma Respects_now_iso : Respects (now_iso page).
Proof. intro s. apply R_refl. Qed.

Lemma Respects_bind (X Y : Type) (m : M W A X) (k : X -> M W A Y) :
  Respects m -> (forall x, Respects (k x)) -> Respects (bind m k).
Proof.
  intros Hm Hk s. unfold bind. specialize (Hm s).
  destruct (m s) as [s1 [x | e |]]; simpl in *; try exact Hm.
  apply (R_trans Hm). apply (Hk x s1).
Qed.

Lemma Respects_and_then (m : M W A bool) (k : M W A unit) :
  Respects m -> Respects k -> Respects (and_then m k).
Proof.
  intros Hm Hk. unfold and_then. apply Respects_bind; [exact Hm |].
  intros [|]; [exact Hk | apply Respects_ret].
Qed.

Lemma Respects_try_catch (X : Type) (m : M W A X) (h : Value -> M W A X) :
  Respects m -> (forall e, Respects (h e)) -> Respects (try_catch m h).
Proof.
  intros Hm Hh s. unfold try_catch. specialize (Hm s).
  destruct (m s) as [s1 [x | e |]]; simpl in *; try exact Hm.
  apply (R_trans Hm). apply (Hh e s1).
Qed.

Lemma Respects_attempt (m : M W A unit) : Respects m -> Respects (attempt_ m).
Proof. intro Hm. apply Respects_try_catch; [exact Hm | intro; apply Respects_ret]. Qed.

Lemma Respects_observe (i : string) :
  (forall r, harmless (EObserve i r) = true) -> Respects (page_observe page i).
Proof.
  intros H s. unfold page_observe. destruct (observe page i (world s)) as [w r].
  simpl. apply R_note. apply H.
Qed.

Lemma Respects_act (a : string) :
  (forall r, harmless (EAct a r) = true) -> Respects (page_act page a).
Proof.
  intros H s. unfold page_act. destruct (act page a (world s)) as [w r].
  simpl. apply R_note. apply H.
Qed.

Lemma Respects_actOn (t : ObserveResult) :
  (forall r, harmless (EActOn t r) = true) -> Respects (page_actOn page t).
Proof.
  intros H s. unfold page_actOn. destruct (actOn page t (world s)) as [w r].
  simpl. apply R_note. apply H.
Qed.

Lemma Respects_extract (i : string) :
  harmless (EExtract i) = true -> Respects (page_extract page i).
Proof.
  intros H s. unfold page_extract. destruct (extract page i (world s)) as [w r].
  simpl. apply R_note. apply H.
Qed.

Lemma Respects_extractPageContent (i : string) :
  harmless (EExtract i) = true -> Respects (page_extractPageContent page i).
Proof.
  intros H s. unfold page_extractPageContent.
  destruct (extractPageContent page i (world s)) as [w r].
  simpl. apply R_note. apply H.
Qed.

Lemma Respects_extractPaymentDetails (i : string) :
  harmless (EExtract i) = true -> Respects (page_extractPaymentDetails page i).
Proof.
  intros H s. unfold page_extractPaymentDetails.
  destruct (extractPaymentDetails page i (world s)) as [w r].
  simpl. apply R_note. apply H.
Qed.

Lemma Respects_url : (forall u, harmless (EUrl u) = true) -> Respects (page_url page).
Proof. intros H s. unfold page_url. simpl. apply R_note. apply H. Qed.

Lemma Respects_textContent :
  (forall r, harmless (ETextContent r) = true) -> Respects (page_textContent page).
Proof.
  intros H s. unfold page_textContent. destruct (textContent page (world s)) as [w r].
  simpl. apply R_note. apply H.
Qed.

Lemma Respects_waitForLoadState (st : string) :
  harmless (EWaitForLoadState st) = true -> Respects (page_waitForLoadState page st).
Proof.
  intros H s. unfold page_waitForLoadState.
  destruct (waitForLoadState page st (world s)) as [w r].
  simpl. apply R_note. apply H.
Qed.

Lemma Respects_waitForTimeout (ms : Z) :
  harmless (EWaitForTimeout ms) = true -> Respects (page_waitForTimeout page ms).
Proof.
  intros H s. unfold page_waitForTimeout.
  destruct (waitForTimeout page ms (world s)) as [w r].
  simpl. apply R_note. apply H.
Qed.

Lemma Respects_goto (t : string) :
  (forall r, harmless (EGoto t r) = true) -> Respects (page_goto page t).
Proof.
  intros H s. unfold page_goto. destruct (goto page t (world s)) as [w r].
  simpl. apply R_note. apply H.
Qed.

Lemma Respects_evaluate (sc : string) :
  harmless (EEvaluate sc) = true -> Respects (page_evaluate page sc).
Proof.
  intros H s. unfold page_evaluate. destruct (evaluate page sc (world s)) as [w r].
  simpl. apply R_note. apply H.
Qed.

Lemma Respects_locatorClick (t : string) :
  harmless (ELocatorClick t) = true -> Respects (page_locatorClick page t).
Proof.
  intros H s. unfold page_locatorClick. destruct (locatorClick page t (world s)) as [w r].
  simpl. apply R_note. apply H.
Qed.

Lemma Respects_sleep (ms : Z) : harmless (ESleep ms) = true -> Respects (sleep_ page ms).
Proof. intros H s. unfold sleep_, sleep_st. simpl. apply R_note. apply H. Qed.

Lemma Respects_modify_this (g : A -> A) :
  (forall s, R s (mkSt (world s) (journal s) (g (this s)))) -> Respects (modify_this g).
Proof. intros H s. unfold modify_this. simpl. apply H. Qed.

Lemma Respects_retry_loop (X : Type) (fn : M W A X) (max delay mult : Z) (remaining : nat) :
  Respects fn -> (forall ms, harmless (ESleep ms) = true) ->
  forall attempt lastError s,
    R s (fst (Retry.retry_loop (sleep_st page) fn max delay mult
                (Some (fun _ _ s => s)) remaining attempt lastError s)).
Proof.
  intros Hfn Hsleep. induction remaining as [|n IH]; intros attempt lastError s; simpl.
  - apply R_refl.
  - specialize (Hfn s). destruct (fn s) as [s1 [x | e |]]; simpl in *; try exact Hfn.
    destruct (attempt =? max); simpl; [exact Hfn |].
    apply (R_trans Hfn). eapply R_trans; [| apply IH].
    unfold sleep_st. apply R_note. apply Hsleep.
Qed.

Lemma Respects_retry (X : Type) (fn : M W A X) (attempts delay : Z) :
  Respects fn -> (forall ms, harmless (ESleep ms) = true) ->
  Respects (retry_ page fn attempts delay).
Proof.
  intros Hfn Hsleep s. unfold retry_, Retry.retry. simpl.
  apply Respects_retry_loop; assumption.
Qed.

End Respects.

(** The two relations used below satisfy the three hypotheses. *)

Lemma same_refl (W A V : Type) (f : St W A -> V) (s : St W A) : same f s s.
Proof. reflexivity. Qed.

Lemma same_trans (W A V : Type) (f : St W A -> V) (s1 s2 s3 : St W A) :
  same f s1 s2 -> same f s2 s3 -> same f s1 s3.
Proof. unfold same. intros H1 H2. rewrite H2. exact H1. Qed.

Lemma extends_refl (W A : Type) (s : St W A) : extends s s.
Proof. exists []. rewrite List.app_nil_r. reflexivity. Qed.

Lemma extends_trans (W A : Type) (s1 s2 s3 : St W A) :
  extends s1 s2 -> extends s2 s3 -> extends s1 s3.
Proof.
  intros [a1 H1] [a2 H2]. exists (a1 ++ a2). rewrite H2, H1, List.app_assoc. reflexivity.
Qed.

Lemma extends_this (W A : Type) (s : St W A) (a : A) :
  extends s (mkSt (world s) (journal s) a).
Proof. exists []. simpl. rewrite List.app_nil_r. reflexivity. Qed.

Lemma extends_note (W A : Type) (w : W) (e : Event) (s : St W A) :
  (fun _ : Event => true) e = true -> extends s (note w e s).
Proof. intros _. exists [e]. reflexivity. Qed.

Section Begins.
Variables W A : Type.
Variable page : Page W.
Variable P : Event -> Prop.





End Begins.

(** What a completed sequence says about its parts. *)
Lemma bind_Ok_inv (W A X Y : Type) (m : M W A X) (k : X -> M W A Y)
      (s s' : St W A) (y : Y) :
  bind m k s = (s', Ok y) ->
  exists s1 x, m s = (s1, Ok x) /\ k x s1 = (s', Ok y).
Proof.
  unfold bind. destruct (m s) as [s1 [x | e |]]; intro H; try discriminate H.
  exists s1, x. split; [reflexivity | exact H].
Qed.

Lemma bind_assoc (W A X Y V : Type) (m : M W A X) (k : X -> M W A Y) (h : Y -> M W A V)
      (s : St W A) :
  bind (bind m k) h s = bind m (fun x => bind (k x) h) s.
Proof. unfold bind. destruct (m s) as [s1 [x | e |]]; reflexivity. Qed.

Lemma bind_ext (W A X Y : Type) (m : M W A X) (k k' : X -> M W A Y) (s : St W A) :
  (forall x s1, k x s1 = k' x s1) -> bind m k s = bind m k' s.
Proof. intro H. unfold bind. destruct (m s) as [s1 [x | e |]]; [apply H | |]; reflexivity. Qed.

(** Strings that contain a text still do when more is put around them. *)
Lemma startsWith_app (a b needle : string) :
  startsWith a needle = true -> startsWith (a ++ b)%string needle = true.
Proof.
  revert a. induction needle as [|p pr IH]; intros a H; [destruct a; [destruct b |]; reflexivity |].
  destruct a as [|c r]; [discriminate H |]. simpl in *.
  destruct (Ascii.eqb p c); [apply IH; exact H | discriminate H].
Qed.

Lemma includes_app_l (a b needle : string) :
  includes a needle = true -> includes (a ++ b)%string needle = true.
Proof.
  induction a as [|c r IH]; intro H.
  - destruct needle; [destruct b; reflexivity | discriminate H].
  - cbn [includes] in H. cbn [append includes].
    destruct (startsWith (String c r) needle) eqn:Hs.
    + change (String c (r ++ b)%string) with (String c r ++ b)%string.
      rewrite (startsWith_app _ b _ Hs). reflexivity.
    + destruct (startsWith (String c (r ++ b)%string) needle); [reflexivity |].
      apply IH. exact H.
Qed.

Lemma includes_app_r (a b needle : string) :
  includes b needle = true -> includes (a ++ b)%string needle = true.
Proof.
  intro H. induction a as [|c r IH]; [exact H |].
  cbn [append includes]. destruct (startsWith (String c (r ++ b)%string) needle);
    [reflexivity | exact IH].
Qed.

(** Unfolds the agent code along its structure, one construct at a time,
    for a goal [Respects R m] over the page [pg]; [rf], [tr] and [nt] are the
    three facts about [R] and the journal entries accepted by [h]; [leaf]
    closes what is left. *)
Ltac respects_with pg R h rf tr nt leaf :=
  repeat
    (cbv zeta;
     lazymatch goal with
     | |- Exec.Respects _ (ret _) => apply (@Respects_ret _ _ R rf)
     | |- Exec.Respects _ (throw _) => apply (@Respects_throw _ _ R rf)
     | |- Exec.Respects _ diverge => apply (@Respects_diverge _ _ R rf)
     | |- Exec.Respects _ get_this => apply (@Respects_get_this _ _ R rf)
     | |- Exec.Respects _ (now_iso _) => apply (@Respects_now_iso _ _ pg R rf)
     | |- Exec.Respects _ (bind _ _) => apply (@Respects_bind _ _ R tr); [| intro]
     | |- Exec.Respects _ (and_then _ _) => apply (@Respects_and_then _ _ R rf tr)
     | |- Exec.Respects _ (try_catch _ _) => apply (@Respects_try_catch _ _ R tr); [| intro]
     | |- Exec.Respects _ (attempt_ _) => apply (@Respects_attempt _ _ R rf tr)
     | |- Exec.Respects _ (retry_ _ _ _ _) => apply (@Respects_retry _ _ pg R h rf tr nt)
     | |- Exec.Respects _ (page_observe _ _) => apply (@Respects_observe _ _ pg R h nt)
     | |- Exec.Respects _ (page_act _ _) => apply (@Respects_act _ _ pg R h nt)
     | |- Exec.Respects _ (page_actOn _ _) => apply (@Respects_actOn _ _ pg R h nt)
     | |- Exec.Respects _ (page_extract _ _) => apply (@Respects_extract _ _ pg R h nt)
     | |- Exec.Respects _ (page_extractPageContent _ _) =>
         apply (@Respects_extractPageContent _ _ pg R h nt)
     | |- Exec.Respects _ (page_extractPaymentDetails _ _) =>
         apply (@Respects_extractPaymentDetails _ _ pg R h nt)
     | |- Exec.Respects _ (page_url _) => apply (@Respects_url _ _ pg R h nt)
     | |- Exec.Respects _ (page_textContent _) => apply (@Respects_textContent _ _ pg R h nt)
     | |- Exec.Respects _ (page_waitForLoadState _ _) =>
         apply (@Respects_waitForLoadState _ _ pg R h nt)
     | |- Exec.Respects _ (page_waitForTimeout _ _) =>
         apply (@Respects_waitForTimeout _ _ pg R h nt)
     | |- Exec.Respects _ (page_goto _ _) => apply (@Respects_goto _ _ pg R h nt)
     | |- Exec.Respects _ (page_evaluate _ _) => apply (@Respects_evaluate _ _ pg R h nt)
     | |- Exec.Respects _ (page_locatorClick _ _) =>
         apply (@Respects_locatorClick _ _ pg R h nt)
     | |- Exec.Respects _ (sleep_ _ _) => apply (@Respects_sleep _ _ pg R h nt)
     | |- Exec.Respects _ (modify_this _) => apply (@Respects_modify_this _ _ R)
     | |- Exec.Respects _ (if ?b then _ else _) => destruct b
     | |- Exec.Respects _ (match ?x with _ => _ end) => destruct x
     | |- _ => leaf
     end).

Ltac harmless_leaf :=
  solve [ intros; reflexivity | intros; simpl; reflexivity | assumption ].

(** Code with an outcome from every state: everything but [diverge]. *)
Section Converges.
Variables W A : Type.
Variable page : Page W.

Lemma Converges_ret (X : Type) (x : X) : Converges (ret (W:=W) (A:=A) x).
Proof. intro s. discriminate. Qed.

Lemma Converges_throw (X : Type) (e : Value) : Converges (throw (W:=W) (A:=A) (X:=X) e).
Proof. intro s. discriminate. Qed.

Lemma Converges_get_this : Converges (get_this (W:=W) (A:=A)).
Proof. intro s. discriminate. Qed.

Lemma Converges_modify_this (g : A -> A) : Converges (modify_this (W:=W) g).
Proof. intro s. discriminate. Qed.

Lemma Converges_now_iso : Converges (now_iso page (A:=A)).
Proof. intro s. discriminate. Qed.

Lemma Converges_sleep (ms : Z) : Converges (sleep_ page (A:=A) ms).
Proof. intro s. discriminate. Qed.

Lemma Converges_url : Converges (page_url page (A:=A)).
Proof. intro s. discriminate. Qed.

Lemma Converges_bind (X Y : Type) (m : M W A X) (k : X -> M W A Y) :
  Converges m -> (forall x, Converges (k x)) -> Converges (bind m k).
Proof.
  intros Hm Hk s. unfold bind. specialize (Hm s).
  destruct (m s) as [s1 [x | e |]]; cbn [snd] in *;
    [apply Hk | discriminate | contradiction Hm; reflexivity].
Qed.

Lemma Converges_try_catch (X : Type) (m : M W A X) (h : Value -> M W A X) :
  Converges m -> (forall e, Converges (h e)) -> Converges (try_catch m h).
Proof.
  intros Hm Hh s. unfold try_catch. specialize (Hm s).
  destruct (m s) as [s1 [x | e |]]; cbn [snd] in *;
    [discriminate | apply Hh | contradiction Hm; reflexivity].
Qed.

Lemma Converges_observe (i : string) : Converges (page_observe page (A:=A) i).
Proof.
  intro s. unfold page_observe. destruct (observe page i (world s)) as [w [e | x]];
    discriminate.
Qed.

Lemma Converges_act (a : string) : Converges (page_act page (A:=A) a).
Proof.
  intro s. unfold page_act. destruct (act page a (world s)) as [w [e |]]; discriminate.
Qed.

Lemma Converges_waitForLoadState (st : string) :
  Converges (page_waitForLoadState page (A:=A) st).
Proof.
  intro s. unfold page_waitForLoadState.
  destruct (waitForLoadState page st (world s)) as [w [e |]]; discriminate.
Qed.

Lemma Converges_retry_loop (X : Type) (fn : M W A X) (max delay mult : Z) (remaining : nat) :
  Converges fn ->
  forall attempt lastError s,
    snd (Retry.retry_loop (sleep_st page) fn max delay mult
           (Some (fun _ _ s => s)) remaining attempt lastError s) <> Diverge.
Proof.
  intro Hfn. induction remaining as [|n IH]; intros attempt lastError s; simpl.
  - discriminate.
  - specialize (Hfn s). destruct (fn s) as [s1 [x | e |]]; cbn [snd] in *;
      [discriminate | | contradiction Hfn; reflexivity].
    destruct (attempt =? max); [discriminate | apply IH].
Qed.

Lemma Converges_retry (X : Type) (fn : M W A X) (attempts delay : Z) :
  Converges fn -> Converges (retry_ page fn attempts delay).
Proof.
  intros Hfn s. unfold retry_, Retry.retry. simpl. apply Converges_retry_loop. exact Hfn.
Qed.

End Converges.

(** Unfolds the agent code along its structure for a goal [Converges m];
    [leaf] closes what is left. *)
Ltac converges leaf :=
  repeat
    (cbv zeta;
     lazymatch goal with
     | |- Converges (ret _) => apply Converges_ret
     | |- Converges (throw _) => apply Converges_throw
     | |- Converges get_this => apply Converges_get_this
     | |- Converges (modify_this _) => apply Converges_modify_this
     | |- Converges (now_iso _) => apply Converges_now_iso
     | |- Converges (sleep_ _ _) => apply Converges_sleep
     | |- Converges (page_url _) => apply Converges_url
     | |- Converges (bind _ _) => apply Converges_bind; [| intro]
     | |- Converges (try_catch _ _) => apply Converges_try_catch; [| intro]
     | |- Converges (retry_ _ _ _ _) => apply Converges_retry
     | |- Converges (page_observe _ _) => apply Converges_observe
     | |- Converges (page_act _ _) => apply Converges_act
     | |- Converges (page_waitForLoadState _ _) => apply Converges_waitForLoadState
     | |- Converges (if ?b then _ else _) => destruct b
     | |- Converges (match ?x with _ => _ end) => destruct x
     | |- _ => leaf
     end).

End ExecProofs.

(** ** The site-plan agent *)

Module SitePlanProofs.
Import Js Exec ExecProofs SitePlan.
Local Open Scope agent_scope.

Section PayClicks.
Variable W : Type.
Variable page : Page W.

Lemma pays_note (w : W) (e : Event) (s : St W Agent) :
  no_pay e = true -> same (@pays W) s (note w e s).
Proof.
  intro H. unfold no_pay in H. unfold same, pays, note, count_act. simpl.
  rewrite List.filter_app, List.length_app. simpl.
  destruct (is_act pay_click e); [discriminate H | simpl; lia].
Qed.

Ltac quiet leaf :=
  unfold Keeps;
  respects_with page (same (@pays W)) no_pay
    (same_refl (@pays W)) (@same_trans _ _ _ (@pays W)) pays_note
    ltac:(first [ harmless_leaf | leaf ]).

Lemma update_quiet (record : nat) (g : SitePlanRecord -> SitePlanRecord) :
  Keeps (@pays W) (update (W:=W) record g).
Proof. unfold update. quiet fail. Qed.








(** *** The journal only grows, and the smart workflow starts at the
        applications list *)

Ltac grows leaf :=
  respects_with page (@extends W Agent) (fun _ : Event => true)
    (@extends_refl W Agent) (@extends_trans W Agent) (@extends_note W Agent)
    ltac:(first [ harmless_leaf | solve [intros; apply extends_this] | leaf ]).










End PayClicks.


End SitePlanProofs.

(** ** The affection-plan agent *)

Module AffectionPlanProofs.
Import Js Exec ExecProofs AffectionPlan.
Local Open Scope agent_scope.

Section PayClicks.
Variable W : Type.
Variable page : Page W.

Lemma click_free_note (w : W) (e : Event) (s : St W Agent) :
  no_pay e = true -> same (@pays W) s (note w e s).
Proof.
  intro H. unfold no_pay in H. unfold same, pays, note, count_act. simpl.
  rewrite List.filter_app, List.length_app. simpl.
  destruct (is_act pay_click e); [discriminate H | simpl; lia].
Qed.

Ltac quiet leaf :=
  unfold Keeps;
  respects_with page (same (@pays W)) no_pay
    (same_refl (@pays W)) (@same_trans _ _ _ (@pays W)) click_free_note
    ltac:(first [ harmless_leaf | leaf ]).

Lemma push_result_quiet (r : PlotResult) : Keeps (@pays W) (push_result (W:=W) r).
Proof. unfold push_result. quiet fail. Qed.

Lemma act_and_settle_quiet (action : string) :
  String.eqb action pay_click = false -> Keeps (@pays W) (act_and_settle page action).
Proof.
  intro Hne. unfold act_and_settle.
  quiet ltac:(intros; unfold no_pay, is_act; rewrite Hne; reflexivity).
Qed.

Lemma navigateBackToServicePage_quiet : Keeps (@pays W) (navigateBackToServicePage page).
Proof.
  unfold navigateBackToServicePage, navigateToServicesMenu, selectAffectionPlanService.
  quiet ltac:(apply act_and_settle_quiet; reflexivity).
Qed.

Lemma search_plot_quiet (plot : PlotData) : Keeps (@pays W) (search_plot page plot).
Proof.
  unfold search_plot.
  quiet ltac:(first [ apply act_and_settle_quiet; reflexivity
                    | apply push_result_quiet
                    | apply navigateBackToServicePage_quiet ]).
Qed.

Lemma url_change_loop_quiet (startUrl : string) (remaining : nat) :
  Keeps (@pays W) (url_change_loop page startUrl remaining).
Proof.
  induction remaining as [|n IH]; cbn [url_change_loop]; quiet ltac:(exact IH).
Qed.

Lemma content_loop_quiet (remaining : nat) : Keeps (@pays W) (content_loop page remaining).
Proof.
  induction remaining as [|n IH]; cbn [content_loop]; quiet ltac:(exact IH).
Qed.

Lemma open_application_quiet (plot : PlotData) :
  Keeps (@pays W) (open_application page plot).
Proof.
  unfold open_application.
  quiet ltac:(first [ apply act_and_settle_quiet; reflexivity
                    | apply url_change_loop_quiet
                    | apply content_loop_quiet ]).
Qed.

Lemma extract_application_id_quiet (plot : PlotData) (pageContent : PageContent) :
  Keeps (@pays W) (extract_application_id page plot pageContent).
Proof. unfold extract_application_id. quiet ltac:(apply push_result_quiet). Qed.

Lemma read_payment_details_quiet : Keeps (@pays W) (read_payment_details page).
Proof.
  unfold read_payment_details. quiet ltac:(apply act_and_settle_quiet; reflexivity).
Qed.

(** Nothing before the funds validation clicks Pay now. *)
Lemma reach_payment_quiet (plot : PlotData) : Keeps (@pays W) (reach_payment page plot).
Proof.
  unfold reach_payment.
  quiet ltac:(first [ apply search_plot_quiet | apply open_application_quiet
                    | apply extract_application_id_quiet
                    | apply read_payment_details_quiet ]).
Qed.

(** Nor does the funds validation itself. *)
Lemma validate_funds_quiet (plot : PlotData) (applicationId : option string)
      (paymentDetails : PaymentDetails) :
  Keeps (@pays W) (validate_funds (W:=W) plot applicationId paymentDetails).
Proof. unfold validate_funds. quiet ltac:(apply push_result_quiet). Qed.

(** *** What has been recorded is kept *)

Lemma records_kept_refl (s : St W Agent) : records_kept s s.
Proof. exists []. rewrite List.app_nil_r. reflexivity. Qed.

Lemma records_kept_trans (s1 s2 s3 : St W Agent) :
  records_kept s1 s2 -> records_kept s2 s3 -> records_kept s1 s3.
Proof.
  intros [a1 H1] [a2 H2]. exists (a1 ++ a2). rewrite H2, H1, List.app_assoc. reflexivity.
Qed.

Lemma records_kept_note (w : W) (e : Event) (s : St W Agent) :
  (fun _ : Event => true) e = true -> records_kept s (note w e s).
Proof. intros _. exists []. simpl. rewrite List.app_nil_r. reflexivity. Qed.

Lemma records_kept_nil (s s' : St W Agent) :
  records_kept s s' -> results (this s') = [] -> results (this s) = [].
Proof.
  intros [added H] Hnil. rewrite Hnil in H. symmetry in H.
  apply List.app_eq_nil in H. exact (proj1 H).
Qed.

Ltac keeping leaf :=
  respects_with page (@records_kept W) (fun _ : Event => true)
    records_kept_refl records_kept_trans records_kept_note
    ltac:(first [ harmless_leaf | leaf ]).

Lemma push_result_keeps (r : PlotResult) : Respects (@records_kept W) (push_result (W:=W) r).
Proof. intro s. exists [r]. reflexivity. Qed.

Lemma navigateBackToServicePage_keeps :
  Respects (@records_kept W) (navigateBackToServicePage page).
Proof.
  unfold navigateBackToServicePage, navigateToServicesMenu, selectAffectionPlanService,
    act_and_settle.
  keeping fail.
Qed.

Lemma url_change_loop_keeps (startUrl : string) (remaining : nat) :
  Respects (@records_kept W) (url_change_loop page startUrl remaining).
Proof.
  induction remaining as [|n IH]; cbn [url_change_loop]; keeping ltac:(exact IH).
Qed.

Lemma content_loop_keeps (remaining : nat) :
  Respects (@records_kept W) (content_loop page remaining).
Proof.
  induction remaining as [|n IH]; cbn [content_loop]; keeping ltac:(exact IH).
Qed.

Lemma download_page_loop_keeps (remaining : nat) :
  Respects (@records_kept W) (download_page_loop page remaining).
Proof.
  induction remaining as [|n IH]; cbn [download_page_loop]; keeping ltac:(exact IH).
Qed.

Lemma sleep_seconds_keeps (n : nat) : Respects (@records_kept W) (sleep_seconds page n).
Proof.
  induction n as [|n IH]; cbn [sleep_seconds]; keeping ltac:(exact IH).
Qed.

Lemma reach_payment_keeps (plot : PlotData) :
  Respects (@records_kept W) (reach_payment page plot).
Proof.
  unfold reach_payment, search_plot, open_application, extract_application_id,
    read_payment_details, act_and_settle.
  keeping ltac:(first [ apply push_result_keeps | apply navigateBackToServicePage_keeps
                      | apply url_change_loop_keeps | apply content_loop_keeps ]).
Qed.

Lemma searchAndFilterPlot_keeps (plot : PlotData) :
  Respects (@records_kept W) (searchAndFilterPlot page plot).
Proof.
  unfold searchAndFilterPlot, validate_funds, click_pay_now, await_and_download,
    act_and_settle.
  keeping ltac:(first [ apply reach_payment_keeps | apply push_result_keeps
                      | apply url_change_loop_keeps | apply download_page_loop_keeps
                      | apply sleep_seconds_keeps ]).
Qed.

Lemma plots_loop_keeps (rest : list PlotData) :
  forall i total, Respects (@records_kept W) (plots_loop page rest i total).
Proof.
  induction rest as [|plot rest IH]; intros i total; cbn [plots_loop];
    keeping ltac:(first [ apply searchAndFilterPlot_keeps | apply push_result_keeps
                        | apply navigateBackToServicePage_keeps | apply IH ]).
Qed.

(** *** A plot that was paid for leaves a result *)

Lemma push_result_recorded (r : PlotResult) (s s' : St W Agent) :
  push_result r s = (s', Ok tt) -> results (this s') <> [].
Proof.
  unfold push_result, modify_this. intro H. inversion H. simpl.
  destruct (results (this s)); discriminate.
Qed.

Lemma await_and_download_recorded (plot : PlotData) (applicationId : option string)
      (s s' : St W Agent) :
  await_and_download page plot applicationId s = (s', Ok tt) -> results (this s') <> [].
Proof.
  unfold await_and_download. intro H.
  repeat (apply bind_Ok_inv in H; destruct H as (? & ? & _ & H)).
  apply push_result_recorded in H. exact H.
Qed.

(** The [return] taken when no Pay now button is found comes before any
    click. *)
Lemma click_pay_now_declined (s s' : St W Agent) :
  click_pay_now page s = (s', Ok false) -> pays s' = pays s.
Proof.
  unfold click_pay_now. intro H.
  apply bind_Ok_inv in H. destruct H as (s1 & seen & Hobs & H).
  destruct (List.find is_pay_now seen).
  - apply bind_Ok_inv in H. destruct H as (s2 & x & _ & H). discriminate H.
  - inversion H. subst s'.
    assert (Hq : Keeps (@pays W)
                   (page_observe page (A:=Agent) "Find the Pay now button at the bottom of the page"))
      by quiet fail.
    specialize (Hq s). rewrite Hobs in Hq. exact Hq.
Qed.

(** A plot that ends without a result recorded has not been paid for. *)
Lemma searchAndFilterPlot_unrecorded (plot : PlotData) (s s' : St W Agent) :
  searchAndFilterPlot page plot s = (s', Ok tt) ->
  results (this s') = [] -> pays s' = pays s.
Proof.
  unfold searchAndFilterPlot. intros H Hnil.
  apply bind_Ok_inv in H. destruct H as (s1 & reached & Hreach & H).
  pose proof (reach_payment_quiet plot s) as Hq1. rewrite Hreach in Hq1. cbn [fst] in Hq1.
  destruct reached as [[applicationId paymentDetails] |].
  - unfold and_then in H.
    apply bind_Ok_inv in H. destruct H as (s2 & affordable & Hfunds & H).
    pose proof (validate_funds_quiet plot applicationId paymentDetails s1) as Hq2.
    rewrite Hfunds in Hq2. cbn [fst] in Hq2. unfold same in *.
    destruct affordable.
    + apply bind_Ok_inv in H. destruct H as (s3 & clicked & Hclick & H).
      destruct clicked.
      * apply await_and_download_recorded in H. contradiction.
      * inversion H. subst s'.
        apply click_pay_now_declined in Hclick. rewrite Hclick, Hq2. exact Hq1.
    + inversion H. subst s'. rewrite Hq2. exact Hq1.
  - inversion H. subst s'. exact Hq1.
Qed.

Lemma tracked_recorded (plot : PlotData) (rs : list PlotResult) :
  existsb (fun r => String.eqb (r_plotNumber r) (plotNumber plot)) rs = true -> rs <> [].
Proof. destruct rs; [discriminate | discriminate]. Qed.

(** As long as no result has been recorded, no plot of the loop has been
    paid for. *)
Lemma plots_loop_unrecorded (done : list PlotData) :
  forall i total (s s' : St W Agent),
    plots_loop page done i total s = (s', Ok tt) ->
    results (this s') = [] -> pays s' = pays s.
Proof.
  induction done as [|plot done IH]; intros i total s s' H Hnil; cbn [plots_loop] in H.
  - inversion H. reflexivity.
  - apply bind_Ok_inv in H. destruct H as (sa & [] & Hplot & H).
    apply bind_Ok_inv in H. destruct H as (sb & [] & Hnav & H).
    rewrite (IH _ _ _ _ H Hnil).
    pose proof (plots_loop_keeps done (i + 1) total sb) as Hk1.
    rewrite H in Hk1. cbn [fst] in Hk1.
    assert (Hnil_b : results (this sb) = []) by (eapply records_kept_nil; eassumption).
    assert (Hnav_q : pays sb = pays sa /\ results (this sa) = []).
    { destruct (i <? total - 1).
      - split.
        + assert (Hq : Keeps (@pays W)
                         (bind (sleep_ page (A:=Agent) 2000)
                               (fun _ => attempt_ (navigateBackToServicePage page))))
            by quiet ltac:(apply navigateBackToServicePage_quiet).
          specialize (Hq sa). rewrite Hnav in Hq. exact Hq.
        + assert (Hk : Respects (@records_kept W)
                         (bind (sleep_ page (A:=Agent) 2000)
                               (fun _ => attempt_ (navigateBackToServicePage page))))
            by keeping ltac:(apply navigateBackToServicePage_keeps).
          specialize (Hk sa). rewrite Hnav in Hk. eapply records_kept_nil; eassumption.
      - inversion Hnav. subst sb. split; [reflexivity | exact Hnil_b]. }
    destruct Hnav_q as [Hpays_b Hnil_a]. rewrite Hpays_b.
    unfold try_catch in Hplot.
    destruct (searchAndFilterPlot page plot s) as [sx [[] | e |]] eqn:Hrun.
    + inversion Hplot. subst sa. eapply searchAndFilterPlot_unrecorded; eassumption.
    + exfalso. destruct (is_batch_error (messageOf e)); [discriminate Hplot |].
      unfold bind, get_this in Hplot.
      destruct (existsb _ (results (this sx))) eqn:Htracked; cbn [negb] in Hplot.
      * inversion Hplot. subst sa. eapply tracked_recorded; eassumption.
      * eapply push_result_recorded; eassumption.
    + discriminate Hplot.
Qed.

(** *** The batch validation *)

(** The plots before one are processed first, each followed by the way
    back to the service page. *)
Lemma plots_loop_app (done rest : list PlotData) :
  forall i total (s : St W Agent),
    plots_loop page (done ++ rest) i total s
    = bind (plots_loop page done i total)
           (fun _ => plots_loop page rest (i + Z.of_nat (List.length done)) total) s.
Proof.
  induction done as [|plot done IH]; intros i total s.
  - cbn [List.app plots_loop List.length Z.of_nat]. rewrite Z.add_0_r. reflexivity.
  - cbn [List.app plots_loop]. rewrite bind_assoc.
    apply bind_ext. intros [] sa. rewrite bind_assoc.
    apply bind_ext. intros [] sb.
    rewrite IH. replace (i + 1 + Z.of_nat (List.length done))
      with (i + Z.of_nat (List.length (plot :: done))) by (cbn [List.length]; lia).
    reflexivity.
Qed.

(** The error the batch validation throws is one the plot loop rethrows. *)
Lemma batch_abort_is_batch_error (totalRequired : number) (totalPlots : nat)
      (balance shortage : number) :
  is_batch_error (batch_abort_message totalRequired totalPlots balance shortage) = true.
Proof.
  unfold is_batch_error, batch_abort_message.
  apply Bool.orb_true_iff. right.
  apply Bool.andb_true_iff. split; [| apply Bool.andb_true_iff; split].
  - apply includes_app_l. reflexivity.
  - do 2 apply includes_app_r. apply includes_app_l. reflexivity.
  - do 4 apply includes_app_r. apply includes_app_l. reflexivity.
Qed.

(** A comparison that holds has numbers on both sides, and a product that
    is a number has a number for its first factor. *)
Lemma num_lt_numbers (a b : number) :
  num_lt a b = true -> isNaN a = false /\ isNaN b = false.
Proof. destruct a, b; cbn; intro H; try discriminate H; split; reflexivity. Qed.

Lemma num_mul_number (a b : number) : isNaN (num_mul a b) = false -> isNaN a = false.
Proof. destruct a; try reflexivity. destruct b; intro H; discriminate H. Qed.

(** Lines 1119-1168 when no result has been recorded and the balance does
    not cover all plots. *)
Lemma validate_funds_batch_short (plot : PlotData) (applicationId : option string)
      (paymentDetails : PaymentDetails) (s : St W Agent) :
  let balance := parse_amount (walletBalance paymentDetails) in
  let amount := parse_amount (paymentAmount paymentDetails) in
  let totalPlots := List.length (plots (this s)) in
  let totalRequired := num_mul amount (number_of_nat totalPlots) in
  results (this s) = [] ->
  num_lt balance totalRequired = true ->
  validate_funds plot applicationId paymentDetails s
  = (mkSt (world s) (journal s)
       {| plots := plots (this s);
          results := [result_of plot applicationId false false
                        (Some (batch_result_message totalRequired totalPlots balance))];
          config := config (this s) |},
     Throw (Error (batch_abort_message totalRequired totalPlots balance
                     (num_sub totalRequired balance)))).
Proof.
  cbv zeta. intros Hnil Hshort.
  destruct (num_lt_numbers _ _ Hshort) as [Hbalance Hrequired].
  apply num_mul_number in Hrequired.
  unfold validate_funds. cbv zeta. rewrite Hbalance, Hrequired. cbn [orb].
  unfold bind at 1. unfold get_this at 1. rewrite Hnil. cbn [List.length Nat.eqb].
  rewrite Hshort. unfold bind, push_result, modify_this, throw. cbn [world journal this].
  rewrite Hnil. reflexivity.
Qed.

(** The batch-wide check where it is made: at the plot that reaches the
    funds validation while no result has been recorded yet.  When the
    balance [B] read there is below [N] times the fee [F] read there, [N]
    the number of plots of the batch and product and comparison those of
    the language, the plot loop stops with the error whose message names
    the shortfall [N * F - B] to two decimals: the plots after it are not
    processed, one result carrying the batch message is recorded, and no
    Pay now click has been made since the loop began. *)
Theorem batch_check_stops_before_any_payment
        (done rest : list PlotData) (plot : PlotData) (i total : Z)
        (s0 s s1 : St W Agent) (applicationId : option string)
        (paymentDetails : PaymentDetails) :
  let balance := parse_amount (walletBalance paymentDetails) in
  let amount := parse_amount (paymentAmount paymentDetails) in
  let totalPlots := List.length (plots (this s1)) in
  let totalRequired := num_mul amount (number_of_nat totalPlots) in
  let stopped :=
    mkSt (world s1) (journal s1)
      {| plots := plots (this s1);
         results := [result_of plot applicationId false false
                       (Some (batch_result_message totalRequired totalPlots balance))];
         config := config (this s1) |} in
  plots_loop page done i total s0 = (s, Ok tt) ->
  reach_payment page plot s = (s1, Ok (Some (applicationId, paymentDetails))) ->
  results (this s1) = [] ->
  num_lt balance totalRequired = true ->
  plots_loop page (done ++ plot :: rest) i total s0
  = (stopped,
     Throw (Error (batch_abort_message totalRequired totalPlots balance
                     (num_sub totalRequired balance))))
  /\ pays stopped = pays s0.
Proof.
  cbv zeta. intros Hdone Hreach Hnil Hshort. split.
  - rewrite plots_loop_app. unfold bind at 1. rewrite Hdone.
    cbn [plots_loop]. unfold bind at 1. unfold try_catch.
    unfold searchAndFilterPlot. unfold bind at 1. rewrite Hreach.
    unfold and_then. unfold bind at 1.
    rewrite (@validate_funds_batch_short plot applicationId paymentDetails s1 Hnil Hshort).
    cbn [messageOf]. rewrite batch_abort_is_batch_error. reflexivity.
  - unfold pays at 1. cbn [journal]. fold (pays s1).
    pose proof (reach_payment_quiet plot s) as Hq. rewrite Hreach in Hq. cbn [fst] in Hq.
    unfold same in Hq. rewrite Hq.
    pose proof (reach_payment_keeps plot s) as Hk. rewrite Hreach in Hk. cbn [fst] in Hk.
    eapply plots_loop_unrecorded; [exact Hdone |].
    eapply records_kept_nil; eassumption.
Qed.

End PayClicks.

Lemma batch_check_stops_before_any_payment_witness :
  let batch := [("A-1", Scripted.smooth "250" "100"); ("A-2", Scripted.smooth "250" "100");
                ("A-3", Scripted.smooth "250" "100")] in
  let run := Scripted.affection_plan_run batch in
  snd run
  = Throw (Error "Insufficient balance: need 300.00 AED for 3 plots, have 250.00 AED. Add 50.00 AED and restart.")
  /\ pays (fst run) = 0%nat
  /\ List.map r_plotNumber (results (this (fst run))) = ["A-1"].
Proof.
  cbv zeta.
  pose proof (@batch_check_stops_before_any_payment string
                (Scripted.page
                   [("A-1", Scripted.smooth "250" "100"); ("A-2", Scripted.smooth "250" "100");
                    ("A-3", Scripted.smooth "250" "100")] Scripted.not_owned)
                [] [{| plotNumber := "A-2"; rowIndex := 2 |};
                    {| plotNumber := "A-3"; rowIndex := 2 |}]
                {| plotNumber := "A-1"; rowIndex := 2 |} 0 3
                (mkSt "" []
                   {| plots := [{| plotNumber := "A-1"; rowIndex := 2 |};
                                {| plotNumber := "A-2"; rowIndex := 2 |};
                                {| plotNumber := "A-3"; rowIndex := 2 |}];
                      results := []; config := defaultDariAffectionPlanConfig |})
                _ _ (Some "20260105000123")
                {| walletBalance := "250"; paymentAmount := "100"; currency := Some "AED" |}
                eq_refl ltac:(vm_compute; reflexivity) ltac:(vm_compute; reflexivity)
                ltac:(vm_compute; reflexivity)) as H.
  cbv zeta in H. destruct H as [Hrun Hpays].
  unfold Scripted.affection_plan_run, process_plots, bind, get_this.
  cbn [this plots List.map fst List.length].
  change (Z.of_nat 3) with 3.
  cbn [List.app] in Hrun. rewrite Hrun. cbn [fst snd].
  split; [vm_compute; reflexivity | split; [rewrite Hpays; reflexivity | reflexivity]].
Defined.

(** C2 (failing input).  A batch of three plots at a fee of 100 with a
    balance of 250 on show, the first plot not owned by the account.  The
    not-found result of the first plot makes the second plot a subsequent
    one, so the batch-wide check is never made: the second and the third
    plot are paid for and the run ends without an error, although the
    balance is below three times the fee. *)
Lemma unowned_first_plot_skips_batch_check :
  let batch := [("A-1", Scripted.not_owned); ("A-2", Scripted.smooth "250" "100");
                ("A-3", Scripted.smooth "150" "100")] in
  let run := Scripted.affection_plan_run batch in
  num_lt (parse_amount "250") (num_mul (parse_amount "100") (number_of_nat 3)) = true
  /\ snd run = Ok tt
  /\ pays (fst run) = 2%nat
  /\ List.map paymentCompleted (results (this (fst run))) = [false; true; true]
  /\ List.map error (results (this (fst run)))
     = [Some "Plot not found - You don't own any property"; None; None].
Proof. vm_compute. repeat split; reflexivity. Qed.

(** *** The check of a subsequent plot *)

(** Lines 1174-1196: with a result already recorded, a balance below the
    fee records the shortage for this plot and returns. *)
Lemma validate_funds_plot_short (plot : PlotData) (applicationId : option string)
      (paymentDetails : PaymentDetails) (W : Type) (s : St W Agent) :
  let balance := parse_amount (walletBalance paymentDetails) in
  let amount := parse_amount (paymentAmount paymentDetails) in
  results (this s) <> [] ->
  num_lt balance amount = true ->
  validate_funds plot applicationId paymentDetails s
  = (mkSt (world s) (journal s)
       {| plots := plots (this s);
          results := results (this s)
                     ++ [result_of plot applicationId false false
                           (Some ("Insufficient balance (shortage: "
                                    ++ toFixed2 (num_sub amount balance) ++ ")")%string)];
          config := config (this s) |},
     Ok false).
Proof.
  cbv zeta. intros Hsome Hshort.
  assert (Hnumbers : isNaN (parse_amount (walletBalance paymentDetails)) = false
                     /\ isNaN (parse_amount (paymentAmount paymentDetails)) = false).
  { revert Hshort. unfold num_lt.
    destruct (parse_amount (walletBalance paymentDetails)),
             (parse_amount (paymentAmount paymentDetails));
      cbn; intro H; try discriminate H; split; reflexivity. }
  destruct Hnumbers as [Hbalance Hamount].
  unfold validate_funds. cbv zeta. rewrite Hbalance, Hamount. cbn [orb].
  unfold bind at 1. unfold get_this at 1.
  destruct (results (this s)) as [|r rs] eqn:Hres; [contradiction Hsome; reflexivity |].
  cbn [List.length Nat.eqb]. rewrite Hshort.
  unfold bind, push_result, modify_this, ret. cbn [world journal this]. rewrite Hres.
  reflexivity.
Qed.

(** A plot that reaches the funds validation after a result has been
    recorded, with a balance below its fee (both as [parseFloat] reads
    them): the method records the shortage for this plot, the difference
    of the two numbers to two decimals as [toFixed] rounds it, and returns
    without a Pay now click and without an error, so the plot loop goes on
    to the next plot. *)
Theorem subsequent_plot_shortage_is_recorded (W : Type) (page : Page W)
        (plot : PlotData) (s s1 : St W Agent) (applicationId : option string)
        (paymentDetails : PaymentDetails) :
  let balance := parse_amount (walletBalance paymentDetails) in
  let amount := parse_amount (paymentAmount paymentDetails) in
  let recorded :=
    mkSt (world s1) (journal s1)
      {| plots := plots (this s1);
         results := results (this s1)
                    ++ [result_of plot applicationId false false
                          (Some ("Insufficient balance (shortage: "
                                   ++ toFixed2 (num_sub amount balance) ++ ")")%string)];
         config := config (this s1) |} in
  reach_payment page plot s = (s1, Ok (Some (applicationId, paymentDetails))) ->
  results (this s1) <> [] ->
  num_lt balance amount = true ->
  searchAndFilterPlot page plot s = (recorded, Ok tt)
  /\ pays recorded = pays s.
Proof.
  cbv zeta. intros Hreach Hsome Hshort. split.
  - unfold searchAndFilterPlot. unfold bind at 1. rewrite Hreach.
    unfold and_then. unfold bind at 1.
    rewrite (@validate_funds_plot_short plot applicationId paymentDetails W s1 Hsome Hshort).
    reflexivity.
  - pose proof (reach_payment_quiet page plot s) as Hq. rewrite Hreach in Hq. exact Hq.
Qed.

Lemma subsequent_plot_shortage_is_recorded_witness :
  let pg := Scripted.page [("A-1", Scripted.smooth "300" "100");
                           ("A-2", Scripted.smooth "50" "100")] Scripted.not_owned in
  let earlier := result_of {| plotNumber := "A-1"; rowIndex := 2 |}
                   (Some "20260105000123") true true None in
  let plot := {| plotNumber := "A-2"; rowIndex := 3 |} in
  let s := mkSt "" []
             {| plots := [{| plotNumber := "A-1"; rowIndex := 2 |}; plot];
                results := [earlier]; config := defaultDariAffectionPlanConfig |} in
  snd (searchAndFilterPlot pg plot s) = Ok tt
  /\ pays (fst (searchAndFilterPlot pg plot s)) = 0%nat
  /\ List.map error (results (this (fst (searchAndFilterPlot pg plot s))))
     = [None; Some "Insufficient balance (shortage: 50.00)"].
Proof.
  cbv zeta.
  destruct (@subsequent_plot_shortage_is_recorded string
              (Scripted.page [("A-1", Scripted.smooth "300" "100");
                              ("A-2", Scripted.smooth "50" "100")] Scripted.not_owned)
              {| plotNumber := "A-2"; rowIndex := 3 |}
              (mkSt "" []
                 {| plots := [{| plotNumber := "A-1"; rowIndex := 2 |};
                              {| plotNumber := "A-2"; rowIndex := 3 |}];
                    results := [result_of {| plotNumber := "A-1"; rowIndex := 2 |}
                                  (Some "20260105000123") true true None];
                    config := defaultDariAffectionPlanConfig |})
              _ (Some "20260105000123")
              {| walletBalance := "50"; paymentAmount := "100"; currency := Some "AED" |}
              ltac:(vm_compute; reflexivity) ltac:(vm_compute; discriminate)
              ltac:(vm_compute; reflexivity)) as [Hrun Hpays].
  cbv zeta in Hpays. rewrite Hrun. cbn [fst snd].
  split; [reflexivity | split; [rewrite Hpays; reflexivity | vm_compute; reflexivity]].
Defined.

(** The numbers are those of the language: a fee of 1.005 against an empty
    wallet is a shortage of 1.00 in the text, 99.3 does not cover three
    times 33.1, and 2.0999999999999998 covers three times 0.7. *)
Example amounts_are_binary64 :
  toFixed2 (num_sub (parse_amount "AED 1.005") (parse_amount "AED 0")) = "1.00"
  /\ num_lt (parse_amount "99.3") (num_mul (parse_amount "33.1") (number_of_nat 3)) = true
  /\ num_lt (parse_amount "2.0999999999999998")
            (num_mul (parse_amount "0.7") (number_of_nat 3)) = false.
Proof. vm_compute. repeat split; reflexivity. Qed.

(** The usual course of a shortage at the second of three plots: the plot
    is recorded with the shortage, the first and the third are paid for. *)
Example shortage_on_second_plot :
  let batch := [("A-1", Scripted.smooth "300" "100"); ("A-2", Scripted.smooth "50" "100");
                ("A-3", Scripted.smooth "300" "100")] in
  let run := Scripted.affection_plan_run batch in
  snd run = Ok tt
  /\ pays (fst run) = 2%nat
  /\ List.map paymentCompleted (results (this (fst run))) = [true; false; true]
  /\ List.map error (results (this (fst run)))
     = [None; Some "Insufficient balance (shortage: 50.00)"; None].
Proof. vm_compute. repeat split; reflexivity. Qed.

(** C7 (failing input).  Three plots at a fee of 100.  The first passes
    the batch-wide check with a balance of 300 but shows no Pay now button,
    and the method returns there without recording a result.  The second
    plot, with a balance of 50, therefore finds [this.results] empty, is
    taken for the first plot and fails the batch-wide check: the run stops
    with the batch error and the third plot is never processed. *)
Lemma missing_pay_button_turns_shortage_into_batch_abort :
  let batch := [("A-1", Scripted.no_pay_button "300" "100");
                ("A-2", Scripted.smooth "50" "100");
                ("A-3", Scripted.smooth "300" "100")] in
  let run := Scripted.affection_plan_run batch in
  snd run
  = Throw (Error "Insufficient balance: need 300.00 AED for 3 plots, have 50.00 AED. Add 250.00 AED and restart.")
  /\ pays (fst run) = 0%nat
  /\ List.map r_plotNumber (results (this (fst run))) = ["A-2"]
  /\ List.map error (results (this (fst run)))
     = [Some "Insufficient balance for batch: need 300.00 AED for 3 plots, have 50.00 AED"]
  /\ count_act ("type " ++ dquote ++ "A-3" ++ dquote
                   ++ " into the Plot Number input field in the left sidebar")%string
               (journal (fst run)) = 0%nat.
Proof. vm_compute. repeat split; reflexivity. Qed.

End AffectionPlanProofs.

(** ** The application identifier *)

Module ExtractionProofs.
Import Js Exec ExecProofs.
Local Open Scope agent_scope.

(** The result the affection-plan agent records for a plot without an
    identifier. *)
Lemma extract_application_id_fails (W : Type) (page : Page W) (plot : AffectionPlan.PlotData)
      (pageContent : PageContent) (s : St W AffectionPlan.Agent) (w : W)
      (text : option string) :
  AffectionPlan.ai_application_id pageContent = None ->
  textContent page (world s) = (w, inr text) ->
  AffectionPlan.id_from_text text = None ->
  AffectionPlan.extract_application_id page plot pageContent s
  = (mkSt w (journal s ++ [ETextContent (inr text)])
       {| AffectionPlan.plots := AffectionPlan.plots (this s);
          AffectionPlan.results :=
            AffectionPlan.results (this s)
            ++ [AffectionPlan.result_of plot None false false
                  (Some "Application ID not found")];
          AffectionPlan.config := AffectionPlan.config (this s) |},
     Ok None).
Proof.
  intros Hai Htext Hid. unfold AffectionPlan.extract_application_id. rewrite Hai.
  unfold bind at 1. unfold page_textContent. rewrite Htext. cbn [of_sum]. rewrite Hid.
  reflexivity.
Qed.

(** C5 (amended).  Both agents read the page text once when the AI
    extraction gives no usable identifier.  In the affection-plan agent a
    plot without an identifier after that is recorded as 'Application ID
    not found' and the method returns: the text read is the last page call
    and no Pay now click has been made.  In the site-plan agent the
    identification step records nothing and lets the method go on to the
    payment section. *)
Theorem extraction_fallback_is_read_once :
  (forall (W : Type) (page : Page W) (plot : AffectionPlan.PlotData)
          (s s0 s1 : St W AffectionPlan.Agent) (pageContent : PageContent)
          (w : W) (text : option string),
      AffectionPlan.search_plot page plot s = (s0, Ok true) ->
      AffectionPlan.open_application page plot s0 = (s1, Ok pageContent) ->
      AffectionPlan.ai_application_id pageContent = None ->
      textContent page (world s1) = (w, inr text) ->
      AffectionPlan.id_from_text text = None ->
      let final :=
        mkSt w (journal s1 ++ [ETextContent (inr text)])
          {| AffectionPlan.plots := AffectionPlan.plots (this s1);
             AffectionPlan.results :=
               AffectionPlan.results (this s1)
               ++ [AffectionPlan.result_of plot None false false
                     (Some "Application ID not found")];
             AffectionPlan.config := AffectionPlan.config (this s1) |} in
      AffectionPlan.searchAndFilterPlot page plot s = (final, Ok tt)
      /\ AffectionPlan.pays final = AffectionPlan.pays s)
  /\
  (forall (W : Type) (page : Page W) (plot : SitePlan.PlotData) (record : nat)
          (s : St W SitePlan.Agent) (w1 w2 : W) (extraction text : option string),
      extract page SitePlan.extract_id_instruction (world s) = (w1, inr extraction) ->
      SitePlan.usable_id extraction = None ->
      textContent page w1 = (w2, inr text) ->
      SitePlan.id_from_text text = None ->
      SitePlan.identify_application page plot record s
      = (mkSt w2
           (journal s ++ [EExtract SitePlan.extract_id_instruction; ETextContent (inr text)])
           (this s),
         Ok true)).
Proof.
  split.
  - intros W page plot s s0 s1 pageContent w text Hsearch Hopen Hai Htext Hid. cbv zeta.
    split.
    + unfold AffectionPlan.searchAndFilterPlot, AffectionPlan.reach_payment.
      rewrite bind_assoc. unfold bind at 1. rewrite Hsearch. cbn [negb].
      rewrite bind_assoc. unfold bind at 1. rewrite Hopen.
      rewrite bind_assoc. unfold bind at 1.
      rewrite (extract_application_id_fails page plot pageContent s1 Hai Htext Hid).
      reflexivity.
    + pose proof (AffectionPlanProofs.search_plot_quiet page plot s) as H0.
      rewrite Hsearch in H0.
      pose proof (AffectionPlanProofs.open_application_quiet page plot s0) as H1.
      rewrite Hopen in H1. cbn [fst] in H0, H1. unfold same in H0, H1.
      rewrite <- H0, <- H1.
      apply (@AffectionPlanProofs.click_free_note W w (ETextContent (inr text)) s1). reflexivity.
  - intros W page plot record s w1 w2 extraction text Hextract Husable Htext Hid.
    unfold SitePlan.identify_application, SitePlan.extractApplicationId.
    unfold bind at 1. unfold try_catch. unfold bind at 1. unfold page_extract.
    rewrite Hextract. cbn [of_sum]. rewrite Husable.
    unfold bind at 1. unfold page_textContent. cbn [world note]. rewrite Htext.
    cbn [of_sum]. rewrite Hid. unfold ret at 1. cbn [truthy_opt].
    unfold bind, ret, note. cbn [journal world this].
    rewrite <- List.app_assoc. reflexivity.
Qed.

Lemma extraction_fallback_is_read_once_witness :
  let affection := Scripted.affection_plan_run [("A-1", Scripted.no_identifier "500" "100" true)] in
  (snd affection = Ok tt
   /\ AffectionPlan.pays (fst affection) = 0%nat
   /\ List.map AffectionPlan.error (AffectionPlan.results (this (fst affection)))
      = [Some "Application ID not found"])
  /\ SitePlan.identify_application
       (Scripted.page [("A-1", Scripted.no_identifier "500" "100" true)] Scripted.not_owned)
       {| SitePlan.plotNumber := "A-1"; SitePlan.rowIndex := 2 |} 0
       (mkSt "" []
          (SitePlan.new_agent Scripted.live_config Ledger.Missing true (Scripted.sheet_of ["A-1"])))
     = (mkSt ""
          [EExtract SitePlan.extract_id_instruction;
           ETextContent (inr (Some "You don't own any property and will not be able to proceed"))]
          (SitePlan.new_agent Scripted.live_config Ledger.Missing true (Scripted.sheet_of ["A-1"])),
        Ok true).
Proof.
  cbv zeta.
  pose (pg := Scripted.page [("A-1", Scripted.no_identifier "500" "100" true)] Scripted.not_owned).
  pose (plot := {| AffectionPlan.plotNumber := "A-1"; AffectionPlan.rowIndex := 2 |}).
  pose (s := mkSt "" []
               {| AffectionPlan.plots := [plot]; AffectionPlan.results := [];
                  AffectionPlan.config := AffectionPlan.defaultDariAffectionPlanConfig |}).
  pose (s0 := fst (AffectionPlan.search_plot pg plot s)).
  pose (s1 := fst (AffectionPlan.open_application pg plot s0)).
  destruct extraction_fallback_is_read_once as [Haffection Hsite].
  split.
  - destruct (Haffection string pg plot s s0 s1
                {| pageTitle := "Payment"; hasApplicationId := false; pc_applicationId := None;
                   hasPaymentSection := true; paymentOptions := ["DARI wallet"];
                   hasDownloadButton := false; pageType := "payment page" |}
                (world s1) (Some "Select the property to continue")
                ltac:(vm_compute; reflexivity) ltac:(vm_compute; reflexivity)
                ltac:(vm_compute; reflexivity) ltac:(vm_compute; reflexivity)
                ltac:(vm_compute; reflexivity)) as [Hrun Hpays].
    unfold Scripted.affection_plan_run, AffectionPlan.process_plots.
    unfold bind at 1. unfold get_this at 1.
    cbn [this AffectionPlan.plots List.map fst List.length AffectionPlan.plots_loop].
    unfold bind at 1. unfold try_catch.
    change (AffectionPlan.searchAndFilterPlot _ _ _)
      with (AffectionPlan.searchAndFilterPlot pg plot s).
    rewrite Hrun. cbv zeta in Hpays.
    split; [reflexivity | split; [| vm_compute; reflexivity]].
    exact Hpays.
  - exact (Hsite string pg {| SitePlan.plotNumber := "A-1"; SitePlan.rowIndex := 2 |} 0%nat
             (mkSt "" []
                (SitePlan.new_agent Scripted.live_config Ledger.Missing true
                   (Scripted.sheet_of ["A-1"])))
             "" "" None
             (Some "You don't own any property and will not be able to proceed")
             ltac:(vm_compute; reflexivity) ltac:(vm_compute; reflexivity)
             ltac:(vm_compute; reflexivity) ltac:(vm_compute; reflexivity)).
Defined.

(** C5 (counterexample).  One run of the site-plan agent in live mode on
    a plot whose page gives no identifier to the AI extraction nor in its
    text: the plot is paid for all the same, and nothing is written to the
    history. *)
Lemma site_plan_pays_without_identifier :
  let run := Scripted.site_plan_run [("A-1", Scripted.no_identifier "500" "100" true)]
               Ledger.Missing in
  snd run = Ok tt
  /\ SitePlan.pays (fst run) = 1%nat
  /\ List.map SitePlan.applicationId (SitePlan.heap (this (fst run))) = [None]
  /\ List.map SitePlan.paid (SitePlan.heap (this (fst run))) = [true]
  /\ List.map SitePlan.error (SitePlan.heap (this (fst run))) = [None]
  /\ Ledger.file (SitePlan.store (this (fst run))) = Ledger.Json [].
Proof. vm_compute. repeat split; reflexivity. Qed.

(** The class [\s] of the patterns and [trim] know the white space
    beyond ASCII: an identifier behind a no-break space (U+00A0, the bytes
    C2 A0) is found by the first pattern, and an extraction padded with
    one is trimmed before its length is tested. *)
Example identifier_behind_no_break_space :
  SitePlan.id_from_text (Some ("Application ID:" ++ bytes [194; 160] ++ "APP-778899")%string)
  = Some "APP-778899"
  /\ SitePlan.id_from_text (Some ("Application" ++ bytes [194; 160] ++ "ID APP-778899")%string)
     = Some "APP-778899"
  /\ SitePlan.usable_id (Some (bytes [194; 160] ++ "AB-12" ++ bytes [194; 160])%string) = None
  /\ SitePlan.usable_id (Some (bytes [194; 160] ++ "AB-123" ++ bytes [194; 160])%string)
     = Some "AB-123".
Proof. vm_compute. repeat split; reflexivity. Qed.

End ExtractionProofs.

(** ** The login *)

Module LoginProofs.
Import Js Exec ExecProofs SitePlan.
Local Open Scope agent_scope.

Section Approval.
Variable W : Type.
Variable page : Page W.

Lemma url_checks_app (a b : list Event) : url_checks (a ++ b) = (url_checks a + url_checks b)%nat.
Proof. unfold url_checks. rewrite List.filter_app, List.length_app. reflexivity. Qed.

Lemma url_checks_none (waits : list Event) :
  Forall (fun e => is_url_check e = false) waits -> url_checks waits = 0%nat.
Proof.
  unfold url_checks. induction 1 as [|e l He _ IH]; [reflexivity |].
  cbn [List.filter]. rewrite He. exact IH.
Qed.

(** [intelligentWaitUntilPageReady] always returns; it returns [true]
    right after an observation that found something, and it makes no URL
    check. *)
Lemma waitUntilPageReady_loop_outcome (expectedElements : string) (maxAttempts : Z)
      (remaining : nat) :
  forall (attempt : Z) (s : St W Agent),
  exists s' pageReady waits,
    waitUntilPageReady_loop page expectedElements maxAttempts remaining attempt s
    = (s', Ok pageReady)
    /\ Forall (fun e => is_url_check e = false) waits
    /\ (if pageReady
        then exists found,
               found <> []
               /\ journal s' = journal s ++ waits ++ [EObserve expectedElements (inr found)]
        else journal s' = journal s ++ waits).
Proof.
  induction remaining as [|n IH]; intros attempt s.
  - exists s, false, []. cbn [waitUntilPageReady_loop]. split; [reflexivity |].
    split; [constructor | rewrite List.app_nil_r; reflexivity].
  - cbn [waitUntilPageReady_loop]. unfold bind at 1. unfold try_catch.
    unfold bind at 1. unfold page_observe.
    destruct (observe page expectedElements (world s)) as [w [e | found]] eqn:Hobs;
      cbn [of_sum].
    + unfold ret at 1.
      set (s1 := note w (EObserve expectedElements (inl e)) s).
      destruct (attempt <? maxAttempts).
      * unfold bind at 1. unfold sleep_ at 1.
        destruct (IH (attempt + 1) (sleep_st page 3000 s1)) as (s' & b & waits & Hrun & Hw & Hj).
        exists s', b, (EObserve expectedElements (inl e) :: ESleep 3000 :: waits).
        split; [exact Hrun |]. split; [repeat constructor; exact Hw |].
        destruct b.
        -- destruct Hj as (found & Hne & Hj). exists found. split; [exact Hne |].
           rewrite Hj. unfold sleep_st, s1, note. cbn [journal].
           rewrite <- !List.app_assoc. reflexivity.
        -- rewrite Hj. unfold sleep_st, s1, note. cbn [journal].
           rewrite <- !List.app_assoc. reflexivity.
      * unfold bind at 1. unfold ret at 1.
        destruct (IH (attempt + 1) s1) as (s' & b & waits & Hrun & Hw & Hj).
        exists s', b, (EObserve expectedElements (inl e) :: waits).
        split; [exact Hrun |]. split; [repeat constructor; exact Hw |].
        destruct b.
        -- destruct Hj as (found & Hne & Hj). exists found. split; [exact Hne |].
           rewrite Hj. unfold s1, note. cbn [journal].
           rewrite <- !List.app_assoc. reflexivity.
        -- rewrite Hj. unfold s1, note. cbn [journal].
           rewrite <- !List.app_assoc. reflexivity.
    + unfold ret at 1.
      set (s1 := note w (EObserve expectedElements (inr found)) s).
      destruct found as [|x found'].
      * cbn [List.length Nat.ltb Nat.leb].
        destruct (attempt <? maxAttempts).
        -- unfold bind at 1. unfold sleep_ at 1.
           destruct (IH (attempt + 1) (sleep_st page 3000 s1))
             as (s' & b & waits & Hrun & Hw & Hj).
           exists s', b, (EObserve expectedElements (inr []) :: ESleep 3000 :: waits).
           split; [exact Hrun |]. split; [repeat constructor; exact Hw |].
           destruct b.
           ++ destruct Hj as (found & Hne & Hj). exists found. split; [exact Hne |].
              rewrite Hj. unfold sleep_st, s1, note. cbn [journal].
              rewrite <- !List.app_assoc. reflexivity.
           ++ rewrite Hj. unfold sleep_st, s1, note. cbn [journal].
              rewrite <- !List.app_assoc. reflexivity.
        -- unfold bind at 1. unfold ret at 1.
           destruct (IH (attempt + 1) s1) as (s' & b & waits & Hrun & Hw & Hj).
           exists s', b, (EObserve expectedElements (inr []) :: waits).
           split; [exact Hrun |]. split; [repeat constructor; exact Hw |].
           destruct b.
           ++ destruct Hj as (found & Hne & Hj). exists found. split; [exact Hne |].
              rewrite Hj. unfold s1, note. cbn [journal].
              rewrite <- !List.app_assoc. reflexivity.
           ++ rewrite Hj. unfold s1, note. cbn [journal].
              rewrite <- !List.app_assoc. reflexivity.
      * cbn [List.length Nat.ltb Nat.leb].
        exists s1, true, []. split; [reflexivity |]. split; [constructor |].
        exists (x :: found'). split; [discriminate | reflexivity].
Qed.

Lemma confirmed_login_after (earlier added : list Event) :
  confirmed_login added -> confirmed_login (earlier ++ added).
Proof.
  intros (before & u & waits & found & Hadded & Hu & Hfound & Hwaits).
  exists (earlier ++ before), u, waits, found. rewrite Hadded, <- List.app_assoc.
  repeat split; assumption.
Qed.

(** The approval loop always ends, after at most as many URL checks as it
    has attempts; it ends with [loginSuccessful] only on a confirmed login,
    and without it only when every attempt has been used. *)
Lemma approval_loop_outcome (remaining : nat) :
  forall s : St W Agent,
  exists s' loginSuccessful added,
    approval_loop page remaining s = (s', Ok loginSuccessful)
    /\ journal s' = journal s ++ added
    /\ (if loginSuccessful
        then confirmed_login added /\ (url_checks added <= remaining)%nat
        else url_checks added = remaining).
Proof.
  induction remaining as [|n IH]; intro s.
  - exists s, false, []. cbn [approval_loop]. split; [reflexivity |].
    split; [rewrite List.app_nil_r; reflexivity | reflexivity].
  - cbn [approval_loop]. unfold bind at 1. unfold sleep_ at 1.
    unfold bind at 1. unfold page_url at 1.
    set (s1 := sleep_st page CHECK_INTERVAL_MS s).
    set (u := url page (world s1)).
    set (s2 := note (world s1) (EUrl u) s1).
    assert (Hj2 : journal s2 = journal s ++ [ESleep CHECK_INTERVAL_MS; EUrl u]).
    { unfold s2, s1, sleep_st, note. cbn [journal]. rewrite <- List.app_assoc. reflexivity. }
    destruct (url_left_auth u) eqn:Hu.
    + unfold bind at 1. unfold intelligentWaitUntilPageReady.
      destruct (waitUntilPageReady_loop_outcome logged_in_indicators (60 / 3)
                  (Z.to_nat (60 / 3)) 1 s2) as (s3 & ready & waits & Hrun & Hw & Hj).
      rewrite Hrun. destruct ready.
      * destruct Hj as (found & Hne & Hj).
        exists s3, true,
          ([ESleep CHECK_INTERVAL_MS] ++ EUrl u :: waits
             ++ [EObserve logged_in_indicators (inr found)]).
        split; [reflexivity |]. split; [| split].
        -- rewrite Hj, Hj2, <- !List.app_assoc. reflexivity.
        -- exists [ESleep CHECK_INTERVAL_MS], u, waits, found. repeat split; assumption.
        -- rewrite url_checks_app. cbn [url_checks List.filter is_url_check List.length].
           fold (url_checks (waits ++ [EObserve logged_in_indicators (inr found)])).
           rewrite url_checks_app, (url_checks_none Hw). cbn. lia.
      * destruct (IH s3) as (s' & b & added & Hloop & Hja & Hb).
        exists s', b, ([ESleep CHECK_INTERVAL_MS; EUrl u] ++ waits ++ added).
        split; [exact Hloop |]. split.
        -- rewrite Hja, Hj, Hj2, <- !List.app_assoc. reflexivity.
        -- assert (Hc : url_checks ([ESleep CHECK_INTERVAL_MS; EUrl u] ++ waits ++ added)
                        = S (url_checks added)).
           { rewrite !url_checks_app, (url_checks_none Hw). reflexivity. }
           rewrite Hc. destruct b.
           ++ destruct Hb as [Hconf Hle]. split; [| lia].
              rewrite List.app_assoc. apply confirmed_login_after. exact Hconf.
           ++ rewrite Hb. reflexivity.
    + destruct (IH s2) as (s' & b & added & Hloop & Hja & Hb).
      exists s', b, ([ESleep CHECK_INTERVAL_MS; EUrl u] ++ added).
      split; [exact Hloop |]. split.
      * rewrite Hja, Hj2, <- !List.app_assoc. reflexivity.
      * assert (Hc : url_checks ([ESleep CHECK_INTERVAL_MS; EUrl u] ++ added)
                     = S (url_checks added)).
        { rewrite url_checks_app. reflexivity. }
        rewrite Hc. destruct b.
        -- destruct Hb as [Hconf Hle]. split; [| lia].
           apply confirmed_login_after. exact Hconf.
        -- rewrite Hb. reflexivity.
Qed.

(** The wait for the approval leaves the fields of the agent alone. *)
Lemma waitUntilPageReady_loop_this (expectedElements : string) (maxAttempts : Z)
      (remaining : nat) :
  forall attempt,
    Keeps (@this W Agent)
      (waitUntilPageReady_loop page expectedElements maxAttempts remaining attempt).
Proof.
  induction remaining as [|n IH]; intro attempt; cbn [waitUntilPageReady_loop]; unfold Keeps;
    respects_with page (same (@this W Agent)) (fun _ : Event => true)
      (same_refl (@this W Agent)) (@same_trans _ _ _ (@this W Agent))
      (fun w e (s : St W Agent) (_ : (fun _ : Event => true) e = true) =>
         eq_refl : same (@this W Agent) s (note w e s))
      ltac:(first [ harmless_leaf | apply IH ]).
Qed.

Lemma approval_loop_this (remaining : nat) :
  Keeps (@this W Agent) (approval_loop page remaining).
Proof.
  induction remaining as [|n IH]; cbn [approval_loop];
    unfold Keeps, intelligentWaitUntilPageReady;
    respects_with page (same (@this W Agent)) (fun _ : Event => true)
      (same_refl (@this W Agent)) (@same_trans _ _ _ (@this W Agent))
      (fun w e (s : St W Agent) (_ : (fun _ : Event => true) e = true) =>
         eq_refl : same (@this W Agent) s (note w e s))
      ltac:(first [ harmless_leaf | apply waitUntilPageReady_loop_this | exact IH ]).
Qed.

(** C9.  Once the steps before it have been taken, the wait for the
    approval ends in one of two ways.  Either the login is declared
    successful, and then the loop has checked a URL free of the markers
    login, auth and uaepass and, with no further URL check in between, has
    ended on an observation that found logged-in indicators.  Or all 60
    attempts have been used without both: the wait throws the timeout
    error, [executeWorkflow] throws it on from that very state, and the
    agent holds what it held before the wait: no plot has been processed. *)
Theorem login_needs_clean_url_and_indicators (fuel : nat) (s s1 : St W Agent) :
  steps_before_approval page s = (s1, Ok tt) ->
  exists s2 added,
    journal s2 = journal s1 ++ added
    /\ ((waitForUAEPassApproval page s1 = (sleep_st page 2000 s2, Ok tt)
         /\ confirmed_login added
         /\ (url_checks added <= 60)%nat)
        \/ (waitForUAEPassApproval page s1 = (s2, Throw login_timeout)
            /\ url_checks added = 60%nat
            /\ executeWorkflow page fuel s = (s2, Throw login_timeout)
            /\ this s2 = this s1)).
Proof.
  intro Hbefore.
  destruct (approval_loop_outcome (Z.to_nat MAX_WAIT_ATTEMPTS) s1)
    as (s2 & b & added & Hloop & Hj & Hb).
  exists s2, added. split; [exact Hj |].
  assert (Hwait : waitForUAEPassApproval page s1
                  = if b then (sleep_st page 2000 s2, Ok tt) else (s2, Throw login_timeout)).
  { unfold waitForUAEPassApproval. unfold bind. rewrite Hloop. destruct b; reflexivity. }
  destruct b.
  - left. destruct Hb as [Hconf Hle]. split; [exact Hwait |]. split; [exact Hconf |].
    exact Hle.
  - right. split; [exact Hwait |]. split; [exact Hb |]. split.
    + unfold executeWorkflow, try_catch, steps_through_login.
      unfold bind at 1. unfold bind at 1. rewrite Hbefore, Hwait. reflexivity.
    + pose proof (approval_loop_this (Z.to_nat MAX_WAIT_ATTEMPTS) s1) as Hthis.
      rewrite Hloop in Hthis. exact Hthis.
Qed.

End Approval.

Lemma login_needs_clean_url_and_indicators_witness :
  let pg := Scripted.at_url "https://stg-id.uaepass.ae/idshub/authorize"
              (Scripted.page [] Scripted.not_owned) in
  let s := mkSt "" []
             (new_agent Scripted.live_config Ledger.Missing true (Scripted.sheet_of ["A-1"])) in
  let s1 := fst (steps_before_approval pg s) in
  steps_before_approval pg s = (s1, Ok tt)
  /\ exists s2 added,
       journal s2 = journal s1 ++ added
       /\ ((waitForUAEPassApproval pg s1 = (sleep_st pg 2000 s2, Ok tt)
            /\ confirmed_login added
            /\ (url_checks added <= 60)%nat)
           \/ (waitForUAEPassApproval pg s1 = (s2, Throw login_timeout)
               /\ url_checks added = 60%nat
               /\ executeWorkflow pg 5 s = (s2, Throw login_timeout)
               /\ this s2 = this s1)).
Proof.
  cbv zeta. split; [vm_compute; reflexivity |].
  apply (@login_needs_clean_url_and_indicators string
           (Scripted.at_url "https://stg-id.uaepass.ae/idshub/authorize"
              (Scripted.page [] Scripted.not_owned))
           5
           (mkSt "" []
              (new_agent Scripted.live_config Ledger.Missing true (Scripted.sheet_of ["A-1"])))).
  vm_compute. reflexivity.
Defined.

(** A login that is never approved: the browser stays on the UAE Pass
    page, the run ends with the timeout error, and no plot number has been
    typed. *)
Example login_never_approved :
  let pg := Scripted.at_url "https://stg-id.uaepass.ae/idshub/authorize"
              (Scripted.page [("A-1", Scripted.smooth "500" "100")] Scripted.not_owned) in
  let run := executeWorkflow pg 5
               (mkSt "" []
                  (new_agent Scripted.live_config Ledger.Missing true
                     (Scripted.sheet_of ["A-1"]))) in
  snd run = Throw login_timeout
  /\ sitePlans (this (fst run)) = []
  /\ heap (this (fst run)) = []
  /\ pays (fst run) = 0%nat
  /\ url_checks (journal (fst run)) = 60%nat.
Proof. vm_compute. repeat split; reflexivity. Qed.

(** A URL off the login pages is not enough: with no logged-in indicator
    to be observed the run ends with the timeout error as well. *)
Example clean_url_alone_is_no_login :
  let pg := Scripted.without_indicators
              (Scripted.page [("A-1", Scripted.smooth "500" "100")] Scripted.not_owned) in
  let run := executeWorkflow pg 5
               (mkSt "" []
                  (new_agent Scripted.live_config Ledger.Missing true
                     (Scripted.sheet_of ["A-1"]))) in
  url_left_auth (url pg "") = true
  /\ snd run = Throw login_timeout
  /\ sitePlans (this (fst run)) = []
  /\ pays (fst run) = 0%nat.
Proof. vm_compute. repeat split; reflexivity. Qed.

End LoginProofs.

(** ** The wait for the certificate *)

Module DownloadProofs.
Import Js Exec ExecProofs SitePlan.
Local Open Scope agent_scope.

Section Poll.
Variable W : Type.
Variable page : Page W.

(** *** What the download never writes *)

Lemma map_update_nth (V : Type) (g : SitePlanRecord -> V)
      (f : SitePlanRecord -> SitePlanRecord) (n : nat) (l : list SitePlanRecord) :
  (forall r, g (f r) = g r) -> List.map g (update_nth n f l) = List.map g l.
Proof.
  intro Hg. revert n. induction l as [|x l IH]; intro n; [destruct n; reflexivity |].
  destruct n as [|n]; cbn [update_nth List.map]; [rewrite Hg | rewrite IH]; reflexivity.
Qed.










(** *** The download always returns *)

Lemma update_converges (record : nat) (f : SitePlanRecord -> SitePlanRecord) :
  Converges (update (W:=W) record f).
Proof. unfold update. converges fail. Qed.




(** *** The observations of the loop *)














End Poll.

End DownloadProofs.

(** ** Counting along the structure of the code *)

Module BoundsProofs.
Import Js Exec ExecProofs Bounds.
Local Open Scope agent_scope.

Section AtMost.
Variables W A : Type.
Variable page : Page W.
Variable count : St W A -> nat.

Lemma AtMost_keeps (X : Type) (m : M W A X) (n : nat) :
  Keeps count m -> AtMost count n m.
Proof. intros Hm s. specialize (Hm s). unfold same in Hm. lia. Qed.

Lemma AtMost_bind_l (X Y : Type) (m : M W A X) (k : X -> M W A Y) (n : nat) :
  Keeps count m -> (forall x, AtMost count n (k x)) -> AtMost count n (bind m k).
Proof.
  intros Hm Hk s. specialize (Hm s). unfold same in Hm. unfold bind.
  destruct (m s) as [s1 [x | e |]]; cbn [fst] in *; try lia.
  specialize (Hk x s1). lia.
Qed.

Lemma AtMost_bind_r (X Y : Type) (m : M W A X) (k : X -> M W A Y) (n : nat) :
  AtMost count n m -> (forall x, Keeps count (k x)) -> AtMost count n (bind m k).
Proof.
  intros Hm Hk s. specialize (Hm s). unfold bind.
  destruct (m s) as [s1 [x | e |]]; cbn [fst] in *; try lia.
  specialize (Hk x s1). unfold same in Hk. lia.
Qed.

Lemma AtMost_and_then (m : M W A bool) (k : M W A unit) (n : nat) :
  Keeps count m -> AtMost count n k -> AtMost count n (and_then m k).
Proof.
  intros Hm Hk. unfold and_then. apply AtMost_bind_l; [exact Hm |].
  intros [|]; [exact Hk |]. intro s. unfold ret. cbn [fst]. lia.
Qed.

Lemma AtMost_try_catch (X : Type) (m : M W A X) (h : Value -> M W A X) (n : nat) :
  AtMost count n m -> (forall e, Keeps count (h e)) -> AtMost count n (try_catch m h).
Proof.
  intros Hm Hh s. specialize (Hm s). unfold try_catch.
  destruct (m s) as [s1 [x | e |]]; cbn [fst] in *; try lia.
  specialize (Hh e s1). unfold same in Hh. lia.
Qed.

Lemma AtMost_bind (X Y : Type) (m : M W A X) (k : X -> M W A Y) (n1 n2 : nat) :
  AtMost count n1 m -> (forall x, AtMost count n2 (k x)) ->
  AtMost count (n1 + n2) (bind m k).
Proof.
  intros Hm Hk s. specialize (Hm s). unfold bind.
  destruct (m s) as [s1 [x | e |]]; cbn [fst] in *; try lia.
  specialize (Hk x s1). lia.
Qed.

Lemma AtMost_then_keeps (m : M W A bool) (k : M W A unit) (n : nat) :
  AtMost count n m -> Keeps count k -> AtMost count n (and_then m k).
Proof.
  intros Hm Hk. unfold and_then. apply AtMost_bind_r; [exact Hm |].
  intros [|]; [exact Hk |]. intro s. reflexivity.
Qed.

Lemma AtMost_more (X : Type) (m : M W A X) (n1 n2 : nat) :
  (n1 <= n2)%nat -> AtMost count n1 m -> AtMost count n2 m.
Proof. intros Hle Hm s. specialize (Hm s). lia. Qed.

(** [retry] runs [fn] at most as often as it has attempts. *)
Lemma AtMost_retry_loop (X : Type) (fn : M W A X) (max delay mult : Z) (remaining : nat) :
  AtMost count 1 fn ->
  (forall ms s, count (sleep_st page ms s) = count s) ->
  forall attempt lastError s,
    (count (fst (Retry.retry_loop (sleep_st page) fn max delay mult
                   (Some (fun _ _ s => s)) remaining attempt lastError s))
     <= count s + remaining)%nat.
Proof.
  intros Hfn Hsleep. induction remaining as [|n IH]; intros attempt lastError s; simpl.
  - lia.
  - specialize (Hfn s). destruct (fn s) as [s1 [x | e |]]; cbn [fst] in *; try lia.
    destruct (attempt =? max); cbn [fst]; [lia |].
    match goal with
    | |- (count (fst (Retry.retry_loop _ _ _ _ _ _ _ ?a ?l ?st)) <= _)%nat =>
        specialize (IH a l st); rewrite Hsleep in IH
    end.
    lia.
Qed.

Lemma AtMost_retry (X : Type) (fn : M W A X) (attempts delay : Z) :
  AtMost count 1 fn ->
  (forall ms s, count (sleep_st page ms s) = count s) ->
  AtMost count (Z.to_nat attempts) (retry_ page fn attempts delay).
Proof.
  intros Hfn Hsleep s. unfold retry_, Retry.retry. simpl.
  apply AtMost_retry_loop; assumption.
Qed.

(** [retry] returns what the last call of [fn] returned. *)
Lemma retry_loop_returned (X : Type) (fn : M W A X)
      (Rel : St W A -> St W A -> Prop) (max delay mult : Z) (remaining : nat) :
  (forall s, Rel s s) -> (forall s1 s2 s3, Rel s1 s2 -> Rel s2 s3 -> Rel s1 s3) ->
  Respects Rel fn -> (forall ms s, Rel s (sleep_st page ms s)) ->
  forall attempt lastError s s' x,
    Retry.retry_loop (sleep_st page) fn max delay mult (Some (fun _ _ s => s))
      remaining attempt lastError s = (s', Ok x) ->
    exists s1, Rel s s1 /\ fn s1 = (s', Ok x).
Proof.
  intros Hrefl Htrans Hfn Hsleep.
  induction remaining as [|n IH]; intros attempt lastError s s' x; simpl; [discriminate |].
  pose proof (Hfn s) as Hstep.
  destruct (fn s) as [s1 [v | e |]] eqn:Hrun; cbn [fst] in Hstep.
  - intro H. injection H as <- <-. exists s. split; [apply Hrefl | exact Hrun].
  - destruct (attempt =? max); [discriminate |].
    intro H. apply IH in H. destruct H as (s2 & Hrel & Hlast).
    exists s2. split; [| exact Hlast].
    eapply Htrans; [exact Hstep |]. eapply Htrans; [apply Hsleep | exact Hrel].
  - discriminate.
Qed.

Lemma retry_returned (X : Type) (fn : M W A X)
      (Rel : St W A -> St W A -> Prop) (attempts delay : Z) :
  (forall s, Rel s s) -> (forall s1 s2 s3, Rel s1 s2 -> Rel s2 s3 -> Rel s1 s3) ->
  Respects Rel fn -> (forall ms s, Rel s (sleep_st page ms s)) ->
  forall s s' x,
    retry_ page fn attempts delay s = (s', Ok x) ->
    exists s1, Rel s s1 /\ fn s1 = (s', Ok x).
Proof.
  intros Hrefl Htrans Hfn Hsleep s s' x. unfold retry_, Retry.retry. simpl.
  apply retry_loop_returned; assumption.
Qed.

End AtMost.

End BoundsProofs.

Module WorkflowProofs.
Import Js Exec ExecProofs Bounds SitePlan SitePlanRun.
Local Open Scope agent_scope.

(** [searchAndProcessPlot] by its [try] block, from the state with the
    record created. *)
Lemma searchAndProcessPlot_step (W : Type) (page : Page W) (fuel : nat) (plot : PlotData)
      (s : St W Agent) :
  searchAndProcessPlot page (S fuel) plot s
  = try_catch
      (plot_attempt page (searchAndProcessPlot page fuel plot) fuel plot
         (List.length (heap (this s))))
      (fun e => update (List.length (heap (this s))) (set_error (Some (messageOf e))) ;;
                ret (List.length (heap (this s))))
      (mkSt (world s) (journal s)
            (with_heap (heap (this s) ++ [new_record plot None]) (this s))).
Proof. reflexivity. Qed.

(** Every method of the site-plan agent, taken along its structure for a
    relation between the state before and the state after that is kept by
    the journal entries other than the payment click and by the four ways
    the methods write to the agent. *)
Section Workflow.
Variable W : Type.
Variable page : Page W.
Variable R : St W Agent -> St W Agent -> Prop.
Variable harmless : Event -> bool.
Hypothesis R_refl : forall s, R s s.
Hypothesis R_trans : forall s1 s2 s3, R s1 s2 -> R s2 s3 -> R s1 s3.
Hypothesis R_note : forall w e s, harmless e = true -> R s (note w e s).
Hypothesis harmless_no_pay : forall e, no_pay e = true -> harmless e = true.
Hypothesis R_update :
  forall record f (s : St W Agent),
    (forall r, sp_plotNumber (f r) = sp_plotNumber r /\ sp_rowIndex (f r) = sp_rowIndex r
               /\ paid (f r) = paid r) ->
    R s (mkSt (world s) (journal s) (with_heap (update_nth record f (heap (this s))) (this s))).
Hypothesis R_mark :
  forall record f (s : St W Agent),
    (forall r, sp_plotNumber (f r) = sp_plotNumber r /\ sp_rowIndex (f r) = sp_rowIndex r) ->
    R s (mkSt (world s) (journal s) (with_heap (update_nth record f (heap (this s))) (this s))).
Hypothesis R_alloc :
  forall plot err (s : St W Agent),
    R s (mkSt (world s) (journal s)
           (with_heap (heap (this s) ++ [new_record plot err]) (this s))).
Hypothesis R_store :
  forall (c : LedgerRun.Call) (s : St W Agent),
    (c = LedgerRun.CallLoad -> prePayCheckEnabled (this s) = true) ->
    R s (mkSt (world s) (journal s)
           (with_store (LedgerRun.call c (store (this s))) (this s))).
Hypothesis R_plots :
  forall l (s : St W Agent), R s (mkSt (world s) (journal s) (with_plots l (this s))).

Local Abbreviation Respects := (Exec.Respects R).

Lemma update_respects (record : nat) (f : SitePlanRecord -> SitePlanRecord) :
  (forall r, sp_plotNumber (f r) = sp_plotNumber r /\ sp_rowIndex (f r) = sp_rowIndex r
             /\ paid (f r) = paid r) ->
  Respects (update (W:=W) record f).
Proof. intros Hf s. apply R_update. exact Hf. Qed.

(** The two updates that mark a record as paid (lines 989 and 1525). *)
Lemma mark_respects (record : nat) (f : SitePlanRecord -> SitePlanRecord) :
  (forall r, sp_plotNumber (f r) = sp_plotNumber r /\ sp_rowIndex (f r) = sp_rowIndex r) ->
  Respects (update (W:=W) record f).
Proof. intros Hf s. apply R_mark. exact Hf. Qed.

Lemma alloc_respects (plot : PlotData) (err : option string) :
  Respects (alloc (W:=W) (new_record plot err)).
Proof. intro s. apply R_alloc. Qed.

Lemma read_respects (record : nat) : Respects (read (W:=W) record).
Proof. intro s. apply R_refl. Qed.

(** The history is loaded under [if (this.prePayCheckEnabled)] (line 2310). *)
Lemma guarded_load_respects :
  Respects (a <- get_this ;;
            if prePayCheckEnabled a then loadPersistedApplications (W:=W) else ret tt).
Proof.
  intro s. unfold bind, get_this.
  destruct (prePayCheckEnabled (this s)) eqn:Hon; [| apply R_refl].
  apply (@R_store LedgerRun.CallLoad). intros _. exact Hon.
Qed.

Lemma savePersistedApplications_respects : Respects (savePersistedApplications (W:=W)).
Proof. intro s. apply (@R_store LedgerRun.CallSave). discriminate. Qed.

Lemma addPersistedApplication_respects (plot appId : string) (dl : bool) :
  Respects (addPersistedApplication page plot appId dl).
Proof.
  intro s.
  apply (@R_store (LedgerRun.CallAdd (now page (world s)) (now page (world s)) plot appId dl)).
  discriminate.
Qed.

Lemma updatePersisted_respects (plot : string) (dl : bool) :
  Respects (updatePersistedApplicationDownloadStatus page plot dl).
Proof.
  intro s.
  apply (@R_store (LedgerRun.CallUpdate (now page (world s)) plot dl)). discriminate.
Qed.

Ltac setter_ok := solve [ apply update_respects; intro; repeat split; reflexivity ].

Ltac marker_ok := solve [ apply mark_respects; intro; split; reflexivity ].

Ltac known :=
  first [ solve [ intros; apply harmless_no_pay; reflexivity ]
        | setter_ok
        | apply alloc_respects
        | apply read_respects
        | apply savePersistedApplications_respects
        | apply addPersistedApplication_respects
        | apply updatePersisted_respects ].

Ltac along leaf :=
  respects_with page R harmless R_refl R_trans R_note ltac:(first [ known | leaf ]).

Lemma waitUntilPageReady_loop_respects (expectedElements : string) (maxAttempts : Z)
      (remaining : nat) :
  forall attempt,
    Respects (waitUntilPageReady_loop page expectedElements maxAttempts remaining attempt).
Proof.
  induction remaining as [|n IH]; intro attempt; cbn [waitUntilPageReady_loop];
    along ltac:(apply IH).
Qed.

Lemma intelligentWaitUntilPageReady_respects (expectedElements : string) (maxWaitSeconds : Z) :
  Respects (intelligentWaitUntilPageReady page expectedElements maxWaitSeconds).
Proof. unfold intelligentWaitUntilPageReady. apply waitUntilPageReady_loop_respects. Qed.

Lemma loadPlotNumbers_respects : Respects (loadPlotNumbers (W:=W)).
Proof.
  unfold loadPlotNumbers. along ltac:(intro s; apply R_plots).
Qed.

Lemma approval_loop_respects (remaining : nat) : Respects (approval_loop page remaining).
Proof.
  induction remaining as [|n IH]; cbn [approval_loop];
    along ltac:(first [ apply intelligentWaitUntilPageReady_respects | exact IH ]).
Qed.

Lemma steps_through_login_respects : Respects (steps_through_login page).
Proof.
  unfold steps_through_login, steps_before_approval.
  apply (@Respects_bind _ _ R R_trans); [| intros _].
  - apply (@Respects_bind _ _ R R_trans); [unfold initialize; along fail | intros _].
    apply (@Respects_bind _ _ R R_trans); [apply guarded_load_respects | intros _].
    unfold navigateToDari, clickLoginButton, clickUAEPassLogin,
      enterMobileAndEnableRememberMe.
    along ltac:(first [ apply intelligentWaitUntilPageReady_respects
                      | apply loadPlotNumbers_respects ]).
  - unfold waitForUAEPassApproval.
    along ltac:(first [ apply intelligentWaitUntilPageReady_respects
                      | apply approval_loop_respects ]).
Qed.

Lemma navigateToServicesMenu_respects : Respects (navigateToServicesMenu page).
Proof. unfold navigateToServicesMenu, acceptCookiesIfPresent. along fail. Qed.

Lemma selectSitePlanService_respects : Respects (selectSitePlanService page).
Proof. unfold selectSitePlanService. along fail. Qed.

Lemma switchAccount_respects : Respects (switchToAlJurfHospitalityAccount page).
Proof. unfold switchToAlJurfHospitalityAccount. along fail. Qed.

Lemma ensure_loop_respects (actions : list string) :
  Forall (fun a => String.eqb a pay_click = false) actions ->
  Respects (ensure_loop page actions).
Proof.
  induction 1 as [|a l Ha _ IH]; cbn [ensure_loop]; unfold getSelectedPaymentLabel.
  - along fail.
  - along ltac:(first [ solve [ intros; apply harmless_no_pay; unfold no_pay, is_act;
                                rewrite Ha; reflexivity ]
                      | exact IH ]).
Qed.

Lemma ensureDariWalletSelected_respects : Respects (ensureDariWalletSelected page).
Proof.
  unfold ensureDariWalletSelected, getSelectedPaymentLabel.
  along ltac:(apply ensure_loop_respects; repeat constructor).
Qed.

Lemma extractApplicationId_respects : Respects (extractApplicationId page).
Proof. unfold extractApplicationId. along fail. Qed.

Lemma extract_amount_respects (instruction : string) (pattern : Regex) :
  Respects (extract_amount page instruction pattern).
Proof. unfold extract_amount. along fail. Qed.

Lemma navigateToApplicationsPage_respects : Respects (navigateToApplicationsPage page).
Proof. unfold navigateToApplicationsPage, rethrow_as. along fail. Qed.

Lemma searchApplicationById_respects (applicationId : string) :
  Respects (searchApplicationById page applicationId).
Proof. unfold searchApplicationById, rethrow_as. along fail. Qed.

Lemma fallback_loop_respects (record remaining : nat) :
  Respects (fallback_loop page record remaining).
Proof.
  induction remaining as [|n IH]; cbn [fallback_loop]; along ltac:(exact IH).
Qed.

Lemma viewAndDownloadApplication_respects (record : nat) :
  Respects (viewAndDownloadApplication page record).
Proof.
  unfold viewAndDownloadApplication, rethrow_as. along ltac:(apply fallback_loop_respects).
Qed.

Lemma observation_loop_respects (record : nat) (startUrl : string) (remaining : nat) :
  Respects (observation_loop page record startUrl remaining).
Proof.
  induction remaining as [|n IH]; cbn [observation_loop];
    unfold observation_pass, after_observation; along ltac:(exact IH).
Qed.

Lemma downloadCertificate_respects (record : nat) : Respects (downloadCertificate page record).
Proof.
  unfold downloadCertificate. along ltac:(apply observation_loop_respects).
Qed.

Lemma smart_workflow_respects (plot : PlotData) (record : nat)
      (persisted : Ledger.PersistedApplicationData) :
  Respects (smart_workflow page plot record persisted).
Proof.
  unfold smart_workflow.
  along ltac:(first [ apply navigateToApplicationsPage_respects
                    | apply searchApplicationById_respects
                    | apply viewAndDownloadApplication_respects | marker_ok ]).
Qed.

(** The pre-payment check of [searchAndProcessPlot] (lines 981-1010), from
    the state it is made in. *)
Lemma ledger_check_respects (plot : PlotData) (record : nat) (s : St W Agent) :
  R s (fst ((if prePayCheckEnabled (this s)
             then match Ledger.Map_get (plotNumber plot)
                          (Ledger.persistedApplications (store (this s))) with
                  | Some persisted => smart_workflow page plot record persisted
                  | None => ret false
                  end
             else ret false) s)).
Proof.
  destruct (prePayCheckEnabled (this s)); [| apply R_refl].
  destruct (Ledger.Map_get (plotNumber plot) (Ledger.persistedApplications (store (this s))));
    [apply smart_workflow_respects | apply R_refl].
Qed.

Lemma enter_plot_number_respects (plot : PlotData) : Respects (enter_plot_number page plot).
Proof. unfold enter_plot_number. along fail. Qed.

Lemma observe_results_respects (record : nat) : Respects (observe_results page record).
Proof.
  unfold observe_results. along ltac:(apply intelligentWaitUntilPageReady_respects).
Qed.

Lemma select_and_proceed_respects : Respects (select_and_proceed page).
Proof. unfold select_and_proceed. along fail. Qed.

Lemma certificate_page_loop_respects (fuel : nat) : Respects (certificate_page_loop page fuel).
Proof.
  induction fuel as [|n IH]; cbn [certificate_page_loop]; along ltac:(exact IH).
Qed.

Lemma await_certificate_page_respects (fuel record : nat) :
  Respects (await_certificate_page page fuel record).
Proof.
  unfold await_certificate_page. along ltac:(apply certificate_page_loop_respects).
Qed.

Lemma identify_application_respects (plot : PlotData) (record : nat) :
  Respects (identify_application page plot record).
Proof.
  unfold identify_application. along ltac:(apply extractApplicationId_respects).
Qed.

Lemma select_wallet_respects (record : nat) : Respects (select_wallet page record).
Proof.
  unfold select_wallet. along ltac:(apply ensureDariWalletSelected_respects).
Qed.

Lemma recoverFromError_respects : Respects (recoverFromError page).
Proof.
  unfold recoverFromError. along ltac:(apply intelligentWaitUntilPageReady_respects).
Qed.

Lemma navigateBackToSitePlanService_respects : Respects (navigateBackToSitePlanService page).
Proof.
  unfold navigateBackToSitePlanService.
  along ltac:(first [ apply navigateToServicesMenu_respects
                    | apply selectSitePlanService_respects ]).
Qed.

Lemma recovery_loop_respects (records : list nat) :
  forall i total, Respects (recovery_loop page records i total).
Proof.
  induction records as [|record rest IH]; intros i total; cbn [recovery_loop];
    along ltac:(first [ apply navigateToApplicationsPage_respects
                      | apply searchApplicationById_respects
                      | apply viewAndDownloadApplication_respects
                      | apply recoverFromError_respects
                      | apply IH ]).
Qed.

Lemma processFailedDownloads_respects : Respects (processFailedDownloads page).
Proof.
  unfold processFailedDownloads. along ltac:(apply recovery_loop_respects).
Qed.

(** The payment itself, for a relation that the payment click keeps too. *)
Lemma validate_funds_and_pay_respects (record : nat) :
  (forall r, harmless (EAct pay_click r) = true) ->
  Respects (validate_funds_and_pay page record).
Proof.
  intro Hpay.
  unfold validate_funds_and_pay, pay_and_download, extractWalletBalance, extractPaymentAmount.
  along ltac:(first [ apply extract_amount_respects | apply downloadCertificate_respects
                    | exact Hpay | marker_ok ]).
Qed.

(** With the payment switched off the payment step does not get to the
    click. *)
Lemma validate_funds_and_pay_off (record : nat) (s : St W Agent) :
  payment_enabled (config (this s)) = false ->
  R s (fst (validate_funds_and_pay page record s)).
Proof.
  intro Hoff. unfold validate_funds_and_pay. unfold bind at 1. unfold get_this at 1.
  cbv beta iota. rewrite Hoff. cbn [negb].
  match goal with
  | |- R s (fst (?m s)) =>
      assert (Hm : Respects m)
        by (unfold extractWalletBalance, extractPaymentAmount;
            along ltac:(apply extract_amount_respects));
      exact (Hm s)
  end.
Qed.

(** From here on the payment step and the pre-payment check are taken as
    given. *)
Hypothesis validate_respects : forall record, Respects (validate_funds_and_pay page record).
Hypothesis check_respects :
  forall plot record (s : St W Agent),
    R s (fst ((if prePayCheckEnabled (this s)
               then match Ledger.Map_get (plotNumber plot)
                            (Ledger.persistedApplications (store (this s))) with
                    | Some persisted => smart_workflow page plot record persisted
                    | None => ret false
                    end
               else ret false) s)).

Lemma process_found_plot_respects (fuel : nat) (plot : PlotData) (record : nat) :
  Respects (process_found_plot page fuel plot record).
Proof.
  unfold process_found_plot.
  along ltac:(first [ apply observe_results_respects | apply select_and_proceed_respects
                    | apply await_certificate_page_respects
                    | apply identify_application_respects
                    | apply select_wallet_respects | apply validate_respects ]).
Qed.

Lemma plot_attempt_respects (again : M W Agent nat) (fuel' : nat) (plot : PlotData)
      (record : nat) :
  Respects again -> Respects (plot_attempt page again fuel' plot record).
Proof.
  intros Hagain s. unfold plot_attempt. unfold bind at 1. unfold get_this at 1.
  unfold bind at 1. pose proof (check_respects plot record s) as Hcheck.
  match type of Hcheck with
  | R s (fst (?m s)) => destruct (m s) as [s1 [downloaded | e |]]
  end; cbn [fst] in Hcheck; try exact Hcheck.
  eapply R_trans; [exact Hcheck |].
  match goal with
  | |- R s1 (fst (?k s1)) =>
      assert (Hrest : Respects k);
      [ along ltac:(first [ apply enter_plot_number_respects
                          | apply navigateToServicesMenu_respects
                          | apply selectSitePlanService_respects
                          | apply process_found_plot_respects | exact Hagain ])
      | exact (Hrest s1) ]
  end.
Qed.

(** A result of the [try] block is the record it was given, or the result
    of the call after a redirect. *)
Lemma plot_attempt_result (again : M W Agent nat) (fuel' : nat) (plot : PlotData)
      (record x : nat) (s1 s2 : St W Agent) :
  plot_attempt page again fuel' plot record s1 = (s2, Ok x) ->
  x = record \/ exists s, R s1 s /\ again s = (s2, Ok x).
Proof.
  unfold plot_attempt. intro H.
  apply bind_Ok_inv in H. destruct H as (s0 & a & Ha & H).
  unfold get_this in Ha. inversion Ha. subst s0 a. clear Ha.
  apply bind_Ok_inv in H. destruct H as (sa & downloaded & Hsmart & H).
  assert (Ra : R s1 sa).
  { pose proof (check_respects plot record s1) as Hr. rewrite Hsmart in Hr. exact Hr. }
  destruct downloaded; [left; inversion H; reflexivity |].
  apply bind_Ok_inv in H. destruct H as (sb & redirected & Henter & H).
  pose proof (enter_plot_number_respects plot sa) as Rb. rewrite Henter in Rb. cbn [fst] in Rb.
  destruct redirected.
  - right.
    apply bind_Ok_inv in H. destruct H as (sc & [] & Hnav & H).
    pose proof (navigateToServicesMenu_respects sb) as Rc. rewrite Hnav in Rc. cbn [fst] in Rc.
    apply bind_Ok_inv in H. destruct H as (sd & [] & Hsel & H).
    pose proof (selectSitePlanService_respects sc) as Rd. rewrite Hsel in Rd. cbn [fst] in Rd.
    apply bind_Ok_inv in H. destruct H as (se & [] & Hsleep & H).
    assert (Re : R sd se).
    { assert (Hr : Respects (sleep_ page (A:=Agent) 1500)) by along fail.
      specialize (Hr sd). rewrite Hsleep in Hr. exact Hr. }
    exists se. split; [| exact H].
    eapply R_trans; [exact Ra |]. eapply R_trans; [exact Rb |].
    eapply R_trans; [exact Rc |]. eapply R_trans; [exact Rd | exact Re].
  - left. apply bind_Ok_inv in H. destruct H as (sc & [] & _ & H). inversion H. reflexivity.
Qed.

Lemma searchAndProcessPlot_respects (fuel : nat) (plot : PlotData) :
  Respects (searchAndProcessPlot page fuel plot).
Proof.
  induction fuel as [|n IH]; [cbn [searchAndProcessPlot]; along fail |].
  intro s. rewrite searchAndProcessPlot_step.
  eapply R_trans; [apply (R_alloc plot None s) |].
  match goal with
  | |- R ?s1 (fst (?m ?s1)) =>
      assert (Hm : Respects m);
      [ along ltac:(first [ apply plot_attempt_respects; exact IH ]) | exact (Hm s1) ]
  end.
Qed.

(** And the entry of a record in [sitePlans]. *)
Hypothesis push_respects : forall record, Respects (push_sitePlan (W:=W) record).

Lemma plots_loop_respects (fuel : nat) (rest : list PlotData) :
  forall i total, Respects (plots_loop page fuel rest i total).
Proof.
  induction rest as [|plot rest IH]; intros i total; cbn [plots_loop];
    along ltac:(first [ apply searchAndProcessPlot_respects | apply push_respects
                      | apply recoverFromError_respects
                      | apply navigateBackToSitePlanService_respects | apply IH ]).
Qed.

Lemma executeWorkflow_respects (fuel : nat) : Respects (executeWorkflow page fuel).
Proof.
  unfold executeWorkflow, steps_after_login, processAllPlots.
  along ltac:(first [ apply steps_through_login_respects | apply switchAccount_respects
                    | apply navigateToServicesMenu_respects
                    | apply selectSitePlanService_respects
                    | apply plots_loop_respects | apply processFailedDownloads_respects ]).
Qed.

End Workflow.

(** *** With the payment switched off *)

Section PaymentOff.
Variable W : Type.
Variable page : Page W.

Lemma unpaid_refl (s : St W Agent) : unpaid_when_off s s.
Proof. split; reflexivity. Qed.

Lemma unpaid_trans (s1 s2 s3 : St W Agent) :
  unpaid_when_off s1 s2 -> unpaid_when_off s2 s3 -> unpaid_when_off s1 s3.
Proof.
  intros [Hc1 Hp1] [Hc2 Hp2]. split; [rewrite Hc2; exact Hc1 |].
  intro Hoff. rewrite Hp2, Hp1; [reflexivity | exact Hoff | rewrite Hc1; exact Hoff].
Qed.

Lemma unpaid_note (w : W) (e : Event) (s : St W Agent) :
  no_pay e = true -> unpaid_when_off s (note w e s).
Proof.
  intro H. split; [reflexivity | intros _]. apply (SitePlanProofs.pays_note w e s H).
Qed.

Lemma config_note (w : W) (e : Event) (s : St W Agent) :
  (fun _ : Event => true) e = true ->
  same (fun s : St W Agent => config (this s)) s (note w e s).
Proof. reflexivity. Qed.

(** No method writes to the configuration. *)
Lemma validate_funds_and_pay_config (record : nat) :
  Keeps (fun s : St W Agent => config (this s)) (validate_funds_and_pay page record).
Proof.
  apply (@validate_funds_and_pay_respects W page
           (same (fun s : St W Agent => config (this s))) (fun _ => true)
           (same_refl _) (@same_trans _ _ _ _) config_note);
    try reflexivity.
Qed.

Lemma validate_funds_and_pay_unpaid (record : nat) :
  Respects (@unpaid_when_off W) (validate_funds_and_pay page record).
Proof.
  intro s. destruct (payment_enabled (config (this s))) eqn:Hen.
  - split; [apply validate_funds_and_pay_config |].
    intro Hoff. rewrite Hen in Hoff. discriminate Hoff.
  - apply (@validate_funds_and_pay_off W page (@unpaid_when_off W) no_pay
             unpaid_refl unpaid_trans unpaid_note); try (intros; split; reflexivity).
    + intros e He. exact He.
    + exact Hen.
Qed.

(** With [payment.enabled] off in the configuration, as it is in the
    default configuration, a run of the agent never clicks Pay now,
    whatever the pages show. *)
Theorem payment_off_never_pays (fuel : nat) (s : St W Agent) :
  payment_enabled (config (this s)) = false ->
  pays (fst (executeWorkflow page fuel s)) = pays s.
Proof.
  intro Hoff.
  assert (H : Respects (@unpaid_when_off W) (executeWorkflow page fuel)).
  { apply (@executeWorkflow_respects W page (@unpaid_when_off W) no_pay
             unpaid_refl unpaid_trans unpaid_note); try (intros; split; reflexivity).
    - intros e He. exact He.
    - apply validate_funds_and_pay_unpaid.
    - intros plot record s0.
      apply (@ledger_check_respects W page (@unpaid_when_off W) no_pay
               unpaid_refl unpaid_trans unpaid_note); try (intros; split; reflexivity).
      intros e He. exact He. }
  exact (proj2 (H s) Hoff).
Qed.

End PaymentOff.

Lemma payment_off_never_pays_witness :
  let pg := Scripted.page [("A-1", Scripted.smooth "500" "100")] Scripted.not_owned in
  let s := mkSt "" []
             (new_agent defaultDariSitePlanConfig Ledger.Missing true
                (Scripted.sheet_of ["A-1"])) in
  payment_enabled (config (this s)) = false
  /\ pays (fst (executeWorkflow pg 5 s)) = 0%nat.
Proof.
  cbv zeta. split; [reflexivity |].
  exact (@payment_off_never_pays string
           (Scripted.page [("A-1", Scripted.smooth "500" "100")] Scripted.not_owned) 5
           (mkSt "" []
              (new_agent defaultDariSitePlanConfig Ledger.Missing true
                 (Scripted.sheet_of ["A-1"])))
           eq_refl).
Defined.

(** *** The records and the list of them *)

Section Records.
Variable W : Type.
Variable page : Page W.

Lemma extended_refl (s : St W Agent) : records_extended s s.
Proof. split; [exists []; rewrite List.app_nil_r |]; reflexivity. Qed.

Lemma extended_trans (s1 s2 s3 : St W Agent) :
  records_extended s1 s2 -> records_extended s2 s3 -> records_extended s1 s3.
Proof.
  intros [[a1 H1] L1] [[a2 H2] L2]. split; [| rewrite L2; exact L1].
  exists (a1 ++ a2). rewrite H2, H1, List.app_assoc. reflexivity.
Qed.

Lemma extended_note (w : W) (e : Event) (s : St W Agent) :
  (fun _ : Event => true) e = true -> records_extended s (note w e s).
Proof. intros _. split; [exists []; rewrite List.app_nil_r |]; reflexivity. Qed.

Lemma extended_update (record : nat) (f : SitePlanRecord -> SitePlanRecord)
      (s : St W Agent) :
  (forall r, sp_plotNumber (f r) = sp_plotNumber r /\ sp_rowIndex (f r) = sp_rowIndex r) ->
  records_extended s
    (mkSt (world s) (journal s) (with_heap (update_nth record f (heap (this s))) (this s))).
Proof.
  intro Hf. split; [| reflexivity]. exists []. cbn [this heap with_heap].
  rewrite List.app_nil_r. apply DownloadProofs.map_update_nth.
  intro r. unfold identity. destruct (Hf r) as [H1 H2]. rewrite H1, H2. reflexivity.
Qed.

Lemma extended_alloc (r : SitePlanRecord) (s : St W Agent) :
  records_extended s
    (mkSt (world s) (journal s) (with_heap (heap (this s) ++ [r]) (this s))).
Proof.
  split; [| reflexivity]. exists [identity r]. cbn [this heap with_heap].
  rewrite List.map_app. reflexivity.
Qed.

Ltac extended_step :=
  intros;
  first [ reflexivity
        | apply extended_update; assumption
        | apply extended_update; intro;
          match goal with
          | H : forall r, _ /\ _ /\ _ |- sp_plotNumber (_ ?r0) = _ /\ _ =>
              destruct (H r0) as (? & ? & _); split; assumption
          end
        | apply extended_alloc
        | solve [ split; [exists []; rewrite List.app_nil_r |]; reflexivity ] ].

(** The instances of the lemmas above for this relation; the payment
    step and the pre-payment check are included, the entry in
    [this.sitePlans] is not. *)
Lemma validate_funds_and_pay_extended (record : nat) :
  Respects (@records_extended W) (validate_funds_and_pay page record).
Proof.
  apply (@validate_funds_and_pay_respects W page (@records_extended W) (fun _ => true)
           extended_refl extended_trans extended_note);
    extended_step.
Qed.

Lemma ledger_check_extended (plot : PlotData) (record : nat) (s : St W Agent) :
  records_extended s
    (fst ((if prePayCheckEnabled (this s)
           then match Ledger.Map_get (plotNumber plot)
                        (Ledger.persistedApplications (store (this s))) with
                | Some persisted => smart_workflow page plot record persisted
                | None => ret false
                end
           else ret false) s)).
Proof.
  apply (@ledger_check_respects W page (@records_extended W) (fun _ => true)
           extended_refl extended_trans extended_note);
    extended_step.
Qed.

Ltac extended lemma :=
  apply (lemma W page (@records_extended W) (fun _ : Event => true)
           extended_refl extended_trans extended_note);
  try solve [ extended_step
            | intros; apply validate_funds_and_pay_extended
            | intros; apply ledger_check_extended ].

Lemma searchAndProcessPlot_extended (fuel : nat) (plot : PlotData) :
  Respects (@records_extended W) (searchAndProcessPlot page fuel plot).
Proof. extended searchAndProcessPlot_respects. Qed.

Lemma recoverFromError_extended : Respects (@records_extended W) (recoverFromError page).
Proof. extended recoverFromError_respects. Qed.

Lemma navigateBack_extended :
  Respects (@records_extended W) (navigateBackToSitePlanService page).
Proof. extended navigateBackToSitePlanService_respects. Qed.

Lemma processFailedDownloads_extended :
  Respects (@records_extended W) (processFailedDownloads page).
Proof. extended processFailedDownloads_respects. Qed.

Lemma extended_nth (s s' : St W Agent) (k : nat) :
  records_extended s s' ->
  (k < List.length (heap (this s)))%nat ->
  (k < List.length (heap (this s')))%nat
  /\ identity (deref (heap (this s')) k) = identity (deref (heap (this s)) k).
Proof.
  intros [[added H] _] Hk.
  assert (Hlen : List.length (heap (this s'))
                 = (List.length (heap (this s)) + List.length added)%nat).
  { rewrite <- (List.length_map identity (heap (this s'))), H, List.length_app,
      List.length_map. reflexivity. }
  split; [lia |]. unfold deref.
  rewrite <- !(List.map_nth identity), H.
  apply List.app_nth1. rewrite List.length_map. exact Hk.
Qed.

Lemma extended_length (s s' : St W Agent) :
  records_extended s s' ->
  (List.length (heap (this s)) <= List.length (heap (this s')))%nat.
Proof.
  intros [[added H] _].
  rewrite <- (List.length_map identity (heap (this s'))), H, List.length_app,
    List.length_map. lia.
Qed.

Lemma extended_listed (s s' : St W Agent) :
  records_extended s s' -> listed_exist (this s) ->
  listed_exist (this s') /\ listed (this s') = listed (this s).
Proof.
  intros Hext Hex. pose proof Hext as [_ Hlist].
  unfold listed_exist, listed in *. rewrite Hlist. split.
  - eapply List.Forall_impl; [| exact Hex]. intros k Hk. cbv beta in *.
    exact (proj1 (extended_nth Hext Hk)).
  - apply List.map_ext_Forall. eapply List.Forall_impl; [| exact Hex].
    intros k Hk. cbv beta in *. exact (proj2 (extended_nth Hext Hk)).
Qed.

(** The outcomes of [searchAndProcessPlot], by the outcome of its [try]
    block. *)
Lemma searchAndProcessPlot_outcome (fuel : nat) (plot : PlotData) :
  forall s : St W Agent,
    match searchAndProcessPlot page fuel plot s with
    | (s', Ok record) =>
        (List.length (heap (this s)) <= record < List.length (heap (this s')))%nat
        /\ identity (deref (heap (this s')) record) = identity_of plot
        /\ sitePlans (this s') = sitePlans (this s)
    | (_, Throw _) => False
    | (_, Diverge) => True
    end.
Proof.
  induction fuel as [|n IH]; intro s; [exact I |].
  rewrite searchAndProcessPlot_step.
  set (record := List.length (heap (this s))).
  set (s1 := mkSt (world s) (journal s)
                  (with_heap (heap (this s) ++ [new_record plot None]) (this s))).
  assert (Hnew : (record < List.length (heap (this s1)))%nat
                 /\ identity (deref (heap (this s1)) record) = identity_of plot).
  { unfold s1, record. cbn [this heap with_heap]. rewrite List.length_app. cbn [List.length].
    split; [lia |]. unfold deref. rewrite List.app_nth2, Nat.sub_diag by lia. reflexivity. }
  assert (Hsite : sitePlans (this s1) = sitePlans (this s)) by reflexivity.
  assert (Hown : forall s2, records_extended s1 s2 ->
                   (record <= record < List.length (heap (this s2)))%nat
                   /\ identity (deref (heap (this s2)) record) = identity_of plot
                   /\ sitePlans (this s2) = sitePlans (this s)).
  { intros s2 Hext. destruct (extended_nth Hext (proj1 Hnew)) as [Hlt Hid].
    split; [lia |]. split; [rewrite Hid; exact (proj2 Hnew) |].
    rewrite (proj2 Hext). exact Hsite. }
  assert (Hatt : Respects (@records_extended W)
                   (plot_attempt page (searchAndProcessPlot page n plot) n plot record)).
  { extended plot_attempt_respects. apply searchAndProcessPlot_extended. }
  unfold try_catch.
  destruct (plot_attempt page (searchAndProcessPlot page n plot) n plot record s1)
    as [s2 [x | e |]] eqn:Hrun.
  - assert (Hres : x = record
                   \/ exists s0, records_extended s1 s0
                                 /\ searchAndProcessPlot page n plot s0 = (s2, Ok x)).
    { revert Hrun. extended plot_attempt_result. }
    destruct Hres as [Hx | (s0 & Hext & Hagain)].
    + subst x. apply Hown. specialize (Hatt s1). rewrite Hrun in Hatt. exact Hatt.
    + specialize (IH s0). rewrite Hagain in IH. destruct IH as ([Hle Hlt] & Hid & Hsp).
      pose proof (extended_length Hext) as Hlen. destruct Hnew as [Hnew _].
      split; [lia |]. split; [exact Hid |].
      rewrite Hsp, (proj2 Hext). exact Hsite.
  - unfold bind, update, modify_this, ret. cbn [fst snd].
    apply Hown. specialize (Hatt s1). rewrite Hrun in Hatt. cbn [fst] in Hatt.
    eapply extended_trans; [exact Hatt |].
    apply extended_update. intro r. split; reflexivity.
  - exact I.
Qed.


(** One plot of the loop adds its record to the list. *)
Lemma plot_listed (fuel : nat) (plot : PlotData) (s sa : St W Agent)
      (handler : Value -> M W Agent unit) :
  listed_exist (this s) ->
  try_catch (record <- searchAndProcessPlot page fuel plot ;; push_sitePlan record) handler s
  = (sa, Ok tt) ->
  listed_exist (this sa) /\ listed (this sa) = listed (this s) ++ [identity_of plot].
Proof.
  intros Hex Hrun. unfold try_catch, bind in Hrun.
  pose proof (searchAndProcessPlot_outcome fuel plot s) as Hrec.
  pose proof (searchAndProcessPlot_extended fuel plot s) as Hext.
  destruct (searchAndProcessPlot page fuel plot s) as [s1 [record | e |]];
    [| contradiction | discriminate Hrun].
  cbn [fst] in Hext. destruct Hrec as ([_ Hlt] & Hid & Hsite).
  destruct (extended_listed Hext Hex) as [Hex1 Hl1].
  unfold push_sitePlan, modify_this in Hrun. inversion Hrun. subst sa. clear Hrun.
  unfold listed_exist, listed in *. cbn [this sitePlans heap with_sitePlans]. split.
  - apply List.Forall_app. split; [exact Hex1 | repeat constructor; exact Hlt].
  - rewrite List.map_app, Hl1. cbn [List.map]. rewrite Hid. reflexivity.
Qed.

Lemma plots_loop_listed (fuel : nat) (rest : list PlotData) :
  forall i total (s s' : St W Agent),
    listed_exist (this s) ->
    plots_loop page fuel rest i total s = (s', Ok tt) ->
    listed_exist (this s')
    /\ listed (this s') = listed (this s) ++ List.map identity_of rest.
Proof.
  induction rest as [|plot rest IH]; intros i total s s' Hex Hrun; cbn [plots_loop] in Hrun.
  - inversion Hrun. subst s'. rewrite List.app_nil_r. split; [exact Hex | reflexivity].
  - apply bind_Ok_inv in Hrun. destruct Hrun as (sa & [] & Hplot & Hrun).
    apply bind_Ok_inv in Hrun. destruct Hrun as (sb & [] & Hnav & Hrun).
    apply bind_Ok_inv in Hrun. destruct Hrun as (sc & [] & Hsave & Hrun).
    destruct (@plot_listed fuel plot s sa _ Hex Hplot) as [Hexa Hla].
    assert (Hab : records_extended sa sb).
    { assert (Hr : Respects (@records_extended W)
                     (if i <? total - 1
                      then try_catch (navigateBackToSitePlanService page ;; sleep_ page 2000)
                                     (fun _ => attempt_ (recoverFromError page))
                      else ret tt)).
      { respects_with page (@records_extended W) (fun _ : Event => true)
          extended_refl extended_trans extended_note
          ltac:(first [ harmless_leaf | apply navigateBack_extended
                      | apply recoverFromError_extended ]). }
      specialize (Hr sa). rewrite Hnav in Hr. exact Hr. }
    assert (Hbc : records_extended sb sc).
    { destruct ((i + 1) mod 10 =? 0).
      - unfold savePersistedApplications, modify_this in Hsave. inversion Hsave.
        split; [exists []; rewrite List.app_nil_r |]; reflexivity.
      - inversion Hsave. apply extended_refl. }
    destruct (extended_listed Hab Hexa) as [Hexb Hlb].
    destruct (extended_listed Hbc Hexb) as [Hexc Hlc].
    destruct (IH _ _ _ _ Hexc Hrun) as [Hex' Hl'].
    split; [exact Hex' |].
    rewrite Hl', Hlc, Hlb, Hla, <- List.app_assoc. reflexivity.
Qed.

(** When [processAllPlots] returns, [this.sitePlans] has one more record
    for every plot of the sheet, in the order of the sheet, each with the
    plot number and the row of its plot. *)
Theorem processAllPlots_lists_every_plot (fuel : nat) (s s' : St W Agent) :
  listed_exist (this s) ->
  processAllPlots page fuel s = (s', Ok tt) ->
  listed_exist (this s')
  /\ listed (this s') = listed (this s) ++ List.map identity_of (plots (this s)).
Proof.
  intros Hex Hrun. unfold processAllPlots in Hrun.
  apply bind_Ok_inv in Hrun. destruct Hrun as (s0 & a & Ha & Hrun).
  unfold get_this in Ha. inversion Ha. subst s0 a. clear Ha.
  apply bind_Ok_inv in Hrun. destruct Hrun as (s1 & [] & Hloop & Hsave).
  edestruct plots_loop_listed as [Hex1 Hl1]; [exact Hex | exact Hloop |].
  unfold savePersistedApplications, modify_this in Hsave. inversion Hsave.
  cbn [this]. split; [exact Hex1 | exact Hl1].
Qed.

End Records.

Lemma processAllPlots_lists_every_plot_witness :
  let pg := Scripted.page [("A-1", Scripted.smooth "500" "100"); ("A-2", Scripted.not_owned)]
              Scripted.not_owned in
  let s := mkSt "" []
             (with_plots [{| plotNumber := "A-1"; rowIndex := 2 |};
                          {| plotNumber := "A-2"; rowIndex := 3 |}]
                (new_agent Scripted.live_config Ledger.Missing true
                   (Scripted.sheet_of ["A-1"; "A-2"]))) in
  listed (this (fst (processAllPlots pg 5 s))) = [("A-1", 2); ("A-2", 3)].
Proof.
  cbv zeta.
  apply (@processAllPlots_lists_every_plot string
           (Scripted.page [("A-1", Scripted.smooth "500" "100"); ("A-2", Scripted.not_owned)]
              Scripted.not_owned)
           5
           (mkSt "" []
              (with_plots [{| plotNumber := "A-1"; rowIndex := 2 |};
                           {| plotNumber := "A-2"; rowIndex := 3 |}]
                 (new_agent Scripted.live_config Ledger.Missing true
                    (Scripted.sheet_of ["A-1"; "A-2"]))))).
  - constructor.
  - vm_compute. reflexivity.
Defined.

(** *** The calls on the ledger *)

Section LedgerCalls.
Variable W : Type.
Variable page : Page W.

Lemma called_refl (s : St W Agent) : ledger_called s s.
Proof. split; [reflexivity |]. exists []. split; [reflexivity | intros _; reflexivity]. Qed.

Lemma called_trans (s1 s2 s3 : St W Agent) :
  ledger_called s1 s2 -> ledger_called s2 s3 -> ledger_called s1 s3.
Proof.
  intros (Hf1 & c1 & Hs1 & Hn1) (Hf2 & c2 & Hs2 & Hn2). split; [congruence |].
  exists (c1 ++ c2). split.
  - rewrite Hs2, Hs1. unfold LedgerRun.run. rewrite List.fold_left_app. reflexivity.
  - intro Hoff. rewrite List.existsb_app, (Hn1 Hoff), Hn2; [reflexivity |].
    rewrite Hf1. exact Hoff.
Qed.

Lemma called_same (s s' : St W Agent) :
  prePayCheckEnabled (this s') = prePayCheckEnabled (this s) ->
  store (this s') = store (this s) ->
  ledger_called s s'.
Proof.
  intros Hf Hs. split; [exact Hf |]. exists []. split; [exact Hs | intros _; reflexivity].
Qed.

Lemma called_note (w : W) (e : Event) (s : St W Agent) :
  (fun _ : Event => true) e = true -> ledger_called s (note w e s).
Proof. intros _. apply called_same; reflexivity. Qed.

Lemma called_store (c : LedgerRun.Call) (s : St W Agent) :
  (c = LedgerRun.CallLoad -> prePayCheckEnabled (this s) = true) ->
  ledger_called s (mkSt (world s) (journal s)
                     (with_store (LedgerRun.call c (store (this s))) (this s))).
Proof.
  intro Hload. split; [reflexivity |]. exists [c]. split; [reflexivity |].
  intro Hoff. destruct c; try reflexivity.
  rewrite (Hload eq_refl) in Hoff. discriminate Hoff.
Qed.

Lemma executeWorkflow_ledger_called (fuel : nat) :
  Respects (@ledger_called W) (executeWorkflow page fuel).
Proof.
  apply (@executeWorkflow_respects W page (@ledger_called W) (fun _ => true)
           called_refl called_trans called_note);
    try solve [ intros; reflexivity | intros; apply called_same; reflexivity
              | exact called_store ].
  - intro record.
    apply (@validate_funds_and_pay_respects W page (@ledger_called W) (fun _ => true)
             called_refl called_trans called_note);
      try solve [ intros; reflexivity | intros; apply called_same; reflexivity
                | exact called_store ].
  - intros plot record s.
    apply (@ledger_check_respects W page (@ledger_called W) (fun _ => true)
             called_refl called_trans called_note);
      try solve [ intros; reflexivity | intros; apply called_same; reflexivity
                | exact called_store ].
  - intros record s. apply called_same; reflexivity.
Qed.

End LedgerCalls.

End WorkflowProofs.

(** ** Payment clicks and the recovery pass *)

Module PaymentProofs.
Import Js Exec ExecProofs Bounds BoundsProofs SitePlan SitePlanRun WorkflowProofs.
Local Open Scope agent_scope.



(** *** The payment click of the site-plan agent *)

Section SitePlanPays.
Variable W : Type.
Variable page : Page W.

Ltac quietly lemma :=
  apply (lemma W page (same (@pays W)) no_pay
           (same_refl (@pays W)) (@same_trans _ _ _ (@pays W)) (@SitePlanProofs.pays_note W));
  try solve [ intros; first [ assumption | reflexivity ] ].

Ltac quiet leaf :=
  unfold Keeps;
  respects_with page (same (@pays W)) no_pay
    (same_refl (@pays W)) (@same_trans _ _ _ (@pays W)) (@SitePlanProofs.pays_note W)
    ltac:(first [ harmless_leaf | apply SitePlanProofs.update_quiet | leaf ]).

Lemma downloadCertificate_quiet (record : nat) :
  Keeps (@pays W) (downloadCertificate page record).
Proof. quietly downloadCertificate_respects. Qed.

Lemma extract_amount_quiet (instruction : string) (pattern : Regex) :
  Keeps (@pays W) (extract_amount page instruction pattern).
Proof. quietly extract_amount_respects. Qed.

Lemma smart_workflow_clickless (plot : PlotData) (record : nat)
      (persisted : Ledger.PersistedApplicationData) :
  Keeps (@pays W) (smart_workflow page plot record persisted).
Proof. quietly smart_workflow_respects. Qed.

Lemma enter_plot_number_quiet (plot : PlotData) : Keeps (@pays W) (enter_plot_number page plot).
Proof. quietly enter_plot_number_respects. Qed.

Lemma navigateToServicesMenu_quiet : Keeps (@pays W) (navigateToServicesMenu page).
Proof. quietly navigateToServicesMenu_respects. Qed.

Lemma selectSitePlanService_quiet : Keeps (@pays W) (selectSitePlanService page).
Proof. quietly selectSitePlanService_respects. Qed.

Lemma observe_results_quiet (record : nat) : Keeps (@pays W) (observe_results page record).
Proof. quietly observe_results_respects. Qed.

Lemma select_and_proceed_quiet : Keeps (@pays W) (select_and_proceed page).
Proof. quietly select_and_proceed_respects. Qed.

Lemma await_certificate_page_quiet (fuel record : nat) :
  Keeps (@pays W) (await_certificate_page page fuel record).
Proof. quietly await_certificate_page_respects. Qed.

Lemma identify_application_quiet (plot : PlotData) (record : nat) :
  Keeps (@pays W) (identify_application page plot record).
Proof. quietly identify_application_respects. Qed.

Lemma select_wallet_quiet (record : nat) : Keeps (@pays W) (select_wallet page record).
Proof. quietly select_wallet_respects. Qed.

Lemma processFailedDownloads_quiet : Keeps (@pays W) (processFailedDownloads page).
Proof. quietly processFailedDownloads_respects. Qed.

(** One call of [act] with the payment text is one payment click. *)
Lemma pay_click_once : AtMost (@pays W) 1 (page_act page (A:=Agent) pay_click).
Proof.
  intro s. unfold page_act. destruct (act page pay_click (world s)) as [w r].
  unfold pays, count_act, note. cbn [fst journal].
  rewrite List.filter_app, List.length_app. cbn [List.filter is_act].
  rewrite String.eqb_refl. cbn. lia.
Qed.

Lemma sleep_quiet (ms : Z) (s : St W Agent) : pays (sleep_st page ms s) = pays s.
Proof. apply (@SitePlanProofs.pays_note W). reflexivity. Qed.

Lemma pay_and_download_clicks (record : nat) :
  AtMost (@pays W) 3 (pay_and_download page record).
Proof.
  unfold pay_and_download. apply AtMost_bind_l; [quiet fail | intro seen].
  destruct (List.find is_pay_now seen).
  - apply AtMost_bind_r.
    + change 3%nat with (Z.to_nat 3).
      apply AtMost_retry; [apply pay_click_once | apply sleep_quiet].
    + intros _. quiet ltac:(apply downloadCertificate_quiet).
  - apply AtMost_keeps. apply SitePlanProofs.update_quiet.
Qed.

Lemma validate_funds_and_pay_clicks (record : nat) :
  AtMost (@pays W) 3 (validate_funds_and_pay page record).
Proof.
  unfold validate_funds_and_pay, extractWalletBalance, extractPaymentAmount.
  apply AtMost_bind_l; [quiet fail | intro a].
  apply AtMost_bind_l; [quiet fail | intros _].
  apply AtMost_bind_l; [quiet fail | intros _].
  apply AtMost_bind_l; [quiet ltac:(apply extract_amount_quiet) | intro walletBalance].
  apply AtMost_bind_l; [quiet ltac:(apply extract_amount_quiet) | intro paymentAmount].
  destruct walletBalance as [wb |], paymentAmount as [pa |];
    try (apply AtMost_keeps; apply SitePlanProofs.update_quiet).
  destruct (andb (truthy wb) (truthy pa));
    [| apply AtMost_keeps; apply SitePlanProofs.update_quiet].
  cbv zeta. destruct (num_ge (parse_amount wb) (parse_amount pa));
    [| apply AtMost_keeps; apply SitePlanProofs.update_quiet].
  apply AtMost_bind_l; [apply SitePlanProofs.update_quiet | intros _].
  destruct (negb (payment_enabled (config a)));
    [apply AtMost_keeps; quiet fail | apply pay_and_download_clicks].
Qed.

Lemma process_found_plot_clicks (fuel : nat) (plot : PlotData) (record : nat) :
  AtMost (@pays W) 3 (process_found_plot page fuel plot record).
Proof.
  unfold process_found_plot.
  apply AtMost_and_then; [apply observe_results_quiet |].
  apply AtMost_and_then; [apply select_and_proceed_quiet |].
  apply AtMost_and_then; [apply await_certificate_page_quiet |].
  apply AtMost_and_then; [apply identify_application_quiet |].
  apply AtMost_and_then; [apply select_wallet_quiet |].
  apply validate_funds_and_pay_clicks.
Qed.

Lemma plot_attempt_clicks (again : M W Agent nat) (fuel' : nat) (plot : PlotData)
      (record : nat) :
  AtMost (@pays W) 3 again ->
  AtMost (@pays W) 3 (plot_attempt page again fuel' plot record).
Proof.
  intro Hagain. unfold plot_attempt.
  apply AtMost_bind_l; [quiet fail | intro a].
  apply AtMost_bind_l; [quiet ltac:(apply smart_workflow_clickless) | intro downloaded].
  destruct downloaded; [apply AtMost_keeps; quiet fail |].
  apply AtMost_bind_l; [apply enter_plot_number_quiet | intro redirected].
  destruct redirected.
  - apply AtMost_bind_l; [apply navigateToServicesMenu_quiet | intros _].
    apply AtMost_bind_l; [apply selectSitePlanService_quiet | intros _].
    apply AtMost_bind_l; [quiet fail | intros _]. exact Hagain.
  - apply AtMost_bind_r; [apply process_found_plot_clicks | intros _; quiet fail].
Qed.

Lemma searchAndProcessPlot_clicks (fuel : nat) (plot : PlotData) :
  AtMost (@pays W) 3 (searchAndProcessPlot page fuel plot).
Proof.
  induction fuel as [|n IH]; intro s; [cbn; lia |].
  rewrite searchAndProcessPlot_step.
  match goal with
  | |- (pays (fst (try_catch ?b ?h ?s1)) <= _)%nat =>
      assert (H : AtMost (@pays W) 3 (try_catch b h));
      [| exact (H s1)]
  end.
  apply AtMost_try_catch; [apply plot_attempt_clicks; exact IH |].
  intro e. quiet fail.
Qed.

Lemma recoverFromError_quiet : Keeps (@pays W) (recoverFromError page).
Proof. quietly recoverFromError_respects. Qed.

Lemma navigateBackToSitePlanService_quiet :
  Keeps (@pays W) (navigateBackToSitePlanService page).
Proof. quietly navigateBackToSitePlanService_respects. Qed.

Lemma savePersistedApplications_quiet :
  Keeps (@pays W) (savePersistedApplications (W:=W)).
Proof. intro s. reflexivity. Qed.

Lemma plots_loop_pay_clicks (fuel : nat) (rest : list PlotData) :
  forall i total,
    AtMost (@pays W) (3 * List.length rest) (plots_loop page fuel rest i total).
Proof.
  induction rest as [|plot rest IH]; intros i total; cbn [plots_loop].
  - intro s. unfold ret. cbn [fst]. lia.
  - replace (3 * List.length (plot :: rest))%nat with (3 + 3 * List.length rest)%nat
      by (cbn [List.length]; lia).
    apply AtMost_bind.
    + apply AtMost_try_catch.
      * apply AtMost_bind_r; [apply searchAndProcessPlot_clicks |].
        intro record. intro s. reflexivity.
      * intro e. unfold alloc, push_sitePlan.
        quiet ltac:(apply recoverFromError_quiet).
    + intros _. apply AtMost_bind_l; [| intros _].
      * quiet ltac:(first [ apply navigateBackToSitePlanService_quiet
                          | apply recoverFromError_quiet ]).
      * apply AtMost_bind_l; [| intros _; apply IH].
        destruct ((i + 1) mod 10 =? 0);
          [apply savePersistedApplications_quiet | intro s; reflexivity].
Qed.

(** For one plot, [page.act] is called with the Pay now text at most three
    times: the click sits inside a [retry] with three attempts, and nothing
    else in [searchAndProcessPlot] clicks Pay now.  A batch gets at most
    three clicks for each plot of the list. *)
Theorem searchAndProcessPlot_pay_clicks (fuel : nat) (s : St W Agent) :
  (forall plot s0, pays (fst (searchAndProcessPlot page fuel plot s0)) <= pays s0 + 3)%nat
  /\ (pays (fst (processAllPlots page fuel s))
      <= pays s + 3 * List.length (plots (this s)))%nat.
Proof.
  split; [intros plot s0; apply searchAndProcessPlot_clicks |].
  unfold processAllPlots, bind, get_this.
  pose proof (plots_loop_pay_clicks fuel (plots (this s)) 0
                (Z.of_nat (List.length (plots (this s)))) s) as H.
  destruct (plots_loop page fuel (plots (this s)) 0
              (Z.of_nat (List.length (plots (this s)))) s) as [s1 [[] | e |]];
    cbn [fst] in *; exact H.
Qed.

End SitePlanPays.

(** A Pay now click that throws is repeated: with [act] failing on the
    payment text the one plot of the run gets three clicks. *)
Example failing_click_is_repeated :
  let pg := Scenarios.act_failing pay_click
              (Scripted.page [("A-1", Scripted.smooth "500" "100")] Scripted.not_owned) in
  let run := executeWorkflow pg 5
               (mkSt "" []
                  (new_agent Scripted.live_config Ledger.Missing true
                     (Scripted.sheet_of ["A-1"]))) in
  snd run = Ok tt
  /\ pays (fst run) = 3%nat
  /\ List.map paid (heap (this (fst run))) = [false]
  /\ List.map error (heap (this (fst run))) = [Some "Action timed out"].
Proof. vm_compute. repeat split; reflexivity. Qed.

(** *** Records marked as paid *)

Section PaidRecords.
Variable W : Type.
Variable page : Page W.

Lemma paid_after_update (record : nat) (f : SitePlanRecord -> SitePlanRecord)
      (h : list SitePlanRecord) :
  (forall r, paid (f r) = paid r) ->
  List.length (List.filter paid (update_nth record f h))
  = List.length (List.filter paid h).
Proof.
  intro Hf. revert record.
  induction h as [|r h IH]; intros [|n]; cbn [update_nth List.filter]; try reflexivity.
  - rewrite Hf. destruct (paid r); reflexivity.
  - destruct (paid r); cbn [List.length]; rewrite IH; reflexivity.
Qed.

Lemma paid_after_mark (record : nat) (h : list SitePlanRecord) :
  (List.length (List.filter paid (update_nth record (set_paid true) h))
   <= List.length (List.filter paid h) + 1)%nat.
Proof.
  revert record.
  induction h as [|r h IH]; intros [|n]; cbn [update_nth List.filter]; try (cbn; lia).
  - cbn [set_paid paid]. destruct (paid r); cbn [List.length]; lia.
  - specialize (IH n). destruct (paid r); cbn [List.length]; lia.
Qed.

Lemma clicks_note (w : W) (e : Event) (s : St W Agent) :
  (paid_clicks s <= paid_clicks (note w e s))%nat.
Proof.
  unfold paid_clicks, note. cbn [journal].
  rewrite List.filter_app, List.length_app. lia.
Qed.

Lemma kept_refl (s : St W Agent) : payments_kept s s.
Proof. split; [reflexivity | split; [reflexivity | apply Nat.le_refl]]. Qed.

Lemma kept_trans (s1 s2 s3 : St W Agent) :
  payments_kept s1 s2 -> payments_kept s2 s3 -> payments_kept s1 s3.
Proof.
  intros (F1 & P1 & C1) (F2 & P2 & C2).
  split; [congruence | split; [congruence | lia]].
Qed.

Lemma kept_note (w : W) (e : Event) (s : St W Agent) :
  (fun _ : Event => true) e = true -> payments_kept s (note w e s).
Proof. intros _. split; [reflexivity | split; [reflexivity | apply clicks_note]]. Qed.

Lemma kept_same (s s' : St W Agent) :
  prePayCheckEnabled (this s') = prePayCheckEnabled (this s) ->
  heap (this s') = heap (this s) ->
  journal s' = journal s ->
  payments_kept s s'.
Proof.
  intros Hf Hh Hj. unfold payments_kept, paid_records, paid_clicks.
  rewrite Hh, Hj. split; [exact Hf | split; [reflexivity | apply Nat.le_refl]].
Qed.

Lemma kept_update (record : nat) (f : SitePlanRecord -> SitePlanRecord) (s : St W Agent) :
  (forall r, sp_plotNumber (f r) = sp_plotNumber r /\ sp_rowIndex (f r) = sp_rowIndex r
             /\ paid (f r) = paid r) ->
  payments_kept s
    (mkSt (world s) (journal s) (with_heap (update_nth record f (heap (this s))) (this s))).
Proof.
  intro Hf. split; [reflexivity | split; [| apply Nat.le_refl]].
  unfold paid_records. cbn [this heap with_heap].
  apply paid_after_update. intro r. apply (Hf r).
Qed.

Lemma kept_alloc (plot : PlotData) (err : option string) (s : St W Agent) :
  payments_kept s
    (mkSt (world s) (journal s)
       (with_heap (heap (this s) ++ [new_record plot err]) (this s))).
Proof.
  split; [reflexivity | split; [| apply Nat.le_refl]].
  unfold paid_records. cbn [this heap with_heap].
  rewrite List.filter_app, List.length_app. cbn. lia.
Qed.

Ltac kept lemma :=
  apply (lemma W page (@payments_kept W) (fun _ : Event => true)
           kept_refl kept_trans kept_note);
  try solve [ intros; reflexivity | exact kept_update | exact kept_alloc
            | intros; apply kept_same; reflexivity ].

Ltac keeping leaf :=
  respects_with page (@payments_kept W) (fun _ : Event => true)
    kept_refl kept_trans kept_note
    ltac:(first [ harmless_leaf | leaf ]).

Lemma update_kept (record : nat) (f : SitePlanRecord -> SitePlanRecord) :
  (forall r, sp_plotNumber (f r) = sp_plotNumber r /\ sp_rowIndex (f r) = sp_rowIndex r
             /\ paid (f r) = paid r) ->
  Respects (@payments_kept W) (update (W:=W) record f).
Proof. intros Hf s. apply kept_update. exact Hf. Qed.

Lemma downloadCertificate_kept (record : nat) :
  Respects (@payments_kept W) (downloadCertificate page record).
Proof. kept downloadCertificate_respects. Qed.

Lemma extract_amount_kept (instruction : string) (pattern : Regex) :
  Respects (@payments_kept W) (extract_amount page instruction pattern).
Proof. kept extract_amount_respects. Qed.

(** The relation of the theorem, from the stronger one. *)
Lemma kept_clicked (s s' : St W Agent) : payments_kept s s' -> payments_clicked s s'.
Proof. intros (F & P & C). split; [exact F | intros _; lia]. Qed.

Lemma clicked_refl (s : St W Agent) : payments_clicked s s.
Proof. apply kept_clicked, kept_refl. Qed.

Lemma clicked_trans (s1 s2 s3 : St W Agent) :
  payments_clicked s1 s2 -> payments_clicked s2 s3 -> payments_clicked s1 s3.
Proof.
  intros [F1 P1] [F2 P2]. split; [congruence |].
  intro Hoff. specialize (P1 Hoff). rewrite <- F1 in Hoff. specialize (P2 Hoff). lia.
Qed.

Lemma clicked_note (w : W) (e : Event) (s : St W Agent) :
  (fun _ : Event => true) e = true -> payments_clicked s (note w e s).
Proof. intro H. apply kept_clicked, kept_note. exact H. Qed.

Lemma Respects_kept_clicked (X : Type) (m : M W Agent X) :
  Respects (@payments_kept W) m -> Respects (@payments_clicked W) m.
Proof. intros Hm s. apply kept_clicked, Hm. Qed.

(** One call of [act] with the payment text that returns is one payment
    click gone through. *)
Lemma pay_click_returned (s s' : St W Agent) :
  page_act page pay_click s = (s', Ok tt) ->
  prePayCheckEnabled (this s') = prePayCheckEnabled (this s)
  /\ paid_records s' = paid_records s
  /\ paid_clicks s' = (paid_clicks s + 1)%nat.
Proof.
  unfold page_act. destruct (act page pay_click (world s)) as [w [e |]]; cbn [of_thrown];
    [discriminate |].
  intro H. injection H as <-. split; [reflexivity | split; [reflexivity |]].
  unfold paid_clicks, note. cbn [journal].
  rewrite List.filter_app, List.length_app. cbn [List.filter is_paid_click].
  rewrite String.eqb_refl. reflexivity.
Qed.

(** After the click: the record is marked, at most this one, and no
    click is taken back (lines 1497-1528). *)
Lemma after_click_marks_one (record : nat) (s : St W Agent) :
  let rest :=
    (page_waitForLoadState page "domcontentloaded" ;;
     postPaymentObservation <- page_observe page "find any success messages, error messages, payment confirmation, download buttons, or processing status indicators" ;;
     if existsb is_error_message postPaymentObservation
     then update record (set_error (Some "Payment failed - error message detected"))
     else
       (_ <- page_url page ;;
        update record (set_paid true) ;;
        downloadCertificate page record))%agent in
  prePayCheckEnabled (this (fst (rest s))) = prePayCheckEnabled (this s)
  /\ (paid_records (fst (rest s)) <= paid_records s + 1)%nat
  /\ (paid_clicks s <= paid_clicks (fst (rest s)))%nat.
Proof.
  intro rest.
  assert (Hmark : forall s0 : St W Agent,
             let s1 := fst (update record (set_paid true) s0) in
             prePayCheckEnabled (this s1) = prePayCheckEnabled (this s0)
             /\ (paid_records s1 <= paid_records s0 + 1)%nat
             /\ (paid_clicks s0 <= paid_clicks s1)%nat).
  { intro s0. cbv zeta. unfold update, modify_this. cbn [fst].
    split; [reflexivity | split; [| apply Nat.le_refl]].
    unfold paid_records. cbn [this heap with_heap]. apply paid_after_mark. }
  remember (fst (rest s)) as out eqn:E. unfold rest in E. clear rest.
  unfold bind at 1 in E.
  pose proof (@Respects_waitForLoadState _ _ page (@payments_kept W) (fun _ => true)
                kept_note "domcontentloaded" ltac:(intros; reflexivity) s) as H1.
  destruct (page_waitForLoadState page "domcontentloaded" s) as [s1 [[] | e |]];
    cbn [fst] in *; destruct H1 as (F1 & P1 & C1);
    try (subst out; split; [exact F1 | split; lia]).
  unfold bind at 1 in E.
  pose proof (@Respects_observe _ _ page (@payments_kept W) (fun _ => true)
                kept_note "find any success messages, error messages, payment confirmation, download buttons, or processing status indicators" ltac:(intros; reflexivity) s1) as H2.
  destruct (page_observe page _ s1) as [s2 [seen | e |]];
    cbn [fst] in *; destruct H2 as (F2 & P2 & C2);
    try (subst out; split; [congruence | split; lia]).
  destruct (existsb is_error_message seen).
  - destruct (@update_kept record (set_error (Some "Payment failed - error message detected"))
                ltac:(intro; repeat split; reflexivity) s2) as (F3 & P3 & C3).
    subst out. split; [congruence | split; lia].
  - unfold bind at 1 in E.
    pose proof (@Respects_url _ _ page (@payments_kept W) (fun _ => true)
                  kept_note ltac:(intros; reflexivity) s2) as H3.
    destruct (page_url page s2) as [s3 [u | e |]]; cbn [fst] in *;
      destruct H3 as (F3 & P3 & C3); try (subst out; split; [congruence | split; lia]).
    unfold bind at 1 in E. destruct (Hmark s3) as (F4 & P4 & C4). cbv zeta in F4, P4, C4.
    destruct (update record (set_paid true) s3) as [s4 [[] | e |]]; cbn [fst] in *;
      try (subst out; split; [congruence | split; lia]).
    destruct (downloadCertificate_kept record s4) as (F5 & P5 & C5).
    subst out. split; [congruence | split; lia].
Qed.

Lemma pay_and_download_clicked (record : nat) :
  Respects (@payments_clicked W) (pay_and_download page record).
Proof.
  intro s. unfold pay_and_download. unfold bind at 1.
  pose proof (@Respects_observe _ _ page (@payments_kept W) (fun _ => true)
                kept_note "find the Pay now button at the bottom of the page to complete the payment" ltac:(intros; reflexivity) s) as H1.
  destruct (page_observe page _ s) as [s1 [seen | e |]]; cbn [fst] in *;
    try (apply kept_clicked; exact H1).
  destruct (List.find is_pay_now seen).
  - unfold bind at 1.
    assert (Hfn : Respects (@payments_kept W) (page_act page (A:=Agent) pay_click)).
    { apply (@Respects_act _ _ page (@payments_kept W) (fun _ => true) kept_note).
      intros; reflexivity. }
    pose proof (@Respects_retry _ _ page (@payments_kept W) (fun _ => true)
                  kept_refl kept_trans kept_note unit (page_act page pay_click) 3 2000
                  Hfn ltac:(intros; reflexivity) s1) as H2.
    destruct (retry_ page (page_act page pay_click) 3 2000 s1) as [s2 [[] | e |]] eqn:Hretry;
      cbn [fst] in *;
      try (apply kept_clicked; eapply kept_trans; eassumption).
    apply (@retry_returned W Agent page unit (page_act page pay_click) (@payments_kept W))
      in Hretry;
      [| exact kept_refl | exact kept_trans | exact Hfn
       | intros ms s0; apply (@kept_note (sleep page ms (world s0)) (ESleep ms) s0);
         reflexivity].
    destruct Hretry as (s1' & (F2 & P2 & C2) & Hlast).
    apply pay_click_returned in Hlast. destruct Hlast as (F3 & P3 & C3).
    destruct H1 as (F1 & P1 & C1).
    destruct (after_click_marks_one record s2) as (F4 & P4 & C4). cbv zeta in F4, P4, C4.
    split; [congruence |]. intros _. lia.
  - apply kept_clicked. eapply kept_trans; [exact H1 |].
    apply update_kept. intro; repeat split; reflexivity.
Qed.

Lemma validate_funds_and_pay_clicked (record : nat) :
  Respects (@payments_clicked W) (validate_funds_and_pay page record).
Proof.
  unfold validate_funds_and_pay, extractWalletBalance, extractPaymentAmount.
  respects_with page (@payments_clicked W) (fun _ : Event => true)
    clicked_refl clicked_trans clicked_note
    ltac:(first [ harmless_leaf
                | apply Respects_kept_clicked; apply extract_amount_kept
                | apply Respects_kept_clicked; apply update_kept; intro; repeat split;
                  reflexivity
                | apply pay_and_download_clicked ]).
Qed.

(** With the pre-payment check off the smart workflow is not entered;
    with it on, nothing is claimed but that it stays on. *)
Lemma ledger_check_clicked (plot : PlotData) (record : nat) (s : St W Agent) :
  payments_clicked s
    (fst ((if prePayCheckEnabled (this s)
           then match Ledger.Map_get (plotNumber plot)
                        (Ledger.persistedApplications (store (this s))) with
                | Some persisted => smart_workflow page plot record persisted
                | None => ret false
                end
           else ret false) s)).
Proof.
  assert (Hflag : same (fun s0 : St W Agent => prePayCheckEnabled (this s0)) s
                    (fst ((if prePayCheckEnabled (this s)
                           then match Ledger.Map_get (plotNumber plot)
                                        (Ledger.persistedApplications (store (this s))) with
                                | Some persisted => smart_workflow page plot record persisted
                                | None => ret false
                                end
                           else ret false) s))).
  { apply (@ledger_check_respects W page
             (same (fun s0 : St W Agent => prePayCheckEnabled (this s0))) (fun _ => true)
             (same_refl _) (@same_trans _ _ _ _));
      try solve [ intros; reflexivity ]. }
  split; [exact Hflag |].
  intro Hoff. revert Hflag. rewrite Hoff. unfold ret. cbn [fst]. intros _. lia.
Qed.

(** A record is marked as paid only after a payment click that has gone
    through.  For an agent as it is constructed, with the pre-payment check
    off, over a whole run: the records with [paid] grow by no more than the
    [act] calls with the Pay now text that returned without an error. *)
Theorem paid_records_were_clicked (fuel : nat) (s : St W Agent) :
  prePayCheckEnabled (this s) = false ->
  (paid_records (fst (executeWorkflow page fuel s)) + paid_clicks s
   <= paid_clicks (fst (executeWorkflow page fuel s)) + paid_records s)%nat.
Proof.
  intro Hoff.
  assert (H : Respects (@payments_clicked W) (executeWorkflow page fuel)).
  { apply (@executeWorkflow_respects W page (@payments_clicked W) (fun _ => true)
             clicked_refl clicked_trans clicked_note);
      try solve [ intros; reflexivity
                | intros; apply kept_clicked; apply kept_update; assumption
                | intros; apply kept_clicked; apply kept_alloc
                | intros; apply kept_clicked; apply kept_same; reflexivity
                | exact validate_funds_and_pay_clicked
                | exact ledger_check_clicked
                | intros record s0; apply kept_clicked, kept_same; reflexivity ]. }
  exact (proj2 (H s) Hoff).
Qed.

End PaidRecords.

Lemma paid_records_were_clicked_witness :
  let pg := Scripted.page [("A-1", Scripted.smooth "500" "100"); ("A-2", Scripted.not_owned)]
              Scripted.not_owned in
  let s := mkSt "" []
             (new_agent Scripted.live_config Ledger.Missing true
                (Scripted.sheet_of ["A-1"; "A-2"])) in
  prePayCheckEnabled (this s) = false
  /\ paid_records (fst (executeWorkflow pg 5 s)) = 1%nat
  /\ (paid_records (fst (executeWorkflow pg 5 s)) + 0
      <= paid_clicks (fst (executeWorkflow pg 5 s)) + 0)%nat.
Proof.
  cbv zeta. split; [reflexivity |]. split; [vm_compute; reflexivity |].
  exact (@paid_records_were_clicked string
           (Scripted.page [("A-1", Scripted.smooth "500" "100"); ("A-2", Scripted.not_owned)]
              Scripted.not_owned) 5
           (mkSt "" []
              (new_agent Scripted.live_config Ledger.Missing true
                 (Scripted.sheet_of ["A-1"; "A-2"])))
           eq_refl).
Defined.

End PaymentProofs.

(** ** The recovery pass *)

Module RecoveryProofs.
Import Js Exec ExecProofs Bounds BoundsProofs SitePlan SitePlanRun WorkflowProofs.
Local Open Scope agent_scope.

Section Recovery.
Variable W : Type.
Variable page : Page W.

Lemma Converges_goto (A : Type) (target : string) : Converges (page_goto page (A:=A) target).
Proof.
  intro s. unfold page_goto. destruct (goto page target (world s)) as [w [e |]]; discriminate.
Qed.

Lemma Converges_attempt (A : Type) (m : M W A unit) : Converges m -> Converges (attempt_ m).
Proof. intro Hm. unfold attempt_. apply Converges_try_catch; [exact Hm | intro; apply Converges_ret]. Qed.

Ltac settles leaf :=
  converges ltac:(first [ apply Converges_goto | apply DownloadProofs.update_converges | leaf ]).

Lemma waitUntilPageReady_loop_converges (expectedElements : string) (maxAttempts : Z)
      (remaining : nat) :
  forall attempt,
    Converges (waitUntilPageReady_loop page (W:=W) expectedElements maxAttempts remaining
                 attempt).
Proof.
  induction remaining as [|n IH]; intro attempt; cbn [waitUntilPageReady_loop];
    settles ltac:(apply IH).
Qed.

Lemma recoverFromError_converges : Converges (recoverFromError page).
Proof.
  unfold recoverFromError, intelligentWaitUntilPageReady.
  settles ltac:(apply waitUntilPageReady_loop_converges).
Qed.

Lemma fallback_loop_converges (record remaining : nat) :
  Converges (fallback_loop page record remaining).
Proof.
  induction remaining as [|n IH]; cbn [fallback_loop];
    unfold read, updatePersistedApplicationDownloadStatus; settles ltac:(exact IH).
Qed.

Lemma recovery_steps_converge (record : nat) (i total : Z) :
  Converges
    (r <- read record ;;
     navigateToApplicationsPage page ;;
     searchApplicationById page
       (match applicationId r with Some id => id | None => "" end) ;;
     viewAndDownloadApplication page record ;;
     if i <? total - 1 then sleep_ page 3000 else ret tt).
Proof.
  unfold read, navigateToApplicationsPage, searchApplicationById, viewAndDownloadApplication,
    rethrow_as.
  settles ltac:(apply fallback_loop_converges).
Qed.

Lemma Returns_caught (X : Type) (m : M W Agent X) (h : Value -> M W Agent X) :
  Converges m -> (forall e, Returns (h e)) -> Returns (try_catch m h).
Proof.
  intros Hm Hh s. unfold try_catch. specialize (Hm s).
  destruct (m s) as [s1 [x | e |]]; cbn [snd] in *.
  - exists s1, x. reflexivity.
  - apply Hh.
  - contradiction Hm. reflexivity.
Qed.

Lemma recovery_handler_returns (record : nat) (more fresh : string) :
  Returns (update (W:=W) record (append_error more fresh) ;;
           attempt_ (recoverFromError page)).
Proof.
  intro s. unfold bind, update, modify_this.
  apply (@Returns_caught unit (recoverFromError page) (fun _ => ret tt)).
  - apply recoverFromError_converges.
  - intros e s1. exists s1, tt. reflexivity.
Qed.

Lemma recovery_loop_returns (records : list nat) :
  forall i total (s : St W Agent),
    exists s', recovery_loop page records i total s = (s', Ok tt).
Proof.
  induction records as [|record rest IH]; intros i total s; cbn [recovery_loop].
  - exists s. reflexivity.
  - unfold bind at 1.
    match goal with
    | |- context [try_catch ?b ?h s] =>
        destruct (@Returns_caught unit b h (recovery_steps_converge record i total)
                    (fun e => recovery_handler_returns record _ _) s) as (s1 & [] & Hrun)
    end.
    rewrite Hrun. apply IH.
Qed.

(** The recovery pass never throws: what goes wrong with a record ends up
    in its error text.  It never clicks Pay now, it leaves every record
    under its plot number and row, and it leaves [this.sitePlans] as it
    is. *)
Theorem recovery_pass_returns_without_paying (s : St W Agent) :
  exists s',
    processFailedDownloads page s = (s', Ok tt)
    /\ pays s' = pays s
    /\ records_extended s s'.
Proof.
  assert (Hret : exists s', processFailedDownloads page s = (s', Ok tt)).
  { unfold processFailedDownloads. unfold bind at 1. unfold get_this at 1.
    destruct (failedDownloads (this s)) as [|record rest]; [exists s; reflexivity |].
    unfold bind.
    destruct (recovery_loop_returns (record :: rest) 0
                (Z.of_nat (List.length (record :: rest))) s) as [s1 Hrun].
    rewrite Hrun. eexists. reflexivity. }
  destruct Hret as [s' Hrun]. exists s'. split; [exact Hrun |]. split.
  - pose proof (PaymentProofs.processFailedDownloads_quiet page s) as H.
    rewrite Hrun in H. exact H.
  - pose proof (processFailedDownloads_extended page s) as H.
    rewrite Hrun in H. exact H.
Qed.

End Recovery.

End RecoveryProofs.

(** ** The ledger check at the head of a plot *)

Module PreCheckProofs.
Import Js Exec ExecProofs Bounds SitePlan.
Local Open Scope agent_scope.

Section PreCheck.
Variable W : Type.
Variable page : Page W.

Ltac settles leaf :=
  converges ltac:(first [ apply RecoveryProofs.Converges_goto
                        | apply DownloadProofs.update_converges | leaf ]).




End PreCheck.


(** With the check switched on and the history loaded: a download that
    succeeds ends the plot without a payment click; one that does not is
    followed by the whole pipeline, and the plot is paid for. *)
Example ledger_hit_with_and_without_download :
  let plot := {| plotNumber := "A-1"; rowIndex := 2 |} in
  let s := mkSt "" [] (Scripted.checking_agent (Ledger.Json [Scripted.paid_before]) ["A-1"]) in
  let found := searchAndProcessPlot
                 (Scripted.page [] (Scripted.smooth "500" "100")) 5 plot s in
  let missed := searchAndProcessPlot
                  (Scripted.page [] (Scripted.no_identifier "500" "100" false)) 5 plot s in
  snd found = Ok 0%nat
  /\ pays (fst found) = 0%nat
  /\ List.map certificateDownloaded (heap (this (fst found))) = [true]
  /\ snd missed = Ok 0%nat
  /\ pays (fst missed) = 1%nat
  /\ List.map certificateDownloaded (heap (this (fst missed))) = [false].
Proof. vm_compute. repeat split; reflexivity. Qed.

End PreCheckProofs.

(** ** The records of the recovery pass *)

Module RecoveryPassProofs.
Import Js Exec ExecProofs Bounds SitePlan SitePlanRun.
Local Open Scope agent_scope.

Section Pass.
Variable W : Type.
Variable page : Page W.


Lemma visits_goto (s : St W Agent) :
  visits (fst (page_goto page applicationsUrl s)) = S (visits s).
Proof.
  unfold page_goto. destruct (goto page applicationsUrl (world s)) as [w thrown].
  cbn [fst]. unfold visits, note. cbn [journal].
  rewrite List.filter_app, List.length_app. cbn [List.filter is_applications_visit].
  rewrite String.eqb_refl. cbn [List.length]. lia.
Qed.

Section Record.
Variable record : nat.
























Ltac grows leaf :=
  respects_with page (@extends W Agent) (fun _ : Event => true)
    (@extends_refl W Agent) (@extends_trans W Agent) (@extends_note W Agent)
    ltac:(first [ harmless_leaf | solve [intros; apply extends_this] | leaf ]).






End Record.







End Pass.



(** With an identifier on the record the same wait is followed by a visit
    of the recovery pass to the applications list. *)
Example exhausted_wait_with_identifier_is_retried :
  let run := Scripted.site_plan_run
               [("A-1", {| Scripted.owned := true; Scripted.ai_id := Some "20260105000123";
                           Scripted.balance := "500"; Scripted.fee := "100";
                           Scripted.pay_button := true; Scripted.download_button := false |})]
               Ledger.Missing in
  snd run = Ok tt
  /\ polls (fst run) = 120%nat
  /\ List.length (List.filter is_applications_visit (journal (fst run))) = 1%nat
  /\ List.map error (heap (this (fst run)))
     = [Some "Download button did not appear after extended observations; Fallback download timeout"].
Proof. vm_compute. repeat split; reflexivity. Qed.

(** A record whose wait ended on an error message is one of the recovery
    pass as well: here the pass downloads the certificate from the
    applications list. *)
Example failed_generation_is_retried :
  let pg := Scripted.failing_generation
              (Scripted.page [("A-1", Scripted.smooth "500" "100")] Scripted.not_owned) in
  let run := executeWorkflow pg 5
               (mkSt "" []
                  (new_agent Scripted.live_config Ledger.Missing true
                     (Scripted.sheet_of ["A-1"]))) in
  snd run = Ok tt
  /\ polls (fst run) = 1%nat
  /\ List.length (List.filter is_applications_visit (journal (fst run))) = 1%nat
  /\ List.map downloadedViaFallback (heap (this (fst run))) = [true]
  /\ List.map error (heap (this (fst run))) = [Some "Certificate generation failed"].
Proof. vm_compute. repeat split; reflexivity. Qed.

End RecoveryPassProofs.

(** ** More on the persisted application history *)

Module LedgerRunProofs.
Import Js Ledger LedgerRun LedgerProofs.

Lemma Map_set_same_keys (V : Type) (k : string) (v v0 : V) (m : JsMap V) :
  Map_get k m = Some v0 -> List.map fst (Map_set k v m) = List.map fst m.
Proof.
  induction m as [|[k' v'] rest IH]; simpl; intro H; [discriminate H |].
  destruct (String.eqb_spec k k') as [-> | Hne]; simpl; [reflexivity |].
  rewrite IH by exact H. reflexivity.
Qed.

(** Marking a download touches the entry of its plot and nothing else:
    the keys and their order stay, every other plot keeps its entry, the
    entry itself keeps its request identifier and payment date; for a plot
    the ledger does not know, nothing changes at all, the file included. *)
Theorem download_status_touches_one_entry (date plot : string) (dl : bool) (st : Store) :
  let st' := updatePersistedApplicationDownloadStatus date plot dl st in
  List.map fst (persistedApplications st') = List.map fst (persistedApplications st)
  /\ (forall other, other <> plot ->
        Map_get other (persistedApplications st') = Map_get other (persistedApplications st))
  /\ match Map_get plot (persistedApplications st) with
     | None => st' = st
     | Some existing =>
         Map_get plot (persistedApplications st')
         = Some {| plotNumber := plotNumber existing;
                   applicationId := applicationId existing;
                   paymentDate := paymentDate existing;
                   downloaded := dl;
                   lastChecked := date |}
     end.
Proof.
  cbv zeta. unfold updatePersistedApplicationDownloadStatus.
  destruct (Map_get plot (persistedApplications st)) as [existing |] eqn:Hget.
  - assert (Hsave : forall x, persistedApplications (savePersistedApplications x)
                              = persistedApplications x).
    { intro x. unfold savePersistedApplications. destruct (writable x); reflexivity. }
    rewrite Hsave. cbn [persistedApplications]. split; [| split].
    + eapply Map_set_same_keys. exact Hget.
    + intros other Hne. apply Map_get_set_ne. exact Hne.
    + apply Map_get_set_eq.
  - split; [reflexivity | split; [reflexivity | reflexivity]].
Qed.

(** [reload] taken from the last entry. *)
Lemma reload_snoc (l : list PersistedApplicationData) (app : PersistedApplicationData)
      (m : JsMap PersistedApplicationData) :
  reload (l ++ [app]) m = Map_set (plotNumber app) app (reload l m).
Proof. rewrite reload_app. reflexivity. Qed.

Lemma reload_get (l : list PersistedApplicationData) (m : JsMap PersistedApplicationData)
      (plot : string) :
  Map_get plot (reload l m)
  = match last_entry plot l with
    | Some app => Some app
    | None => Map_get plot m
    end.
Proof.
  unfold last_entry. induction l as [|app l IH] using List.rev_ind; [reflexivity |].
  rewrite reload_snoc, List.rev_app_distr. cbn [List.rev List.app List.find].
  destruct (String.eqb_spec (plotNumber app) plot) as [<- | Hne].
  - apply Map_get_set_eq.
  - rewrite Map_get_set_ne by (intro H; apply Hne; symmetry; exact H). exact IH.
Qed.

(** Loading the history makes every plot known that the load gets to
    read, under the last entry read for it, and keeps what the ledger held
    for the other plots.  What is read is the whole array of the file, or,
    when the array has a [null] in it, the entries in front of the first
    one: the load stops there without an error, and what it has set stays.
    A file that is missing or cannot be parsed changes nothing.  The load
    never writes. *)
Theorem load_takes_last_entry (st : Store) (plot : string) :
  Map_get plot (persistedApplications (loadPersistedApplications st))
  = match last_entry plot (entries_read (file st)) with
    | Some app => Some app
    | None => Map_get plot (persistedApplications st)
    end
  /\ file (loadPersistedApplications st) = file st
  /\ writable (loadPersistedApplications st) = writable st.
Proof.
  assert (Hread : persistedApplications (loadPersistedApplications st)
                  = reload (entries_read (file st)) (persistedApplications st)).
  { unfold loadPersistedApplications, entries_read. destruct (file st); reflexivity. }
  split; [rewrite Hread; apply reload_get |].
  unfold loadPersistedApplications.
  destruct (file st) eqn:Hfile; cbn [file writable]; rewrite ?Hfile; split; reflexivity.
Qed.

(** A history file whose second element is [null]: the entry in front of
    it is loaded, the one behind it is not. *)
Example load_stops_at_null :
  let first := {| plotNumber := "A-1"; applicationId := "20260101000777";
                  paymentDate := "d"; downloaded := false; lastChecked := "d" |} in
  let st := loadPersistedApplications (fresh (JsonWithNull [first]) true) in
  Map_get "A-1" (persistedApplications st) = Some first
  /\ Map_get "A-2" (persistedApplications st) = None.
Proof. cbv zeta. split; reflexivity. Qed.


Lemma run_snoc (calls : list Call) (c : Call) (st : Store) :
  run (calls ++ [c]) st = call c (run calls st).
Proof. unfold run. rewrite List.fold_left_app. reflexivity. Qed.



(** What the calls of a run keep: the map is keyed, and the file is the
    one found on the disk or one that lists no plot twice. *)
Lemma values_listed_once (m : JsMap PersistedApplicationData) :
  keyed m -> NoDup (List.map plotNumber (Map_values m)).
Proof.
  intros [Hnd Hkeys]. unfold Map_values. rewrite List.map_map.
  assert (Heq : List.map (fun x => plotNumber (snd x)) m = List.map fst m).
  { apply List.map_ext_in. intros [k v] Hin. exact (Hkeys k v Hin). }
  rewrite Heq. exact Hnd.
Qed.

Lemma call_keeps (c : Call) (disk : File) (st : Store) :
  keyed (persistedApplications st) /\ (file st = disk \/ lists_once (file st)) ->
  keyed (persistedApplications (call c st))
  /\ (file (call c st) = disk \/ lists_once (file (call c st))).
Proof.
  intros [Hk Hf].
  assert (Hsave : forall x, keyed (persistedApplications x) ->
                    (file x = disk \/ lists_once (file x)) ->
                    file (savePersistedApplications x) = disk
                    \/ lists_once (file (savePersistedApplications x))).
  { intros x Hkx Hfx. unfold savePersistedApplications. destruct (writable x); [| exact Hfx].
    right. cbn [file lists_once]. apply values_listed_once. exact Hkx. }
  destruct c as [| | date1 date2 plot appId dl | date plot dl]; cbn [call].
  - split; [apply keyed_load; exact Hk |].
    unfold loadPersistedApplications. destruct (file st) eqn:E; cbn [file]; rewrite ?E; exact Hf.
  - split; [apply keyed_save; exact Hk | apply Hsave; assumption].
  - split; [apply keyed_add; exact Hk |].
    unfold addPersistedApplication. apply Hsave; [| exact Hf].
    cbn [persistedApplications]. apply keyed_set; [reflexivity | exact Hk].
  - split; [apply keyed_update; exact Hk |].
    unfold updatePersistedApplicationDownloadStatus.
    destruct (Map_get plot (persistedApplications st)) as [existing |] eqn:Hget; [| exact Hf].
    apply Hsave; [| exact Hf]. cbn [persistedApplications].
    apply keyed_set; [| exact Hk].
    cbn [plotNumber]. destruct Hk as [_ Hkeys].
    exact (Hkeys plot existing (Map_get_In _ _ Hget)).
Qed.

Lemma run_keeps (calls : list Call) (disk : File) :
  forall st,
    keyed (persistedApplications st) /\ (file st = disk \/ lists_once (file st)) ->
    keyed (persistedApplications (run calls st))
    /\ (file (run calls st) = disk \/ lists_once (file (run calls st))).
Proof.
  unfold run. induction calls as [|c rest IH]; intros st Hst; [exact Hst |].
  cbn [List.fold_left]. apply IH. apply call_keeps. exact Hst.
Qed.

(** Calls that do not load leave the same entries whatever the file
    held, and a file that is either untouched or the same. *)
Lemma run_without_load (calls : list Call) :
  List.existsb is_load calls = false ->
  forall st1 st2,
    persistedApplications st1 = persistedApplications st2 ->
    writable st1 = writable st2 ->
    persistedApplications (run calls st1) = persistedApplications (run calls st2)
    /\ writable (run calls st1) = writable (run calls st2)
    /\ ((file (run calls st1) = file st1 /\ file (run calls st2) = file st2)
        \/ file (run calls st1) = file (run calls st2)).
Proof.
  intro Hnone. induction calls as [|c l IH] using List.rev_ind; intros st1 st2 Hm Hw.
  - split; [exact Hm | split; [exact Hw | left; split; reflexivity]].
  - rewrite List.existsb_app in Hnone. apply orb_false_iff in Hnone.
    destruct Hnone as [Hl Hc]. cbn [List.existsb] in Hc. rewrite orb_false_r in Hc.
    destruct (IH Hl st1 st2 Hm Hw) as (Hm' & Hw' & Hf'). rewrite !run_snoc.
    set (a := run l st1) in *. set (b := run l st2) in *.
    assert (Hsave : forall x y,
               persistedApplications x = persistedApplications y ->
               writable x = writable y ->
               ((file x = file st1 /\ file y = file st2) \/ file x = file y) ->
               persistedApplications (savePersistedApplications x)
               = persistedApplications (savePersistedApplications y)
               /\ writable (savePersistedApplications x) = writable (savePersistedApplications y)
               /\ ((file (savePersistedApplications x) = file st1
                    /\ file (savePersistedApplications y) = file st2)
                   \/ file (savePersistedApplications x) = file (savePersistedApplications y))).
    { intros x y Hxy Hwxy Hfxy. unfold savePersistedApplications. rewrite <- Hwxy.
      destruct (writable x) eqn:Hwx.
      - cbn [persistedApplications writable file]. rewrite Hxy.
        split; [reflexivity | split; [congruence | right; reflexivity]].
      - split; [exact Hxy | split; [congruence | exact Hfxy]]. }
    destruct c as [| | date1 date2 plot appId dl | date plot dl]; cbn [call];
      [discriminate Hc | apply Hsave; assumption | |].
    + unfold addPersistedApplication. apply Hsave; cbn [persistedApplications writable file];
        [rewrite Hm'; reflexivity | exact Hw' | exact Hf'].
    + unfold updatePersistedApplicationDownloadStatus. rewrite <- Hm'.
      destruct (Map_get plot (persistedApplications a)) as [existing |];
        [| split; [exact Hm' | split; [exact Hw' | exact Hf']]].
      apply Hsave; cbn [persistedApplications writable file];
        [rewrite Hm'; reflexivity | exact Hw' | exact Hf'].
Qed.

(** Whatever calls an agent makes on its ledger, in whatever order, the
    map holds every plot once, under the key that is the plot number of the
    entry, and a history file the agent has written lists no plot twice. *)
Theorem ledger_stays_keyed (calls : list Call) (disk : File) (w : bool) :
  keyed (persistedApplications (after calls disk w))
  /\ (file (after calls disk w) = disk \/ lists_once (file (after calls disk w))).
Proof.
  unfold after. apply run_keeps. split; [apply keyed_empty | left; reflexivity].
Qed.

End LedgerRunProofs.

(** ** The history file over a run of the site-plan agent *)

Module HistoryProofs.
Import Js Exec SitePlan SitePlanRun.

Section History.
Variable W : Type.
Variable page : Page W.

(** The agent is constructed with the pre-payment check off (line 57),
    and a run of such an agent never loads the history file.  At the end of
    the run the ledger holds what the same calls would have left had there
    been no file at all, and the file is untouched or what they would have
    written then: nothing an earlier run recorded is read, and nothing of
    it is kept once this run writes. *)
Theorem history_is_never_read (fuel : nat) (w : W) (j : list Event) (c : Config)
        (disk : Ledger.File) (wr : bool) (b : Files) :
  let st := store (this (fst (executeWorkflow page fuel
                                (mkSt w j (new_agent c disk wr b))))) in
  exists calls,
    st = LedgerRun.after calls disk wr
    /\ List.existsb LedgerRun.is_load calls = false
    /\ Ledger.persistedApplications st
       = Ledger.persistedApplications (LedgerRun.after calls Ledger.Missing wr)
    /\ (Ledger.file st = disk
        \/ Ledger.file st = Ledger.file (LedgerRun.after calls Ledger.Missing wr)).
Proof.
  cbv zeta.
  destruct (WorkflowProofs.executeWorkflow_ledger_called page fuel
              (mkSt w j (new_agent c disk wr b))) as (_ & calls & Hrun & Hnone).
  specialize (Hnone eq_refl). cbn [this new_agent store] in Hrun.
  exists calls. split; [exact Hrun |]. split; [exact Hnone |].
  rewrite Hrun. unfold LedgerRun.after.
  destruct (LedgerRunProofs.run_without_load calls Hnone
              (Ledger.fresh disk wr) (Ledger.fresh Ledger.Missing wr) eq_refl eq_refl)
    as (Hm & _ & Hf).
  split; [exact Hm |].
  destruct Hf as [[Hf _] | Hf]; [left; exact Hf | right; exact Hf].
Qed.


End History.


End HistoryProofs.

(** ** The observation wait *)

Module WaitProofs.
Import Js Exec ExecProofs SitePlan Timeline.
Local Open Scope agent_scope.

Section Wait.
Variable W : Type.
Variable page : Page W.

Lemma looks_app (instruction : string) (j1 j2 : list Event) :
  looks instruction (j1 ++ j2) = (looks instruction j1 + looks instruction j2)%nat.
Proof. unfold looks. rewrite List.filter_app, List.length_app. reflexivity. Qed.

Lemma slept_app (j1 j2 : list Event) : slept (j1 ++ j2) = slept j1 + slept j2.
Proof.
  unfold slept. induction j1 as [|e j1 IH]; [reflexivity |].
  cbn [List.app List.fold_right]. destruct e; rewrite IH; lia.
Qed.

Lemma looks_cons_look (instruction : string) (r : Value + list ObserveResult)
      (j : list Event) :
  looks instruction (EObserve instruction r :: j) = S (looks instruction j).
Proof. unfold looks. cbn. rewrite String.eqb_refl. reflexivity. Qed.

Lemma looks_cons_sleep (instruction : string) (ms : Z) (j : list Event) :
  looks instruction (ESleep ms :: j) = looks instruction j.
Proof. reflexivity. Qed.

(** The loop from attempt number [attempt] on, with [remaining] attempts to
    go. *)
Lemma waitUntilPageReady_loop_bounded (expected : string) (maxAttempts : Z) (remaining : nat) :
  forall (attempt : Z) (s : St W Agent),
    attempt + Z.of_nat remaining = maxAttempts + 1 ->
    exists s' ready added,
      waitUntilPageReady_loop page expected maxAttempts remaining attempt s = (s', Ok ready)
      /\ this s' = this s
      /\ journal s' = journal s ++ added
      /\ (looks expected added <= remaining)%nat
      /\ ((0 < remaining)%nat -> (0 < looks expected added)%nat)
      /\ slept added = 3000 * Z.of_nat (Nat.pred (looks expected added))
      /\ List.length added = (looks expected added + Nat.pred (looks expected added))%nat
      /\ (ready = false -> looks expected added = remaining)
      /\ (ready = true ->
          exists before found,
            found <> [] /\ added = before ++ [EObserve expected (inr found)]).
Proof.
  induction remaining as [|n IH]; intros attempt s Hat.
  - exists s, false, []. cbn [waitUntilPageReady_loop]. unfold ret.
    rewrite List.app_nil_r.
    repeat split; try reflexivity; try lia; try discriminate.
  - assert (Htail : forall w r,
              exists s' ready added,
                ((if attempt <? maxAttempts then sleep_ page 3000 else ret tt) ;;
                 waitUntilPageReady_loop page expected maxAttempts n (attempt + 1))
                  (note w (EObserve expected r) s) = (s', Ok ready)
                /\ this s' = this s
                /\ journal s' = journal s ++ added
                /\ (looks expected added <= S n)%nat
                /\ ((0 < S n)%nat -> (0 < looks expected added)%nat)
                /\ slept added = 3000 * Z.of_nat (Nat.pred (looks expected added))
                /\ List.length added
                   = (looks expected added + Nat.pred (looks expected added))%nat
                /\ (ready = false -> looks expected added = S n)
                /\ (ready = true ->
                    exists before found,
                      found <> [] /\ added = before ++ [EObserve expected (inr found)])).
    { intros w r. destruct n as [|m].
      - assert (Hlt : (attempt <? maxAttempts) = false) by (apply Z.ltb_ge; lia).
        rewrite Hlt. exists (note w (EObserve expected r) s), false, [EObserve expected r].
        rewrite looks_cons_look.
        repeat split; try reflexivity; try (cbn; lia); try discriminate.
      - assert (Hlt : (attempt <? maxAttempts) = true) by (apply Z.ltb_lt; lia).
        rewrite Hlt. unfold bind at 1, sleep_. 
        destruct (IH (attempt + 1) (sleep_st page 3000 (note w (EObserve expected r) s)))
          as (s' & ready & added & Hrun & Hthis & Hj & Hle & Hpos & Hsl & Hlen & Hf & Ht);
          [lia |].
        exists s', ready, (EObserve expected r :: ESleep 3000 :: added).
        rewrite looks_cons_look, looks_cons_sleep.
        assert (Hp : (0 < looks expected added)%nat) by (apply Hpos; lia).
        repeat split.
        + exact Hrun.
        + rewrite Hthis. reflexivity.
        + rewrite Hj. unfold sleep_st, note. cbn [journal].
          rewrite <- !List.app_assoc. reflexivity.
        + lia.
        + lia.
        + cbn [Nat.pred]. change (EObserve expected r :: ESleep 3000 :: added)
            with ([EObserve expected r; ESleep 3000] ++ added).
          rewrite slept_app, Hsl. cbn [slept List.fold_right]. lia.
        + cbn [List.length Nat.pred]. lia.
        + intro Hr. rewrite (Hf Hr). reflexivity.
        + intro Hr. destruct (Ht Hr) as (before & found & Hne & Hadd).
          exists (EObserve expected r :: ESleep 3000 :: before), found.
          split; [exact Hne |]. rewrite Hadd. reflexivity. }
    cbn [waitUntilPageReady_loop]. unfold bind at 1. unfold try_catch, bind at 1, page_observe.
    destruct (observe page expected (world s)) as [w [e | found]] eqn:Hobs; cbn [of_sum].
    + unfold ret at 1. apply Htail.
    + unfold ret at 1. destruct found as [|item found].
      * cbn [List.length Nat.ltb Nat.leb]. apply Htail.
      * cbn [List.length Nat.ltb Nat.leb]. unfold ret.
        exists (note w (EObserve expected (inr (item :: found))) s), true,
          [EObserve expected (inr (item :: found))].
        rewrite looks_cons_look.
        repeat split; try reflexivity; try (cbn; lia); try discriminate.
        intros _. exists [], (item :: found). split; [discriminate | reflexivity].
Qed.

(** The wait always comes back with an answer, never with an error, and
    leaves the agent as it was.  It looks at the page at most
    ⌊maxWaitSeconds / 3⌋ times, sleeps three seconds between two looks and
    does nothing else; so it looks not at all when given less than three
    seconds, and the time it sleeps stays three seconds under the maximum.
    It answers [true] right after the first look that finds an element, and
    [false] only when every look it is allowed has been made. *)
Theorem wait_for_page_is_bounded (expected : string) (maxWaitSeconds : Z) (s : St W Agent) :
  exists s' ready added,
    intelligentWaitUntilPageReady page expected maxWaitSeconds s = (s', Ok ready)
    /\ this s' = this s
    /\ journal s' = journal s ++ added
    /\ (looks expected added <= Z.to_nat (maxWaitSeconds / 3))%nat
    /\ List.length added = (looks expected added + Nat.pred (looks expected added))%nat
    /\ slept added = 3000 * Z.of_nat (Nat.pred (looks expected added))
    /\ slept added <= Z.max 0 (1000 * maxWaitSeconds - 3000)
    /\ (ready = false -> looks expected added = Z.to_nat (maxWaitSeconds / 3))
    /\ (ready = true ->
        exists before found,
          found <> [] /\ added = before ++ [EObserve expected (inr found)]).
Proof.
  unfold intelligentWaitUntilPageReady. cbv zeta.
  destruct (Z.le_gt_cases 0 (maxWaitSeconds / 3)) as [Hpos | Hneg].
  - destruct (@waitUntilPageReady_loop_bounded expected (maxWaitSeconds / 3)
                (Z.to_nat (maxWaitSeconds / 3)) 1 s)
      as (s' & ready & added & Hrun & Hthis & Hj & Hle & _ & Hsl & Hlen & Hf & Ht);
      [lia |].
    exists s', ready, added. repeat split; try assumption.
    rewrite Hsl.
    pose proof (Z.mul_div_le maxWaitSeconds 3 ltac:(lia)) as Hdiv.
    lia.
  - assert (Hz : Z.to_nat (maxWaitSeconds / 3) = 0%nat) by lia.
    rewrite Hz. cbn [waitUntilPageReady_loop]. unfold ret.
    exists s, false, []. rewrite List.app_nil_r.
    repeat split; try reflexivity; try (cbn; lia); try discriminate.
Qed.

End Wait.
End WaitProofs.

(** ** The plot list and the final summary of the site-plan agent *)

Module PlotListProofs.
Import Js Exec ExecProofs SitePlan.
Local Open Scope agent_scope.

Lemma truthy_not_empty (t : string) : truthy t = true <-> t <> "".
Proof.
  destruct t; cbn; split; intro H; try reflexivity; try discriminate;
    try (exfalso; apply H; reflexivity).
Qed.

Lemma rows_to_plots_In (col : nat) (rows : list (list Any)) :
  forall (i : Z) (plot : PlotData),
    In plot (rows_to_plots col rows i)
    <-> exists k row,
          nth_error rows k = Some row
          /\ rowIndex plot = i + 1 + Z.of_nat k
          /\ truthy_any (nth col row VUndefined) = true
          /\ plotNumber plot = trim (any_toString (nth col row VUndefined))
          /\ plotNumber plot <> "".
Proof.
  induction rows as [|row rest IH]; intros i plot; cbn [rows_to_plots].
  - split; [intros [] | intros (k & row & Hk & _)]. destruct k; discriminate Hk.
  - cbv zeta.
    assert (Hlater : In plot (rows_to_plots col rest (i + 1))
                     <-> exists k row0,
                           nth_error (row :: rest) (S k) = Some row0
                           /\ rowIndex plot = i + 1 + Z.of_nat (S k)
                           /\ truthy_any (nth col row0 VUndefined) = true
                           /\ plotNumber plot = trim (any_toString (nth col row0 VUndefined))
                           /\ plotNumber plot <> "").
    { rewrite IH. split; intros (k & row0 & Hk & Hi & Hrest); exists k, row0;
        (split; [exact Hk | split; [lia | exact Hrest]]). }
    destruct (andb (truthy_any (nth col row VUndefined))
                   (truthy (trim (any_toString (nth col row VUndefined))))) eqn:Hvalid.
    + apply andb_true_iff in Hvalid. destruct Hvalid as [Hc Ht].
      apply truthy_not_empty in Ht. cbn [In]. split.
      * intros [<- | Hin].
        -- exists 0%nat, row. cbn [plotNumber rowIndex nth_error Z.of_nat].
           repeat split; try assumption; lia.
        -- apply Hlater in Hin. destruct Hin as (k & row0 & H). exists (S k), row0. exact H.
      * intros ([|k] & row0 & Hk & Hi & Hc0 & Hp & Hne).
        -- left. cbn [nth_error] in Hk. injection Hk as <-.
           destruct plot as [p r]. cbn [plotNumber rowIndex] in *. subst p.
           f_equal. lia.
        -- right. apply Hlater. exists k, row0. repeat split; assumption.
    + split.
      * intro Hin. apply Hlater in Hin. destruct Hin as (k & row0 & H). exists (S k), row0.
        exact H.
      * intros ([|k] & row0 & Hk & Hi & Hc0 & Hp & Hne).
        -- cbn [nth_error] in Hk. injection Hk as <-. exfalso.
           apply andb_false_iff in Hvalid. destruct Hvalid as [Hv | Hv].
           ++ rewrite Hc0 in Hv. discriminate Hv.
           ++ apply Hne. rewrite Hp. apply not_true_iff_false in Hv.
              destruct (trim (any_toString (nth col row VUndefined)));
                [reflexivity | exfalso; apply Hv; reflexivity].
        -- apply Hlater. exists k, row0. repeat split; assumption.
Qed.

Lemma rows_to_plots_sorted (col : nat) (rows : list (list Any)) :
  forall i : Z,
    StronglySorted (fun p q => rowIndex p < rowIndex q) (rows_to_plots col rows i)
    /\ Forall (fun p => i < rowIndex p) (rows_to_plots col rows i).
Proof.
  induction rows as [|row rest IH]; intro i; cbn [rows_to_plots].
  - split; constructor.
  - cbv zeta. destruct (IH (i + 1)) as [Hs Hf].
    assert (Hf' : Forall (fun p => i < rowIndex p) (rows_to_plots col rest (i + 1))).
    { eapply List.Forall_impl; [| exact Hf]. cbv beta. intros p Hp. lia. }
    destruct (andb (truthy_any (nth col row VUndefined))
                   (truthy (trim (any_toString (nth col row VUndefined))))).
    + split.
      * constructor; [exact Hs |]. exact Hf.
      * constructor; [cbn; lia | exact Hf'].
    + split; assumption.
Qed.

Section Load.
Variable W : Type.

(** When [loadPlotNumbers] returns, the workbook at the path of
    [getExcelFilePath()] has a header row and the plot list is not empty.
    A plot is in the list exactly when it stands for a data row whose cell
    in the configured column is truthy (not missing, not [0], not [""]) and
    whose text, [toString()] of the cell with the white space around it
    removed, is not empty: that text is its plot number, and its row index
    is the row number of the sheet (the header is row 1).  The list is in
    the order of the sheet, so no two plots share a row index. *)
Theorem loadPlotNumbers_reads_the_column (s s' : St W Agent) :
  loadPlotNumbers s = (s', Ok tt) ->
  exists header rows,
    at_path (files (this s)) (getExcelFilePath (this s)) = Sheet (header :: rows)
    /\ plots (this s') <> []
    /\ (forall plot,
          In plot (plots (this s'))
          <-> exists k row,
                let cell := nth (plotColumnIndex (config (this s))) row VUndefined in
                nth_error rows k = Some row
                /\ rowIndex plot = Z.of_nat k + 2
                /\ truthy_any cell = true
                /\ plotNumber plot = trim (any_toString cell)
                /\ plotNumber plot <> "")
    /\ StronglySorted (fun p q => rowIndex p < rowIndex q) (plots (this s'))
    /\ this s' = with_plots (plots (this s')) (this s)
    /\ journal s' = journal s.
Proof.
  unfold loadPlotNumbers, bind, get_this, throw, modify_this, ret. cbv zeta.
  destruct (at_path (files (this s)) (getExcelFilePath (this s)))
    as [| m | [|header rows]]; try discriminate.
  cbn [this].
  destruct (rows_to_plots (plotColumnIndex (config (this s))) rows 1) as [|p found] eqn:Hfound;
    [discriminate |].
  intro H. injection H as <-. exists header, rows. cbn [this journal plots with_plots].
  split; [reflexivity | split; [discriminate | split; [| split; [| split; reflexivity]]]].
  - intro plot. rewrite <- Hfound. rewrite rows_to_plots_In.
    split; intros (k & row & Hk & Hi & Hrest); exists k, row;
      (split; [exact Hk | split; [lia | exact Hrest]]).
  - rewrite <- Hfound. apply rows_to_plots_sorted.
Qed.

(** The outcomes of [loadPlotNumbers] by what is at the path: it returns
    with a plot list that is not empty, or it throws one of its four
    errors without a call on the page. *)
Lemma loadPlotNumbers_outcomes (s : St W Agent) :
  let path := getExcelFilePath (this s) in
  match at_path (files (this s)) path with
  | NoFile =>
      loadPlotNumbers s = (s, Throw (Error ("Excel file not found at: " ++ path)%string))
  | Unreadable m =>
      loadPlotNumbers s = (s, Throw (Error ("Failed to read Excel file: " ++ m)%string))
  | Sheet [] => loadPlotNumbers s = (s, Throw (Error "Excel file is empty"))
  | Sheet (_ :: rows) =>
      let found := rows_to_plots (plotColumnIndex (config (this s))) rows 1 in
      let loaded := mkSt (world s) (journal s) (with_plots found (this s)) in
      match found with
      | [] => loadPlotNumbers s
              = (loaded, Throw (Error "No plot numbers found in the 3rd column of Excel file"))
      | _ => loadPlotNumbers s = (loaded, Ok tt)
      end
  end.
Proof.
  cbv zeta. unfold loadPlotNumbers, bind, get_this, throw, modify_this, ret. cbv zeta.
  destruct (at_path (files (this s)) (getExcelFilePath (this s)))
    as [| m | [|header rows]]; try (destruct s; reflexivity).
  cbn [this].
  destruct (rows_to_plots (plotColumnIndex (config (this s))) rows 1); reflexivity.
Qed.

End Load.

Section Run.
Variable W : Type.
Variable page : Page W.

(** A plot list that cannot be loaded stops the run before the portal is
    opened.  For an agent as it is constructed (pre-payment check off),
    once [initialize()] has returned: when no file is at the path of
    [getExcelFilePath()] (the configured path itself when it is absolute, it
    joined to the working directory otherwise), when the file cannot be
    read, when its first sheet has no row, or when no data row has a usable
    cell in the plot column, [executeWorkflow] throws the error of
    [loadPlotNumbers] that says so, from the state [initialize()] left:
    nothing has been called on the page since, and the agent is as it was
    but for [this.plots], emptied in the last case. *)
Theorem unusable_plot_list_stops_the_run (fuel : nat) (s s1 : St W Agent) :
  prePayCheckEnabled (this s) = false ->
  initialize page s = (s1, Ok tt) ->
  let path := getExcelFilePath (this s) in
  let stopped (a : Agent) (message : string) :=
    executeWorkflow page fuel s = (mkSt (world s1) (journal s1) a, Throw (Error message)) in
  match at_path (files (this s)) path with
  | NoFile => stopped (this s) ("Excel file not found at: " ++ path)%string
  | Unreadable m => stopped (this s) ("Failed to read Excel file: " ++ m)%string
  | Sheet [] => stopped (this s) "Excel file is empty"
  | Sheet (_ :: rows) =>
      rows_to_plots (plotColumnIndex (config (this s))) rows 1 = [] ->
      stopped (with_plots [] (this s))
              "No plot numbers found in the 3rd column of Excel file"
  end.
Proof.
  intros Hoff Hinit. cbv zeta.
  assert (Hthis : this s1 = this s).
  { revert Hinit. unfold initialize, bind, page_evaluate, ret.
    destruct (evaluate page _ (world s)) as [w [e | x]]; cbn [of_sum]; [discriminate |].
    intro H. injection H as <-. reflexivity. }
  assert (Hrun : forall a message,
             loadPlotNumbers s1 = (mkSt (world s1) (journal s1) a, Throw (Error message)) ->
             executeWorkflow page fuel s
             = (mkSt (world s1) (journal s1) a, Throw (Error message))).
  { intros a message Hload.
    unfold executeWorkflow, try_catch, steps_through_login, steps_before_approval.
    unfold bind at 1. unfold bind at 1. unfold bind at 1. rewrite Hinit.
    unfold bind at 1. unfold bind at 1. unfold get_this at 1. rewrite Hthis, Hoff.
    unfold ret at 1. unfold bind at 1. rewrite Hload. reflexivity. }
  pose proof (loadPlotNumbers_outcomes s1) as Hload. cbv zeta in Hload.
  rewrite Hthis in Hload.
  destruct (at_path (files (this s)) (getExcelFilePath (this s))) as [| m | [|header rows]].
  - apply Hrun. rewrite Hload at 1. rewrite <- Hthis. destruct s1; reflexivity.
  - apply Hrun. rewrite Hload at 1. rewrite <- Hthis. destruct s1; reflexivity.
  - apply Hrun. rewrite Hload at 1. rewrite <- Hthis. destruct s1; reflexivity.
  - intro Hnone. rewrite Hnone in Hload. apply Hrun. exact Hload.
Qed.

End Run.

Lemma loadPlotNumbers_reads_the_column_witness :
  let zero := VNumber (parseFloat "0") in
  let s := mkSt "" []
             (new_agent defaultDariSitePlanConfig Ledger.Missing true
                (Scripted.machine_with
                   (Sheet [[VString "No"; VString "Name"; VString "Plot"];
                           [VString "1"; VString "a"; VString " A-1 "];
                           [VString "2"; VString "b"; VString "  "];
                           [VString "3"; VString "c"];
                           [VString "4"; VString "d"; zero];
                           [VString "5"; VString "e"; VNumber (parseFloat "1205.50")];
                           [VString "6"; VString "f";
                            VString (bytes [194; 160] ++ "A-7" ++ bytes [194; 160])]]))) in
  let s' := fst (loadPlotNumbers s) in
  loadPlotNumbers s = (s', Ok tt)
  /\ plots (this s')
     = [ {| plotNumber := "A-1"; rowIndex := 2 |};
         {| plotNumber := "1205.5"; rowIndex := 6 |};
         {| plotNumber := "A-7"; rowIndex := 7 |} ]
  /\ StronglySorted (fun p q => rowIndex p < rowIndex q) (plots (this s')).
Proof.
  intros zero s s'.
  assert (Hrun : loadPlotNumbers s = (s', Ok tt)) by reflexivity.
  split; [exact Hrun | split; [reflexivity |]].
  destruct (@loadPlotNumbers_reads_the_column string s s' Hrun)
    as (header & rows & _ & _ & _ & Hsorted & _).
  exact Hsorted.
Defined.

Lemma unusable_plot_list_stops_the_run_witness :
  let pg := Scripted.page [] Scripted.not_owned in
  let s := mkSt "" []
             (new_agent defaultDariSitePlanConfig Ledger.Missing true
                (Scripted.machine_with NoFile)) in
  let s1 := fst (initialize pg s) in
  prePayCheckEnabled (this s) = false
  /\ initialize pg s = (s1, Ok tt)
  /\ executeWorkflow pg 5 s
     = (s1, Throw (Error "Excel file not found at: /srv/agent/data/siteplan.xlsx")).
Proof.
  intros pg s s1.
  assert (Hinit : initialize pg s = (s1, Ok tt)) by reflexivity.
  split; [reflexivity | split; [exact Hinit |]].
  exact (@unusable_plot_list_stops_the_run string pg 5 s s1 eq_refl Hinit).
Defined.

End PlotListProofs.

Module SummaryProofs.
Import Js SitePlan SitePlanSummary.

Lemma count_cons (test : SitePlanRecord -> bool) (r : SitePlanRecord)
      (l : list SitePlanRecord) :
  List.length (List.filter test (r :: l))
  = ((if test r then 1 else 0) + List.length (List.filter test l))%nat.
Proof. cbn [List.filter]. destruct (test r); reflexivity. Qed.

(** The download breakdown of the summary against its total and against
    the status lines of the detailed list.  Every status is listed as often
    as its counter says, except that a record both recovered by the
    fallback and steered by the ledger is counted under both headings and
    listed under the second; the three download counters therefore add up
    to the total plus the number of such records. *)
Theorem download_breakdown_counts (a : Agent) :
  (downloadedFirstTry a + downloadedViaFallbackRecovery a + downloadedViaSmartWorkflow a
   = totalDownloaded a + counted_twice a)%nat
  /\ listed_as FirstTry a = downloadedFirstTry a
  /\ listed_as SmartWorkflow a = downloadedViaSmartWorkflow a
  /\ (listed_as FallbackRecovery a + counted_twice a = downloadedViaFallbackRecovery a)%nat
  /\ listed_as DownloadFailed a = failedCompletely a
  /\ (totalDownloaded a + failedCompletely a <= List.length (sitePlans a))%nat.
Proof.
  unfold downloadedFirstTry, downloadedViaFallbackRecovery, downloadedViaSmartWorkflow,
    totalDownloaded, counted_twice, listed_as, failedCompletely, count.
  assert (Hlen : List.length (sitePlans a) = List.length (records a))
    by (unfold records; rewrite List.length_map; reflexivity).
  rewrite Hlen. clear Hlen.
  induction (records a) as [|r l IH].
  - repeat split; reflexivity.
  - rewrite !count_cons. cbn [List.length].
    destruct IH as (H1 & H2 & H3 & H4 & H5 & H6).
    unfold status in *.
    destruct (certificateDownloaded r), (downloadedViaFallback r),
      (alreadyExistedInApplications r), (paid r);
      cbn [andb negb Status_eqb];
      try (destruct (error r) as [m |]; [destruct (truthy m) |]; cbn [Status_eqb]);
      repeat split; lia.
Qed.

End SummaryProofs.

(** ** The plot loop of the affection-plan agent *)

Module AffectionRunProofs.
Import Js Exec ExecProofs Bounds BoundsProofs AffectionPlan AffectionSummary AffectionPlanProofs.
Local Open Scope agent_scope.

Section Run.
Variable W : Type.
Variable page : Page W.

(** *** Every method has an outcome *)

Lemma Converges_textContent : Converges (page_textContent page (A:=Agent)).
Proof.
  intro s. unfold page_textContent. destruct (textContent page (world s)) as [w [e | x]];
    discriminate.
Qed.

Lemma Converges_extractPageContent (i : string) :
  Converges (page_extractPageContent page (A:=Agent) i).
Proof.
  intro s. unfold page_extractPageContent.
  destruct (extractPageContent page i (world s)) as [w [e | x]]; discriminate.
Qed.

Lemma Converges_extractPaymentDetails (i : string) :
  Converges (page_extractPaymentDetails page (A:=Agent) i).
Proof.
  intro s. unfold page_extractPaymentDetails.
  destruct (extractPaymentDetails page i (world s)) as [w [e | x]]; discriminate.
Qed.

Lemma Converges_and_then (m : M W Agent bool) (k : M W Agent unit) :
  Converges m -> Converges k -> Converges (and_then m k).
Proof.
  intros Hm Hk. unfold and_then. apply Converges_bind; [exact Hm |].
  intros [|]; [exact Hk | apply Converges_ret].
Qed.

Ltac ends leaf :=
  converges ltac:(first [ apply Converges_textContent | apply Converges_extractPageContent
                        | apply Converges_extractPaymentDetails | leaf ]).

Lemma push_result_converges (r : PlotResult) : Converges (push_result (W:=W) r).
Proof. unfold push_result. ends fail. Qed.

Lemma navigateBackToServicePage_converges : Converges (navigateBackToServicePage page).
Proof.
  unfold navigateBackToServicePage, navigateToServicesMenu, selectAffectionPlanService,
    act_and_settle.
  ends fail.
Qed.

Lemma url_change_loop_converges (startUrl : string) (remaining : nat) :
  Converges (url_change_loop page startUrl remaining).
Proof. induction remaining as [|n IH]; cbn [url_change_loop]; ends ltac:(exact IH). Qed.

Lemma content_loop_converges (remaining : nat) : Converges (content_loop page remaining).
Proof. induction remaining as [|n IH]; cbn [content_loop]; ends ltac:(exact IH). Qed.

Lemma download_page_loop_converges (remaining : nat) :
  Converges (download_page_loop page remaining).
Proof. induction remaining as [|n IH]; cbn [download_page_loop]; ends ltac:(exact IH). Qed.

Lemma sleep_seconds_converges (n : nat) : Converges (sleep_seconds page n).
Proof. induction n as [|n IH]; cbn [sleep_seconds]; ends ltac:(exact IH). Qed.

Lemma reach_payment_converges (plot : PlotData) : Converges (reach_payment page plot).
Proof.
  unfold reach_payment, search_plot, open_application, extract_application_id,
    read_payment_details, act_and_settle.
  ends ltac:(first [ apply push_result_converges | apply navigateBackToServicePage_converges
                   | apply url_change_loop_converges | apply content_loop_converges ]).
Qed.

Lemma validate_funds_converges (plot : PlotData) (applicationId : option string)
      (paymentDetails : PaymentDetails) :
  Converges (validate_funds (W:=W) plot applicationId paymentDetails).
Proof. unfold validate_funds. ends ltac:(apply push_result_converges). Qed.

Lemma click_pay_now_converges : Converges (click_pay_now page).
Proof. unfold click_pay_now, act_and_settle. ends fail. Qed.

Lemma await_and_download_converges (plot : PlotData) (applicationId : option string) :
  Converges (await_and_download page plot applicationId).
Proof.
  unfold await_and_download.
  ends ltac:(first [ apply push_result_converges | apply url_change_loop_converges
                   | apply download_page_loop_converges | apply sleep_seconds_converges ]).
Qed.

Lemma searchAndFilterPlot_converges (plot : PlotData) :
  Converges (searchAndFilterPlot page plot).
Proof.
  unfold searchAndFilterPlot.
  ends ltac:(first [ apply reach_payment_converges | apply Converges_and_then
                   | apply validate_funds_converges | apply click_pay_now_converges
                   | apply await_and_download_converges ]).
Qed.

(** *** What every method keeps

    A relation between the state before and the state after that holds
    across the page calls and across the recording of a result holds
    across the methods that make them. *)

Section Results.
Variable R : St W Agent -> St W Agent -> Prop.
Variable harmless : Event -> bool.
Variable concerned : PlotData -> Prop.
Hypothesis R_refl : forall s, R s s.
Hypothesis R_trans : forall s1 s2 s3, R s1 s2 -> R s2 s3 -> R s1 s3.
Hypothesis R_note : forall w e s, harmless e = true -> R s (note w e s).
Hypothesis harmless_no_pay : forall e, no_pay e = true -> harmless e = true.
Hypothesis harmless_pay : forall thrown, harmless (EAct pay_click thrown) = true.
Hypothesis R_failed :
  forall plot applicationId message,
    concerned plot ->
    Respects R (push_result (W:=W) (result_of plot applicationId false false (Some message))).
Hypothesis R_paid :
  forall plot applicationId download,
    concerned plot ->
    Respects R (push_result (W:=W) (result_of plot applicationId true download None)).

Ltac known := solve [ intros; apply harmless_no_pay; reflexivity ].

Ltac along leaf :=
  respects_with page R harmless R_refl R_trans R_note
    ltac:(first [ known | apply R_failed; assumption | apply R_paid; assumption | leaf ]).

Lemma navigateBackToServicePage_respects : Respects R (navigateBackToServicePage page).
Proof.
  unfold navigateBackToServicePage, navigateToServicesMenu, selectAffectionPlanService,
    act_and_settle.
  along fail.
Qed.

Lemma url_change_loop_respects (startUrl : string) (remaining : nat) :
  Respects R (url_change_loop page startUrl remaining).
Proof. induction remaining as [|n IH]; cbn [url_change_loop]; along ltac:(exact IH). Qed.

Lemma content_loop_respects (remaining : nat) : Respects R (content_loop page remaining).
Proof. induction remaining as [|n IH]; cbn [content_loop]; along ltac:(exact IH). Qed.

Lemma download_page_loop_respects (remaining : nat) :
  Respects R (download_page_loop page remaining).
Proof. induction remaining as [|n IH]; cbn [download_page_loop]; along ltac:(exact IH). Qed.

Lemma sleep_seconds_respects (n : nat) : Respects R (sleep_seconds page n).
Proof. induction n as [|n IH]; cbn [sleep_seconds]; along ltac:(exact IH). Qed.

Lemma search_plot_prefix_respects (plot : PlotData) : concerned plot ->
  Respects R (search_plot page plot).
Proof.
  intro Hplot. unfold search_plot, act_and_settle.
  along ltac:(apply navigateBackToServicePage_respects).
Qed.

Lemma open_application_respects (plot : PlotData) : Respects R (open_application page plot).
Proof.
  unfold open_application, act_and_settle.
  along ltac:(first [ apply url_change_loop_respects | apply content_loop_respects ]).
Qed.

Lemma extract_application_id_respects (plot : PlotData) (pageContent : PageContent) :
  concerned plot -> Respects R (extract_application_id page plot pageContent).
Proof. intro Hplot. unfold extract_application_id. along fail. Qed.

Lemma read_payment_details_respects : Respects R (read_payment_details page).
Proof. unfold read_payment_details, act_and_settle. along fail. Qed.

Lemma reach_payment_respects (plot : PlotData) : concerned plot ->
  Respects R (reach_payment page plot).
Proof.
  intro Hplot. unfold reach_payment.
  along ltac:(first [ apply search_plot_prefix_respects; assumption
                    | apply open_application_respects
                    | apply extract_application_id_respects; assumption
                    | apply read_payment_details_respects ]).
Qed.

Lemma validate_funds_respects (plot : PlotData) (applicationId : option string)
      (paymentDetails : PaymentDetails) :
  concerned plot -> Respects R (validate_funds (W:=W) plot applicationId paymentDetails).
Proof. intro Hplot. unfold validate_funds. along fail. Qed.

Lemma click_pay_now_respects : Respects R (click_pay_now page).
Proof.
  unfold click_pay_now, act_and_settle.
  along ltac:(solve [ intros; apply harmless_pay ]).
Qed.

(** The steps of [await_and_download] before the result is recorded. *)
Lemma await_and_download_respects (plot : PlotData) (applicationId : option string) :
  concerned plot -> Respects R (await_and_download page plot applicationId).
Proof.
  intro Hplot. unfold await_and_download.
  along ltac:(first [ apply url_change_loop_respects | apply download_page_loop_respects
                    | apply sleep_seconds_respects ]).
Qed.

Lemma searchAndFilterPlot_respects (plot : PlotData) : concerned plot ->
  Respects R (searchAndFilterPlot page plot).
Proof.
  intro Hplot. unfold searchAndFilterPlot.
  along ltac:(first [ apply reach_payment_respects; assumption
                    | apply validate_funds_respects; assumption
                    | apply click_pay_now_respects
                    | apply await_and_download_respects; assumption ]).
Qed.

(** The loop, given what one plot keeps. *)
Section Loop.
Hypothesis plot_respects : forall plot, Respects R (searchAndFilterPlot page plot).
Hypothesis every_plot : forall plot, concerned plot.

Lemma plot_loop_respects (rest : list PlotData) :
  forall i total, Respects R (plots_loop page rest i total).
Proof.
  induction rest as [|plot rest IH]; intros i total; cbn [plots_loop].
  - along fail.
  - along ltac:(first [ apply plot_respects
                      | apply navigateBackToServicePage_respects | apply IH
                      | apply R_failed; apply every_plot ]).
Qed.

Lemma process_plots_and_report_respects : Respects R (process_plots_and_report page).
Proof.
  unfold process_plots_and_report, process_plots.
  along ltac:(apply plot_loop_respects).
Qed.

End Loop.

End Results.

(** *** The plot list and the results *)

Lemma process_plots_and_report_plots :
  Keeps (fun s : St W Agent => plots (this s)) (process_plots_and_report page).
Proof.
  assert (Htrans : forall s1 s2 s3 : St W Agent,
             same (fun s => plots (this s)) s1 s2 -> same (fun s => plots (this s)) s2 s3 ->
             same (fun s => plots (this s)) s1 s3)
    by (intros s1 s2 s3; apply same_trans).
  apply (@process_plots_and_report_respects (same (fun s => plots (this s)))
           (fun _ => true) (fun _ => True));
    try solve [ intros; reflexivity | intros; intro; reflexivity | exact Htrans
              | intros; exact I ].
  intro plot.
  apply (@searchAndFilterPlot_respects (same (fun s => plots (this s)))
           (fun _ => true) (fun _ => True));
    try solve [ intros; reflexivity | intros; intro; reflexivity | exact Htrans
              | intros; exact I ].
Qed.

Lemma well_formed_refl (s : St W Agent) : records_well_formed s s.
Proof. exists []. split; [rewrite List.app_nil_r; reflexivity | constructor]. Qed.

Lemma well_formed_trans (s1 s2 s3 : St W Agent) :
  records_well_formed s1 s2 -> records_well_formed s2 s3 -> records_well_formed s1 s3.
Proof.
  intros (a1 & H1 & F1) (a2 & H2 & F2). exists (a1 ++ a2). split.
  - rewrite H2, H1, List.app_assoc. reflexivity.
  - apply List.Forall_app. split; assumption.
Qed.

Lemma well_formed_note (w : W) (e : Event) (s : St W Agent) :
  (fun _ : Event => true) e = true -> records_well_formed s (note w e s).
Proof.
  intros _. exists []. split; [cbn; rewrite List.app_nil_r; reflexivity | constructor].
Qed.

Lemma well_formed_push (r : PlotResult) :
  well_formed r = true -> Respects (@records_well_formed W) (push_result (W:=W) r).
Proof. intros Hr s. exists [r]. split; [reflexivity | constructor; [exact Hr | constructor]]. Qed.

Lemma process_plots_and_report_well_formed :
  Respects (@records_well_formed W) (process_plots_and_report page).
Proof.
  apply (@process_plots_and_report_respects (@records_well_formed W)
           (fun _ => true) (fun _ => True));
    try solve [ intros; reflexivity | exact well_formed_refl | exact well_formed_trans
              | exact well_formed_note
              | intros; apply well_formed_push; reflexivity | intros; exact I ].
  intro plot.
  apply (@searchAndFilterPlot_respects (@records_well_formed W)
           (fun _ => true) (fun _ => True));
    try solve [ intros; reflexivity | exact well_formed_refl | exact well_formed_trans
              | exact well_formed_note
              | intros; apply well_formed_push; reflexivity | intros; exact I ].
Qed.

(** *** Only a batch error leaves the loop *)

Lemma between_plots_returns (i total : Z) (s : St W Agent) :
  exists s',
    (if i <? total - 1
     then (sleep_ page 2000 ;; attempt_ (navigateBackToServicePage page))
     else ret tt) s = (s', Ok tt).
Proof.
  destruct (i <? total - 1); [| eexists; reflexivity].
  unfold bind, sleep_, attempt_, try_catch.
  pose proof (navigateBackToServicePage_converges (sleep_st page 2000 s)) as Hc.
  destruct (navigateBackToServicePage page (sleep_st page 2000 s)) as [s1 [[] | e |]];
    cbn [snd] in Hc; [eexists; reflexivity | eexists; reflexivity |
                      contradiction Hc; reflexivity].
Qed.

Lemma plots_loop_outcome (rest : list PlotData) :
  forall (i total : Z) (s : St W Agent),
    match snd (plots_loop page rest i total s) with
    | Ok _ => True
    | Throw e => is_batch_error (messageOf e) = true
    | Diverge => False
    end.
Proof.
  induction rest as [|plot rest IH]; intros i total s; cbn [plots_loop].
  - exact I.
  - assert (Hgo : forall s1,
              match snd (((if i <? total - 1
                           then (sleep_ page 2000 ;; attempt_ (navigateBackToServicePage page))
                           else ret tt) ;;
                          plots_loop page rest (i + 1) total) s1) with
              | Ok _ => True
              | Throw e => is_batch_error (messageOf e) = true
              | Diverge => False
              end).
    { intro s1. unfold bind at 1.
      destruct (between_plots_returns i total s1) as [s2 ->]. apply IH. }
    unfold bind at 1. unfold try_catch at 1.
    pose proof (searchAndFilterPlot_converges plot s) as Hc.
    destruct (searchAndFilterPlot page plot s) as [s1 [[] | e |]]; cbn [snd] in Hc;
      [| | contradiction Hc; reflexivity].
    + apply Hgo.
    + destruct (is_batch_error (messageOf e)) eqn:Hbatch.
      * unfold throw. cbn [snd]. exact Hbatch.
      * unfold bind at 1, get_this.
        destruct (negb (existsb (fun r => String.eqb (r_plotNumber r) (plotNumber plot))
                          (results (this s1)))).
        -- unfold push_result, modify_this. apply Hgo.
        -- unfold ret at 1. apply Hgo.
Qed.

Lemma process_plots_and_report_returns (s : St W Agent) :
  snd (process_plots_and_report page s) = Ok tt.
Proof.
  pose proof (plots_loop_outcome (plots (this s)) 0
                (Z.of_nat (List.length (plots (this s)))) s) as Hout.
  unfold process_plots_and_report, try_catch, process_plots, bind, get_this.
  destruct (plots_loop page (plots (this s)) 0 (Z.of_nat (List.length (plots (this s)))) s)
    as [s1 [[] | e |]]; cbn [fst snd] in *.
  - reflexivity.
  - rewrite Hout. reflexivity.
  - contradiction.
Qed.

(** Once the plots are loaded, nothing that happens on the page makes the
    run fail: the loop with the [catch] around it always returns.  An
    error on one plot is recorded or swallowed, the error of the batch
    validation is printed; the results recorded before are kept, and the
    plot list is not touched. *)
Theorem plot_loop_always_returns (s : St W Agent) :
  exists s',
    process_plots_and_report page s = (s', Ok tt)
    /\ (exists added, results (this s') = results (this s) ++ added)
    /\ plots (this s') = plots (this s).
Proof.
  pose proof (process_plots_and_report_returns s) as Hret.
  pose proof (process_plots_and_report_plots s) as Hplots.
  pose proof (process_plots_and_report_well_formed s) as (added & Hadded & _).
  destruct (process_plots_and_report page s) as [s' r]. cbn [fst snd] in *. subst r.
  exists s'. split; [reflexivity | split; [exists added; exact Hadded | exact Hplots]].
Qed.

(** *** The counters of the summary *)

Lemma includes_in_nothing (needle : string) :
  needle <> "" -> includes "" needle = false.
Proof. intro Hne. destruct needle; [contradiction Hne; reflexivity | reflexivity]. Qed.

Lemma counters_of_well_formed (l : list PlotResult) :
  Forall (fun r => well_formed r = true) l ->
  (List.length (List.filter paymentCompleted l)
   = List.length (List.filter downloadCompleted l)
     + List.length (List.filter (fun r => andb (paymentCompleted r) (negb (downloadCompleted r))) l)
   /\ List.length (List.filter paymentCompleted l)
      + List.length (List.filter is_not_found l)
      + List.length (List.filter is_other_failure l)
      + List.length (List.filter has_empty_error l)
      = List.length l)%nat.
Proof.
  induction 1 as [|r l Hr _ IH]; [split; reflexivity |].
  destruct IH as [IH1 IH2]. cbn [List.filter List.length].
  unfold well_formed in Hr.
  unfold is_not_found, error_includes, is_other_failure, has_empty_error in *.
  destruct (error r) as [e |].
  - apply andb_true_iff in Hr. destruct Hr as [Hp Hd].
    apply negb_true_iff in Hp. apply negb_true_iff in Hd. rewrite Hp, Hd. cbn [andb negb].
    destruct e as [|c e].
    + cbn. split; lia.
    + cbn [truthy andb negb].
      destruct (includes (String c e) "not found"),
        (includes (String c e) "don't own any property"); cbn [orb andb negb List.length];
        split; lia.
  - rewrite Hr. cbn [orb andb negb]. destruct (downloadCompleted r); cbn [negb List.length];
      split; lia.
Qed.

(** After the plot loop the counters of the summary fit together: the
    number under "Downloads Pending" is the number of results listed as
    paid but not downloaded, no more downloads are counted than payments,
    and every result is counted exactly once as paid, as not found or as
    another failure, unless its error is the empty text, which no counter
    takes.  The closing line that says no plot was processed is printed
    only when no payment was recorded. *)
Theorem summary_counters_fit (s : St W Agent) :
  Forall (fun r => well_formed r = true) (results (this s)) ->
  let a := this (fst (process_plots_and_report page s)) in
  Forall (fun r => well_formed r = true) (results a)
  /\ pendingDownloads a = Z.of_nat (List.length (pendingResults a))
  /\ downloadedPlots a <= paidPlots a
  /\ paidPlots a + notFoundPlots a + otherFailedPlots a + count has_empty_error a
     = plotsAttempted a
  /\ (closing a = NoneProcessed -> paidPlots a = 0).
Proof.
  intros Hbefore a.
  assert (Hall : Forall (fun r => well_formed r = true) (results a)).
  { destruct (process_plots_and_report_well_formed s) as (added & Hadded & Hnew).
    unfold a. rewrite Hadded. apply List.Forall_app. split; assumption. }
  destruct (counters_of_well_formed Hall) as [H1 H2].
  split; [exact Hall |].
  unfold closing, totalFailedPlots, plotsSkipped, totalPlotsUploaded, pendingDownloads,
    pendingResults, downloadedPlots, paidPlots, notFoundPlots, otherFailedPlots,
    plotsAttempted, count.
  split; [lia | split; [lia | split; [lia |]]].
  match goal with
  | |- (if ?c then AllDownloaded else _) = _ -> _ =>
      destruct c; [intro Hd; discriminate Hd |]
  end.
  match goal with
  | |- (if ?c then AllPaid else _) = _ -> _ => destruct c; [intro Hd; discriminate Hd |]
  end.
  match goal with
  | |- (if ?c then NoneProcessed else _) = _ -> _ =>
      destruct c eqn:Hfailed; [| destruct (0 <? _); intro Hd; discriminate Hd]
  end.
  intros _. apply Z.eqb_eq in Hfailed. lia.
Qed.

(** *** Payment clicks *)

Lemma await_and_download_quiet (plot : PlotData) (applicationId : option string) :
  Keeps (@pays W) (await_and_download page plot applicationId).
Proof.
  apply (@await_and_download_respects (same (@pays W)) no_pay (fun _ => True));
    try solve [ intros; reflexivity | exact (@same_trans _ _ _ (@pays W))
              | exact (@click_free_note W) | intros; assumption
              | intros; apply push_result_quiet | exact I ].
Qed.

Lemma act_and_settle_once : AtMost (@pays W) 1 (act_and_settle page pay_click).
Proof.
  intro s. unfold act_and_settle, bind, get_this, page_act.
  destruct (act page pay_click (world s)) as [w [e |]]; cbn [of_thrown fst];
    unfold sleep_, sleep_st, pays, count_act, note; cbn [fst journal];
    rewrite ?List.filter_app, ?List.length_app; cbn [List.filter is_act];
    rewrite String.eqb_refl; cbn; lia.
Qed.

Lemma sleep_is_quiet (ms : Z) (s : St W Agent) : pays (sleep_st page ms s) = pays s.
Proof. apply (@click_free_note W). reflexivity. Qed.

Lemma click_pay_now_clicks : AtMost (@pays W) 3 (click_pay_now page).
Proof.
  unfold click_pay_now. apply AtMost_bind_l.
  - unfold Keeps.
    respects_with page (same (@pays W)) no_pay
      (same_refl (@pays W)) (@same_trans _ _ _ (@pays W)) (@click_free_note W)
      ltac:(harmless_leaf).
  - intro seen. destruct (List.find is_pay_now seen).
    + apply AtMost_bind_r.
      * change 3%nat with (Z.to_nat 3).
        apply AtMost_retry; [apply act_and_settle_once | apply sleep_is_quiet].
      * intros _ s. reflexivity.
    + intro s. unfold ret. cbn [fst]. lia.
Qed.

Lemma searchAndFilterPlot_clicks (plot : PlotData) :
  AtMost (@pays W) 3 (searchAndFilterPlot page plot).
Proof.
  unfold searchAndFilterPlot.
  apply AtMost_bind_l; [apply reach_payment_quiet | intros [[applicationId details] |]].
  - apply AtMost_and_then; [apply validate_funds_quiet |].
    apply AtMost_then_keeps; [apply click_pay_now_clicks | apply await_and_download_quiet].
  - intro s. unfold ret. cbn [fst]. lia.
Qed.

Lemma plots_loop_clicks (rest : list PlotData) :
  forall i total, AtMost (@pays W) (3 * List.length rest) (plots_loop page rest i total).
Proof.
  induction rest as [|plot rest IH]; intros i total; cbn [plots_loop].
  - intro s. unfold ret. cbn [fst]. lia.
  - replace (3 * List.length (plot :: rest))%nat with (3 + 3 * List.length rest)%nat
      by (cbn [List.length]; lia).
    apply AtMost_bind.
    + apply AtMost_try_catch; [apply searchAndFilterPlot_clicks |].
      intro e. unfold Keeps.
      respects_with page (same (@pays W)) no_pay
        (same_refl (@pays W)) (@same_trans _ _ _ (@pays W)) (@click_free_note W)
        ltac:(first [ harmless_leaf | apply push_result_quiet ]).
    + intros _. apply AtMost_bind_l; [| intros _; apply IH].
      unfold Keeps.
      respects_with page (same (@pays W)) no_pay
        (same_refl (@pays W)) (@same_trans _ _ _ (@pays W)) (@click_free_note W)
        ltac:(first [ harmless_leaf | apply navigateBackToServicePage_quiet ]).
Qed.

(** The payment click is retried like every other click: one plot takes
    at most three of them, a batch at most three for each of its plots. *)
Theorem plot_loop_pay_clicks (s : St W Agent) :
  (forall plot s0, pays (fst (searchAndFilterPlot page plot s0)) <= pays s0 + 3)%nat
  /\ (pays (fst (process_plots_and_report page s))
      <= pays s + 3 * List.length (plots (this s)))%nat.
Proof.
  split; [intros plot s0; apply searchAndFilterPlot_clicks |].
  unfold process_plots_and_report, try_catch, process_plots, bind, get_this.
  pose proof (plots_loop_clicks (plots (this s)) 0
                (Z.of_nat (List.length (plots (this s)))) s) as H.
  destruct (plots_loop page (plots (this s)) 0 (Z.of_nat (List.length (plots (this s)))) s)
    as [s1 [[] | e |]]; cbn [fst] in *; try exact H.
  destruct (is_batch_error (messageOf e)); exact H.
Qed.

(** *** Paid results and payment clicks *)

Lemma paid_clicks_note (w : W) (e : Event) (s : St W Agent) :
  (paid_clicks s <= paid_clicks (note w e s))%nat.
Proof.
  unfold paid_clicks, note. cbn [journal].
  rewrite List.filter_app, List.length_app. lia.
Qed.

Lemma cover_refl (s : St W Agent) : clicks_cover s s.
Proof. unfold clicks_cover. lia. Qed.

Lemma cover_trans (s1 s2 s3 : St W Agent) :
  clicks_cover s1 s2 -> clicks_cover s2 s3 -> clicks_cover s1 s3.
Proof. unfold clicks_cover. lia. Qed.

Lemma cover_note (w : W) (e : Event) (s : St W Agent) :
  (fun _ : Event => true) e = true -> clicks_cover s (note w e s).
Proof.
  intros _. unfold clicks_cover. pose proof (paid_clicks_note w e s).
  unfold paid_results, note in *. cbn [this]. lia.
Qed.

Lemma cover_failed (plot : PlotData) (applicationId : option string) (message : string) :
  Respects (@clicks_cover W)
    (push_result (W:=W) (result_of plot applicationId false false (Some message))).
Proof.
  intro s. unfold clicks_cover, paid_results, paid_clicks, push_result, modify_this.
  cbn [fst this journal results]. rewrite List.filter_app, List.length_app. cbn. lia.
Qed.

Ltac covered lemma :=
  apply (@lemma (@clicks_cover W) (fun _ => true) (fun _ => True));
  try solve [ intros; reflexivity | exact cover_refl | exact cover_trans | exact cover_note
            | intros; apply cover_failed | exact I ].

Lemma reach_payment_covered (plot : PlotData) :
  Respects (@clicks_cover W) (reach_payment page plot).
Proof. covered reach_payment_respects. Qed.

Lemma validate_funds_covered (plot : PlotData) (applicationId : option string)
      (paymentDetails : PaymentDetails) :
  Respects (@clicks_cover W) (validate_funds (W:=W) plot applicationId paymentDetails).
Proof.
  apply (@validate_funds_respects (@clicks_cover W) (fun _ => True));
    try solve [ exact cover_refl | exact cover_trans | intros; apply cover_failed | exact I ].
Qed.

Lemma click_pay_now_covered : Respects (@clicks_cover W) (click_pay_now page).
Proof.
  apply (@click_pay_now_respects (@clicks_cover W) (fun _ => true));
    try solve [ intros; reflexivity | exact cover_refl | exact cover_trans
              | exact cover_note ].
Qed.

(** A payment click that [click_pay_now] reports has gone through. *)
Lemma click_pay_now_clicked (s s' : St W Agent) :
  click_pay_now page s = (s', Ok true) ->
  (paid_clicks s + 1 <= paid_clicks s')%nat /\ paid_results s' = paid_results s.
Proof.
  unfold click_pay_now. unfold bind at 1. unfold page_observe.
  destruct (observe page "Find the Pay now button at the bottom of the page" (world s))
    as [w [e | seen]]; cbn [of_sum]; [discriminate |].
  destruct (List.find is_pay_now seen); [| discriminate].
  unfold bind at 1.
  match goal with
  | |- context [retry_ page ?fn ?a ?d ?st] => destruct (retry_ page fn a d st) as [s1 [[] | e |]] eqn:Hretry
  end; try discriminate.
  unfold ret. intro H. injection H as <-.
  apply (@retry_returned W Agent page unit (act_and_settle page pay_click)
           (fun a b => (paid_clicks a <= paid_clicks b)%nat /\ paid_results b = paid_results a))
    in Hretry.
  - destruct Hretry as (s2 & [Hle Hres] & Hlast).
    pose proof (paid_clicks_note w (EObserve "Find the Pay now button at the bottom of the page"
                                      (inr seen)) s) as Hfirst.
    assert (Hsame : paid_results (note w (EObserve "Find the Pay now button at the bottom of the page" (inr seen)) s) = paid_results s) by reflexivity.
    revert Hlast. unfold act_and_settle, bind, get_this, page_act.
    destruct (act page pay_click (world s2)) as [w2 [e |]]; cbn [of_thrown]; [discriminate |].
    unfold sleep_. intro H. injection H as <-.
    split.
    + unfold paid_clicks in *. unfold sleep_st, note. cbn [journal].
      rewrite !List.filter_app, !List.length_app. cbn [List.filter is_paid_click].
      rewrite String.eqb_refl. cbn [List.length]. unfold note in *. cbn [journal] in *. lia.
    + unfold sleep_st, note, paid_results in *. cbn [this] in *. congruence.
  - intros s0. split; [lia | reflexivity].
  - intros s1' s2' s3' [H1 H2] [H3 H4]. split; [lia | congruence].
  - intro s0. unfold act_and_settle, bind, get_this, page_act.
    destruct (act page pay_click (world s0)) as [w2 [e |]]; cbn [of_thrown fst].
    + split; [apply paid_clicks_note | reflexivity].
    + unfold sleep_, sleep_st. cbn [fst]. split; [| reflexivity].
      etransitivity; [| apply paid_clicks_note]. apply paid_clicks_note.
  - intros ms s0. unfold sleep_st. split; [apply paid_clicks_note | reflexivity].
Qed.

Lemma paid_results_note (w : W) (e : Event) (s : St W Agent) :
  (fun _ : Event => true) e = true -> same (@paid_results W) s (note w e s).
Proof. intros _. reflexivity. Qed.

Ltac unpaid leaf :=
  unfold Keeps;
  respects_with page (same (@paid_results W)) (fun _ : Event => true)
    (same_refl (@paid_results W)) (@same_trans _ _ _ (@paid_results W)) paid_results_note
    ltac:(first [ harmless_leaf | leaf ]).

Ltac unpaid_loop lemma :=
  apply (@lemma (same (@paid_results W)) (fun _ => true));
  solve [ intros; reflexivity | exact (@same_trans _ _ _ (@paid_results W))
        | exact paid_results_note ].

(** [await_and_download] records one result, at its end. *)
Lemma await_and_download_records_once (plot : PlotData) (applicationId : option string) :
  AtMost (@paid_results W) 1 (await_and_download page plot applicationId).
Proof.
  unfold await_and_download.
  repeat (apply AtMost_bind_l;
          [ solve [ unpaid ltac:(first [ unpaid_loop url_change_loop_respects
                                       | unpaid_loop download_page_loop_respects
                                       | unpaid_loop sleep_seconds_respects ]) ]
          | intro ]).
  intro s. unfold push_result, modify_this, paid_results. cbn [fst this results].
  rewrite List.filter_app, List.length_app. cbn. lia.
Qed.

Lemma await_and_download_clicks_stay (plot : PlotData) (applicationId : option string)
      (s : St W Agent) :
  (paid_clicks s <= paid_clicks (fst (await_and_download page plot applicationId s)))%nat.
Proof.
  apply (@await_and_download_respects
           (fun a b : St W Agent => (paid_clicks a <= paid_clicks b)%nat)
           (fun _ => true) (fun _ => True));
    try solve [ intros; reflexivity | intros; lia | intros; apply paid_clicks_note
              | intros; intro; apply Nat.le_refl | exact I ].
Qed.

Lemma searchAndFilterPlot_covered (plot : PlotData) :
  Respects (@clicks_cover W) (searchAndFilterPlot page plot).
Proof.
  intro s. unfold searchAndFilterPlot, bind.
  pose proof (reach_payment_covered plot s) as Hreach.
  destruct (reach_payment page plot s) as [s1 [[[applicationId details] |] | e |]];
    cbn [fst] in *; try exact Hreach.
  unfold and_then at 1, bind.
  pose proof (validate_funds_covered plot applicationId details s1) as Hfunds.
  destruct (validate_funds plot applicationId details s1) as [s2 [[|] | e |]];
    cbn [fst] in *; try (eapply cover_trans; eassumption).
  unfold and_then, bind.
  pose proof (click_pay_now_covered s2) as Hclick.
  pose proof (@click_pay_now_clicked s2) as Hclicked.
  destruct (click_pay_now page s2) as [s3 [[|] | e |]]; cbn [fst] in *;
    try (eapply cover_trans; [eassumption |]; eapply cover_trans; eassumption).
  destruct (Hclicked s3 eq_refl) as [Hmore Hsame].
  pose proof (await_and_download_records_once plot applicationId s3) as Hone.
  pose proof (await_and_download_clicks_stay plot applicationId s3) as Hstay.
  unfold clicks_cover in *. lia.
Qed.

(** No result is recorded as paid without a payment click that went
    through: over the plot loop, the results with [paymentCompleted] grow
    by no more than the [act] calls with the payment text that returned
    without an error. *)
Theorem paid_results_were_clicked (s : St W Agent) :
  (paid_results (fst (process_plots_and_report page s)) + paid_clicks s
   <= paid_clicks (fst (process_plots_and_report page s)) + paid_results s)%nat.
Proof.
  change (clicks_cover s (fst (process_plots_and_report page s))).
  revert s.
  apply (@process_plots_and_report_respects (@clicks_cover W) (fun _ => true)
           (fun _ => True));
    try solve [ intros; reflexivity | exact cover_refl | exact cover_trans
              | exact cover_note | intros; apply cover_failed
              | exact searchAndFilterPlot_covered | intros; exact I ].
Qed.

(** *** One result for a plot *)

Lemma recorded_note (w : W) (e : Event) (s : St W Agent) :
  (fun _ : Event => true) e = true -> same (@recorded W) s (note w e s).
Proof. intros _. reflexivity. Qed.

Ltac unrecorded leaf :=
  unfold Keeps;
  respects_with page (same (@recorded W)) (fun _ : Event => true)
    (same_refl (@recorded W)) (@same_trans _ _ _ (@recorded W)) recorded_note
    ltac:(first [ harmless_leaf | leaf ]).

Ltac unrecorded_part lemma :=
  apply (@lemma (same (@recorded W)) (fun _ => true));
  solve [ intros; reflexivity | exact (@same_trans _ _ _ (@recorded W))
        | exact recorded_note ].

Lemma navigateBackToServicePage_unrecorded :
  Keeps (@recorded W) (navigateBackToServicePage page).
Proof. unrecorded_part navigateBackToServicePage_respects. Qed.

Lemma open_application_unrecorded (plot : PlotData) :
  Keeps (@recorded W) (open_application page plot).
Proof. unrecorded_part open_application_respects. Qed.

Lemma read_payment_details_unrecorded : Keeps (@recorded W) (read_payment_details page).
Proof. unrecorded_part read_payment_details_respects. Qed.

Lemma click_pay_now_unrecorded : Keeps (@recorded W) (click_pay_now page).
Proof.
  apply (@click_pay_now_respects (same (@recorded W)) (fun _ => true));
    solve [ intros; reflexivity | exact (@same_trans _ _ _ (@recorded W))
          | exact recorded_note ].
Qed.

Lemma push_result_records_one (r : PlotResult) :
  AtMost (@recorded W) 1 (push_result (W:=W) r).
Proof.
  intro s. unfold push_result, modify_this, recorded. cbn [fst this results].
  rewrite List.length_app. cbn. lia.
Qed.

Lemma Records_keeps (X : Type) (go_on : X -> bool) (m : M W Agent X) :
  Keeps (@recorded W) m -> Records_unless go_on m.
Proof.
  intros Hm s. specialize (Hm s). unfold same in Hm. split; [lia | intros; exact Hm].
Qed.

Lemma Records_after (X Y : Type) (go_on : Y -> bool) (m : M W Agent X)
      (k : X -> M W Agent Y) :
  Keeps (@recorded W) m -> (forall x, Records_unless go_on (k x)) ->
  Records_unless go_on (bind m k).
Proof.
  intros Hm Hk s. specialize (Hm s). unfold same in Hm. unfold bind.
  destruct (m s) as [s1 [x | e |]]; cbn [fst snd] in *.
  - destruct (Hk x s1) as [H1 H2]. split; [lia |].
    intros y Hy Hgo. rewrite (H2 y Hy Hgo). exact Hm.
  - split; [lia | discriminate].
  - split; [lia | discriminate].
Qed.

Lemma Records_then (X Y : Type) (go_on1 : X -> bool) (go_on2 : Y -> bool)
      (m : M W Agent X) (k : X -> M W Agent Y) :
  Records_unless go_on1 m ->
  (forall x, go_on1 x = true -> Records_unless go_on2 (k x)) ->
  (forall x, go_on1 x = false ->
     Keeps (@recorded W) (k x) /\ forall s y, snd (k x s) = Ok y -> go_on2 y = false) ->
  Records_unless go_on2 (bind m k).
Proof.
  intros Hm Hgo Hstop s. destruct (Hm s) as [H1 H2]. unfold bind.
  destruct (m s) as [s1 [x | e |]]; cbn [fst snd] in *.
  - destruct (go_on1 x) eqn:Hx.
    + specialize (H2 x eq_refl Hx). destruct (Hgo x Hx s1) as [H3 H4].
      split; [lia |]. intros y Hy Hy2. rewrite (H4 y Hy Hy2). exact H2.
    + destruct (Hstop x Hx) as [Hkeep Hnone]. specialize (Hkeep s1). unfold same in Hkeep.
      split; [lia |]. intros y Hy Hy2. rewrite (Hnone s1 y Hy) in Hy2. discriminate Hy2.
  - split; [lia | discriminate].
  - split; [lia | discriminate].
Qed.

Lemma Records_stop (X : Type) (go_on : X -> bool) (m : M W Agent X) :
  AtMost (@recorded W) 1 m -> (forall s x, snd (m s) = Ok x -> go_on x = false) ->
  Records_unless go_on m.
Proof.
  intros Hm Hstop s. split; [apply Hm |].
  intros x Hx Hgo. rewrite (Hstop s x Hx) in Hgo. discriminate Hgo.
Qed.

Ltac past_the_page :=
  repeat (apply Records_after; [ solve [ unrecorded fail ] | intro ]).

Lemma search_plot_records (plot : PlotData) :
  Records_unless (fun found : bool => found) (search_plot page plot).
Proof.
  unfold search_plot, act_and_settle. past_the_page.
  match goal with |- Records_unless _ (if ?c then _ else _) => destruct c end.
  - apply Records_stop.
    + apply AtMost_bind_r; [apply push_result_records_one |].
      intros _. unrecorded ltac:(apply navigateBackToServicePage_unrecorded).
    + intros st out. unfold bind, push_result, modify_this.
      destruct (navigateBackToServicePage page _) as [s1 [[] | e |]]; cbn [snd];
        try discriminate.
      unfold ret. intro H. injection H as <-. reflexivity.
  - apply Records_keeps. unrecorded fail.
Qed.

Lemma extract_application_id_records (plot : PlotData) (pageContent : PageContent) :
  Records_unless (@is_some string) (extract_application_id page plot pageContent).
Proof.
  unfold extract_application_id.
  destruct (ai_application_id pageContent); [apply Records_keeps; unrecorded fail |].
  apply Records_after; [unrecorded fail | intro text].
  destruct (id_from_text text); [apply Records_keeps; unrecorded fail |].
  apply Records_stop.
  - apply AtMost_bind_r; [apply push_result_records_one | intros _; unrecorded fail].
  - intros st out. unfold bind, push_result, modify_this, ret. cbn [snd].
    intro H. injection H as <-. reflexivity.
Qed.

Lemma reach_payment_records (plot : PlotData) :
  Records_unless (@is_some (option string * PaymentDetails)) (reach_payment page plot).
Proof.
  unfold reach_payment.
  apply (@Records_then _ _ (fun found : bool => found) _ _ _ (search_plot_records plot)).
  - intros found ->. cbn [negb].
    apply Records_after; [apply open_application_unrecorded | intro pageContent].
    apply (@Records_then _ _ (@is_some string) _ _ _
             (extract_application_id_records plot pageContent)).
    + intros [id |] Hid; [| discriminate Hid].
      apply Records_keeps. unrecorded ltac:(apply read_payment_details_unrecorded).
    + intros [id |] Hid; [discriminate Hid |]. split; [unrecorded fail |].
      intros st out. unfold ret. cbn [snd]. intro H. injection H as <-. reflexivity.
  - intros found ->. cbn [negb]. split; [unrecorded fail |].
    intros st out. unfold ret. cbn [snd]. intro H. injection H as <-. reflexivity.
Qed.

Lemma validate_funds_records (plot : PlotData) (applicationId : option string)
      (paymentDetails : PaymentDetails) :
  Records_unless (fun go_on : bool => go_on)
    (validate_funds (W:=W) plot applicationId paymentDetails).
Proof.
  assert (Hstop : forall (r : PlotResult) (k : M W Agent bool),
             Keeps (@recorded W) k ->
             (forall s x, snd (k s) = Ok x -> x = false) ->
             Records_unless (fun go_on : bool => go_on) (push_result r ;; k)).
  { intros r k Hk Hfalse. apply Records_stop.
    - apply AtMost_bind_r; [apply push_result_records_one | intros _; exact Hk].
    - intros st out. unfold bind, push_result, modify_this. apply Hfalse. }
  unfold validate_funds. cbv zeta.
  match goal with |- Records_unless _ (if ?c then _ else _) => destruct c end.
  - apply Hstop; [unrecorded fail |].
    intros st out. unfold ret. cbn [snd]. intro H. injection H as <-. reflexivity.
  - apply Records_after; [unrecorded fail | intro a].
    destruct (Nat.eqb (List.length (results a)) 0).
    + cbv zeta.
      match goal with |- Records_unless _ (if ?c then _ else _) => destruct c end.
      * apply Hstop; [unrecorded fail | intros st out; unfold throw; discriminate].
      * apply Records_keeps. unrecorded fail.
    + match goal with |- Records_unless _ (if ?c then _ else _) => destruct c end.
      * apply Hstop; [unrecorded fail |].
        intros st out. unfold ret. cbn [snd]. intro H. injection H as <-. reflexivity.
      * apply Records_keeps. unrecorded fail.
Qed.

Lemma await_and_download_records (plot : PlotData) (applicationId : option string) :
  AtMost (@recorded W) 1 (await_and_download page plot applicationId).
Proof.
  unfold await_and_download.
  repeat (apply AtMost_bind_l;
          [ solve [ unrecorded ltac:(first [ unrecorded_part url_change_loop_respects
                                           | unrecorded_part download_page_loop_respects
                                           | unrecorded_part sleep_seconds_respects ]) ]
          | intro ]).
  apply push_result_records_one.
Qed.

Lemma searchAndFilterPlot_records (plot : PlotData) :
  AtMost (@recorded W) 1 (searchAndFilterPlot page plot).
Proof.
  intro s. unfold searchAndFilterPlot, bind.
  destruct (reach_payment_records plot s) as [Hreach Hsame].
  destruct (reach_payment page plot s) as [s1 [[[applicationId details] |] | e |]];
    cbn [fst snd] in *; try exact Hreach.
  specialize (Hsame _ eq_refl eq_refl).
  unfold and_then at 1, bind.
  destruct (validate_funds_records plot applicationId details s1) as [Hfunds Hgo].
  destruct (validate_funds plot applicationId details s1) as [s2 [[|] | e |]];
    cbn [fst snd] in *; try (unfold ret; cbn [fst]; lia).
  specialize (Hgo _ eq_refl eq_refl).
  unfold and_then, bind.
  pose proof (click_pay_now_unrecorded s2) as Hclick. unfold same in Hclick.
  destruct (click_pay_now page s2) as [s3 [[|] | e |]]; cbn [fst] in *;
    try (unfold ret; cbn [fst]; lia).
  pose proof (await_and_download_records plot applicationId s3) as Hone. lia.
Qed.

Lemma records_of_refl (number : string) (s : St W Agent) : records_of number s s.
Proof. exists []. split; [rewrite List.app_nil_r; reflexivity | constructor]. Qed.

Lemma records_of_trans (number : string) (s1 s2 s3 : St W Agent) :
  records_of number s1 s2 -> records_of number s2 s3 -> records_of number s1 s3.
Proof.
  intros (a1 & H1 & F1) (a2 & H2 & F2). exists (a1 ++ a2). split.
  - rewrite H2, H1, List.app_assoc. reflexivity.
  - apply List.Forall_app. split; assumption.
Qed.

Lemma records_of_note (number : string) (w : W) (e : Event) (s : St W Agent) :
  (fun _ : Event => true) e = true -> records_of number s (note w e s).
Proof.
  intros _. exists []. split; [cbn; rewrite List.app_nil_r; reflexivity | constructor].
Qed.

Lemma records_of_push (plot : PlotData) (applicationId : option string)
      (payment download : bool) (err : option string) :
  Respects (@records_of W (plotNumber plot))
    (push_result (W:=W) (result_of plot applicationId payment download err)).
Proof.
  intro s. exists [result_of plot applicationId payment download err].
  split; [reflexivity | constructor; [reflexivity | constructor]].
Qed.

Lemma searchAndFilterPlot_of_plot (plot : PlotData) :
  Respects (@records_of W (plotNumber plot)) (searchAndFilterPlot page plot).
Proof.
  apply (@searchAndFilterPlot_respects (@records_of W (plotNumber plot)) (fun _ => true)
           (fun p => p = plot));
    try solve [ intros; reflexivity | exact (records_of_refl (plotNumber plot))
              | exact (@records_of_trans (plotNumber plot))
              | exact (@records_of_note (plotNumber plot))
              | intros; subst; apply records_of_push ].
Qed.

(** One pass of the loop: the plot and the [catch] around it. *)
Lemma plot_pass_records (plot : PlotData) :
  AtMost (@recorded W) 1
    (try_catch (searchAndFilterPlot page plot)
       (fun plotError =>
          let errorMessage := messageOf plotError in
          if is_batch_error errorMessage then throw plotError
          else
            (a <- get_this ;;
             let alreadyTracked :=
               existsb (fun r => String.eqb (r_plotNumber r) (plotNumber plot)) (results a) in
             if negb alreadyTracked
             then push_result (result_of plot None false false (Some errorMessage))
             else ret tt))).
Proof.
  intro s. unfold try_catch.
  pose proof (searchAndFilterPlot_records plot s) as Hone.
  destruct (searchAndFilterPlot_of_plot plot s) as (added & Hadded & Hplot).
  destruct (searchAndFilterPlot page plot s) as [s1 [[] | e |]]; cbn [fst] in *;
    try exact Hone.
  cbv zeta. destruct (is_batch_error (messageOf e)); [exact Hone |].
  unfold bind, get_this.
  destruct (existsb (fun r => String.eqb (r_plotNumber r) (plotNumber plot))
              (results (this s1))) eqn:Htracked; cbn [negb]; [exact Hone |].
  assert (Hnone : added = []).
  { destruct added as [|r added]; [reflexivity |]. exfalso.
    rewrite Hadded, List.existsb_app in Htracked.
    apply orb_false_iff in Htracked. destruct Htracked as [_ Htracked].
    cbn [existsb] in Htracked. inversion Hplot as [|? ? Hr _]; subst.
    rewrite Hr, String.eqb_refl in Htracked. discriminate Htracked. }
  subst added. rewrite List.app_nil_r in Hadded.
  unfold push_result, modify_this, recorded. cbn [fst this results].
  rewrite List.length_app, Hadded. cbn. lia.
Qed.

Lemma plots_loop_records (rest : list PlotData) :
  forall i total, AtMost (@recorded W) (List.length rest) (plots_loop page rest i total).
Proof.
  induction rest as [|plot rest IH]; intros i total; cbn [plots_loop].
  - intro s. unfold ret. cbn [fst]. lia.
  - change (List.length (plot :: rest)) with (1 + List.length rest)%nat.
    apply AtMost_bind; [apply plot_pass_records | intros _].
    apply AtMost_bind_l; [| intros _; apply IH].
    unrecorded ltac:(apply navigateBackToServicePage_unrecorded).
Qed.

(** A plot of the list leaves at most one result, whatever happens while
    it is processed: the loop adds no more results than the list has
    plots.  So the "Plots Skipped" of the summary, the plots less the
    results, is never negative after a run that started without results. *)
Theorem one_result_for_a_plot (s : St W Agent) :
  let s' := fst (process_plots_and_report page s) in
  (recorded s' <= recorded s + List.length (plots (this s)))%nat
  /\ 0 <= plotsSkipped (this s') + plotsAttempted (this s).
Proof.
  cbv zeta.
  assert (Hle : (recorded (fst (process_plots_and_report page s))
                 <= recorded s + List.length (plots (this s)))%nat).
  { unfold process_plots_and_report, try_catch, process_plots, bind, get_this.
    pose proof (plots_loop_records (plots (this s)) 0
                  (Z.of_nat (List.length (plots (this s)))) s) as H.
    destruct (plots_loop page (plots (this s)) 0 (Z.of_nat (List.length (plots (this s)))) s)
      as [s1 [[] | e |]]; cbn [fst] in *; try exact H.
    destruct (is_batch_error (messageOf e)); exact H. }
  split; [exact Hle |].
  pose proof (process_plots_and_report_plots s) as Hplots. unfold same in Hplots.
  unfold plotsSkipped, totalPlotsUploaded, plotsAttempted. rewrite Hplots.
  unfold recorded in Hle. lia.
Qed.

End Run.

Lemma summary_counters_fit_witness :
  let pg := Scripted.page [("A-1", Scripted.smooth "300" "100");
                           ("A-2", Scripted.smooth "50" "100")] Scripted.not_owned in
  let s := mkSt "" []
             {| plots := [{| plotNumber := "A-1"; rowIndex := 2 |};
                          {| plotNumber := "A-2"; rowIndex := 3 |};
                          {| plotNumber := "A-3"; rowIndex := 4 |}];
                results := []; config := defaultDariAffectionPlanConfig |} in
  let a := this (fst (process_plots_and_report pg s)) in
  Forall (fun r => well_formed r = true) (results (this s))
  /\ (paidPlots a, downloadedPlots a, notFoundPlots a, otherFailedPlots a, plotsAttempted a)
     = (1, 1, 1, 1, 3)
  /\ (Forall (fun r => well_formed r = true) (results a)
      /\ pendingDownloads a = Z.of_nat (List.length (pendingResults a))
      /\ downloadedPlots a <= paidPlots a
      /\ paidPlots a + notFoundPlots a + otherFailedPlots a + count has_empty_error a
         = plotsAttempted a
      /\ (closing a = NoneProcessed -> paidPlots a = 0)).
Proof.
  cbv zeta. split; [constructor |]. split; [vm_compute; reflexivity |].
  apply (@summary_counters_fit string
           (Scripted.page [("A-1", Scripted.smooth "300" "100");
                           ("A-2", Scripted.smooth "50" "100")] Scripted.not_owned)
           (mkSt "" []
              {| plots := [{| plotNumber := "A-1"; rowIndex := 2 |};
                           {| plotNumber := "A-2"; rowIndex := 3 |};
                           {| plotNumber := "A-3"; rowIndex := 4 |}];
                 results := []; config := defaultDariAffectionPlanConfig |})).
  constructor.
Defined.

End AffectionRunProofs.
